(** * Chef AI learning lab: the learning engine

    A shallow embedding of the adaptive learning code of the repository
    ([backend/learning/core.py] and [backend/app/learning_system.py]) and the
    properties of it that the specification states.

    Conventions of the embedding.
    - Python numbers ([int] and [float]) are exact rationals [Q]; the
      rounding of binary floating point is not modelled.
    - A Python [dict] whose iteration order is observed is an
      insertion-ordered association list ([odict]); a dict that is only
      read by key is a [gmap].
    - A method that mutates [self] and may raise is a function from the
      object's state to the state it leaves behind and either the raised
      exception or the returned value: an exception does not undo the
      mutations made before it. *)

From Stdlib Require Import ZArith QArith Qminmax Lia Lqa List String Ascii Bool.
From Stdlib Require Import Sorting.Sorted Sorting.Permutation.
From stdpp Require Import base decidable option list strings gmap.

Local Open Scope Z_scope.
Local Open Scope Q_scope.

(** ** Python numbers *)

(** [a < b] on numbers, as a boolean. *)
Definition Qlt_bool (a b : Q) : bool := negb (Qle_bool b a).

(** The builtin [min(a, b)]: the second argument only when it is smaller. *)
Definition py_min (a b : Q) : Q := if Qlt_bool b a then b else a.

(** The builtin [max(a, b)]: the second argument only when it is larger. *)
Definition py_max (a b : Q) : Q := if Qlt_bool a b then b else a.

(** ** backend/learning/core.py *)

(** *** [class IngredientLearner] *)
Module IngredientLearner.

(** [defaultdict(lambda: defaultdict(float))] and
    [defaultdict(lambda: defaultdict(lambda: 1.0))]: reading a missing
    entry creates it with the default. *)
Record t := mk {
  compatibility_matrix : gmap string (gmap string Q);
  confidence_scores : gmap string (gmap string Q);
  (* the embedding network, known here by its vocabulary size only *)
  embedding_model : option nat;
  (* never written by the code: [len(self.ingredient_vectors)] is 0 *)
  ingredient_vectors : gmap string unit
}.

Definition init : t :=
  {| compatibility_matrix := ∅; confidence_scores := ∅;
     embedding_model := None; ingredient_vectors := ∅ |}.

(** [m[i1][i2]] on a defaultdict of defaultdicts: the value read and the
    matrix with the row and the cell created when they were absent. *)
Definition dd_read (dflt : Q) (m : gmap string (gmap string Q))
    (i1 i2 : string) : Q * gmap string (gmap string Q) :=
  let row := default ∅ (m !! i1) in
  let v := default dflt (row !! i2) in
  (v, <[i1 := <[i2 := v]> row]> m).

(** [m[i1][i2] = v]. *)
Definition dd_write (m : gmap string (gmap string Q))
    (i1 i2 : string) (v : Q) : gmap string (gmap string Q) :=
  <[i1 := <[i2 := v]> (default ∅ (m !! i1))]> m.

(** The body of the two loops of [learn_from_feedback]. *)
Definition learn_pair (rating : Q) (i1 i2 : string) (s : t) : t :=
  if decide (i1 = i2) then s else
  let '(current_score, cm) := dd_read 0 (compatibility_matrix s) i1 i2 in
  let '(confidence, cs) := dd_read 1 (confidence_scores s) i1 i2 in
  let new_score := (current_score * confidence + rating) / (confidence + 1) in
  let new_confidence := confidence + 1 in
  {| compatibility_matrix := dd_write cm i1 i2 new_score;
     confidence_scores := dd_write cs i1 i2 new_confidence;
     embedding_model := embedding_model s;
     ingredient_vectors := ingredient_vectors s |}.

(** [for i2 in ingredients: ...] for a fixed [i1]. *)
Definition learn_row (rating : Q) (i1 : string) (ingredients : list string)
    (s : t) : t :=
  fold_left (fun s i2 => learn_pair rating i1 i2 s) ingredients s.

(** [_update_embeddings]: the model is created on the first call; the
    training itself is a comment in the source. *)
Definition _update_embeddings (ingredients : list string) (rating : Q)
    (s : t) : t :=
  match embedding_model s with
  | Some _ => s
  | None =>
      let vocab_size := (size (ingredient_vectors s) + length ingredients)%nat in
      {| compatibility_matrix := compatibility_matrix s;
         confidence_scores := confidence_scores s;
         embedding_model := Some vocab_size;
         ingredient_vectors := ingredient_vectors s |}
  end.

Definition learn_from_feedback (ingredients : list string) (rating : Q)
    (s : t) : t :=
  let s' := fold_left (fun s i1 => learn_row rating i1 ingredients s)
                      ingredients s in
  _update_embeddings ingredients rating s'.

(** The queries of the specification: the cell, or the default of the
    defaultdict when it was never written. *)
Definition compatibility (s : t) (a b : string) : Q :=
  default 0 (default ∅ (compatibility_matrix s !! a) !! b).

Definition confidence (s : t) (a b : string) : Q :=
  default 1 (default ∅ (confidence_scores s !! a) !! b).

(** A sequence of updates, each an ingredient list and a rating. *)
Definition run (events : list (list string * Q)) (s : t) : t :=
  fold_left (fun s ev => learn_from_feedback (fst ev) (snd ev) s) events s.

(** A cell of a matrix, or [dflt] when it was never written. *)
Definition read (dflt : Q) (m : gmap string (gmap string Q)) (a b : string) : Q :=
default dflt (default ∅ (m !! a) !! b).

(** The score and the confidence of an ordered pair, and the blend that
    one visit of the pair applies to them. *)
Definition cell (s : t) (a b : string) : Q * Q :=
  (compatibility s a b, confidence s a b).

Definition blend (rating : Q) (p : Q * Q) : Q * Q :=
  ((fst p * snd p + rating) / (snd p + 1), snd p + 1).

End IngredientLearner.

(** *** [class RecipeLearner] *)
Module RecipeLearner.

(** The part of [networkx.DiGraph] the code uses: the node set and the
    [weight] attribute of every edge. *)
Record DiGraph := mkGraph {
  nodes : gset string;
  edges : gmap (string * string) Z
}.

Definition has_edge (g : DiGraph) (u v : string) : bool :=
  bool_decide (is_Some (edges g !! (u, v))).

(** [g.add_edge(u, v, weight=w)]: both end points become nodes. *)
Definition add_edge (g : DiGraph) (u v : string) (w : Z) : DiGraph :=
  {| nodes := {[u]} ∪ ({[v]} ∪ nodes g); edges := <[(u, v) := w]> (edges g) |}.

(** [g[u][v]['weight'] += 1] on an existing edge. *)
Definition bump_weight (g : DiGraph) (u v : string) : DiGraph :=
  {| nodes := nodes g; edges := alter (fun w => (w + 1)%Z) (u, v) (edges g) |}.

Record t := mk {
  technique_graph : DiGraph;
  technique_difficulties : gmap (string * string) Q;
  (* never written by the code *)
  successful_patterns : list (list string)
}.

Definition init : t :=
  {| technique_graph := {| nodes := ∅; edges := ∅ |};
     technique_difficulties := ∅;
     successful_patterns := [] |}.

Definition _update_difficulty (tech1 tech2 : string) (rating : Q) (s : t) : t :=
  let current_diff := default (1 # 2) (technique_difficulties s !! (tech1, tech2)) in
  {| technique_graph := technique_graph s;
     technique_difficulties :=
       <[(tech1, tech2) := (current_diff + rating) / 2]> (technique_difficulties s);
     successful_patterns := successful_patterns s |}.

(** The body of the loop, for [current, next_tech = techniques[i], techniques[i + 1]]. *)
Definition learn_transition (current next_tech : string) (success_rating : Q)
    (s : t) : t :=
  let g := technique_graph s in
  let g' := if has_edge g current next_tech
            then bump_weight g current next_tech
            else add_edge g current next_tech 1 in
  _update_difficulty current next_tech success_rating
    {| technique_graph := g';
       technique_difficulties := technique_difficulties s;
       successful_patterns := successful_patterns s |}.

(** [for i in range(len(techniques) - 1)]: every two neighbours, in order. *)
Fixpoint learn_transitions (techniques : list string) (success_rating : Q)
    (s : t) : t :=
  match techniques with
  | current :: (next_tech :: _) as rest =>
      learn_transitions rest success_rating
        (learn_transition current next_tech success_rating s)
  | _ => s
  end.

Definition learn_technique_sequence (techniques : list string)
    (success_rating : Q) (s : t) : t :=
  if Qlt_bool (7 # 10) success_rating
  then learn_transitions techniques success_rating s
  else s.

(** A sequence of updates, each a technique list and a rating. *)
Definition run (events : list (list string * Q)) (s : t) : t :=
  fold_left (fun s ev => learn_technique_sequence (fst ev) (snd ev) s) events s.

End RecipeLearner.

(** *** [class ComplexityManager] *)
Module ComplexityManager.

(** The keys of [recipe_data] that [update_complexity] reads with
    [.get]; [None] is an absent key. *)
Record recipe_data := mkData {
  rating : option Q;
  techniques : option (list string);
  timestamp : option string
}.

Record log_entry := mkEntry {
  level : Z;
  success_rate : Q;
  entry_timestamp : option string
}.

Record t := mk {
  current_level : Z;
  progression_history : list log_entry
}.

Definition init : t := {| current_level := 0; progression_history := [] |}.

Definition skill_thresholds : list (Z * string) :=
  [(0, "Beginner"); (20, "Intermediate"); (40, "Advanced");
   (60, "Expert"); (80, "Master")]%Z%string.

Definition update_complexity (d : recipe_data) (s : t) : t :=
  let success_rate := default 0 (rating d) in
  let technique_count := length (default [] (techniques d)) in
  let lvl := current_level s in
  let lvl' :=
    if Qlt_bool (8 # 10) success_rate
       && Qle_bool (inject_Z lvl / 10) (inject_Z (Z.of_nat technique_count))
    then Z.min 100 (lvl + 5)
    else if Qlt_bool success_rate (3 # 10)
    then Z.max 0 (lvl - 2)
    else lvl in
  {| current_level := lvl';
     progression_history :=
       progression_history s ++
         [{| level := lvl'; success_rate := success_rate;
             entry_timestamp := timestamp d |}] |}.

(** [sorted(self.skill_thresholds.items(), reverse=True)], written out. *)
Definition get_current_skill_level (s : t) : string :=
  let fix scan (l : list (Z * string)) : string :=
    match l with
    | [] => "Beginner"%string
    | (threshold, lbl) :: l' =>
        if (threshold <=? current_level s)%Z then lbl else scan l'
    end in
  scan (rev skill_thresholds).

Definition run (events : list recipe_data) (s : t) : t :=
  fold_left (fun s d => update_complexity d s) events s.

(** What [update_complexity] reads from an event. *)
Definition success_rate_of (d : recipe_data) : Q := default 0 (rating d).

Definition technique_count_of (d : recipe_data) : Z :=
  Z.of_nat (length (default [] (techniques d))).

(** Every event of a run of promotions starting at level [lvl] uses at
    least a tenth of the level reached before it in techniques. *)
Fixpoint enough_techniques (lvl : Z) (events : list recipe_data) : Prop :=
  match events with
  | [] => True
  | d :: events' =>
      inject_Z lvl / 10 <= inject_Z (technique_count_of d)
      /\ enough_techniques (Z.min 100 (lvl + 5)) events'
  end.

(** Three events, to run the model on. *)
Definition promoting_event : recipe_data :=
  {| rating := Some (9 # 10);
     techniques := Some ["dicing"; "searing"]%string;
     timestamp := None |}.

Definition demoting_event : recipe_data :=
  {| rating := Some (2 # 10); techniques := Some []; timestamp := None |}.

Definition mediocre_event : recipe_data :=
  {| rating := Some (5 # 10); techniques := Some []; timestamp := None |}.

End ComplexityManager.

(** ** Python objects used by backend/app/learning_system.py *)

(** The exceptions the modelled code can raise. *)
Inductive exn :=
  | KeyError (key : string)
  | AttributeError (obj attr : string)
  | ValueError (what : string)
  | TypeError (what : string)
  | ZeroDivisionError
  | OSError (what : string)
  | JSONDecodeError (what : string).

(** Insertion-ordered dictionaries: a key is written in place when it is
    present and appended otherwise, as a Python [dict] does. *)
Section odict.
Context {K V : Type} `{EqDecision K}.

Fixpoint od_get (k : K) (d : list (K * V)) : option V :=
  match d with
  | [] => None
  | (k', v) :: d' => if decide (k = k') then Some v else od_get k d'
  end.

(** [k in d] *)
Definition od_mem (k : K) (d : list (K * V)) : bool :=
  match od_get k d with Some _ => true | None => false end.

(** [d[k] = v] *)
Fixpoint od_set (k : K) (v : V) (d : list (K * V)) : list (K * V) :=
  match d with
  | [] => [(k, v)]
  | (k', v') :: d' =>
      if decide (k = k') then (k', v) :: d' else (k', v') :: od_set k v d'
  end.

(** [d[k] = f(d[k])] for a key that is present (no effect otherwise). *)
Fixpoint od_alter (f : V -> V) (k : K) (d : list (K * V)) : list (K * V) :=
  match d with
  | [] => []
  | (k', v') :: d' =>
      if decide (k = k') then (k', f v') :: d' else (k', v') :: od_alter f k d'
  end.
End odict.

Definition odict (K V : Type) : Type := list (K * V).

(** A method on an object of state [S]: the state left behind, and the
    exception raised or the value returned. *)
Definition M (S A : Type) : Type := S -> S * (exn + A).

Definition ret {S A} (a : A) : M S A := fun s => (s, inr a).
Definition raise {S A} (e : exn) : M S A := fun s => (s, inl e).
Definition bind {S A B} (m : M S A) (k : A -> M S B) : M S B :=
  fun s => match m s with
           | (s', inr a) => k a s'
           | (s', inl e) => (s', inl e)
           end.
Definition get {S} : M S S := fun s => (s, inr s).
Definition put {S} (s : S) : M S unit := fun _ => (s, inr tt).
(** A computation that cannot touch the state, run inside a method. *)
Definition lift {S A} (r : exn + A) : M S A := fun s => (s, r).

Declare Scope py_scope.
Delimit Scope py_scope with py.
Notation "x <- c1 ;; c2" := (bind c1 (fun x => c2))
  (at level 100, c1 at next level, right associativity) : py_scope.
Notation "c1 ;; c2" := (bind c1 (fun _ => c2))
  (at level 100, right associativity) : py_scope.

(** [for x in l: body(x)] *)
Fixpoint for_each {S A} (l : list A) (body : A -> M S unit) : M S unit :=
  match l with
  | [] => ret tt
  | x :: l' => bind (body x) (fun _ => for_each l' body)
  end.

(** The builtins whose text-level behaviour is left to Python: [int] on a
    [str] ([None] when it raises [ValueError]) and [str] of a pair of
    frozensets (their elements come out in hash order). *)
Class PyBuiltins := {
  py_int : string -> option Z;
  py_str : gset string * gset string -> string
}.

(** [s.split("-")[0]]: the text before the first dash. *)
Fixpoint before_dash (s : string) : string :=
  match s with
  | EmptyString => EmptyString
  | String c s' => if Ascii.eqb c "-" then EmptyString else String c (before_dash s')
  end.

(** ** backend/app/learning_system.py *)
Module LearningSystem.

(** [CulinaryMastery.SkillCategory], in the order of the enumeration. *)
Inductive SkillCategory :=
  | TECHNIQUE_MASTERY | FLAVOR_PAIRING | TIMING_CONTROL | INGREDIENT_KNOWLEDGE
  | RECIPE_COMPLEXITY | SEASONING_EXPERTISE | TEMPERATURE_CONTROL | PRESENTATION.

#[global] Instance SkillCategory_eq_dec : EqDecision SkillCategory.
Proof. solve_decision. Defined.

Definition all_categories : list SkillCategory :=
  [TECHNIQUE_MASTERY; FLAVOR_PAIRING; TIMING_CONTROL; INGREDIENT_KNOWLEDGE;
   RECIPE_COMPLEXITY; SEASONING_EXPERTISE; TEMPERATURE_CONTROL; PRESENTATION].

Definition value (c : SkillCategory) : string :=
  match c with
  | TECHNIQUE_MASTERY => "technique_mastery"
  | FLAVOR_PAIRING => "flavor_pairing"
  | TIMING_CONTROL => "timing_control"
  | INGREDIENT_KNOWLEDGE => "ingredient_knowledge"
  | RECIPE_COMPLEXITY => "recipe_complexity"
  | SEASONING_EXPERTISE => "seasoning_expertise"
  | TEMPERATURE_CONTROL => "temperature_control"
  | PRESENTATION => "presentation"
  end.

(** The recipe dictionary: [RecipeStep] is the pydantic model of
    [app/main.py], an ingredient is a dict read at ["item"] only. *)
Record RecipeStep := mkStep {
  step_number : Z;
  instruction : string;
  time : option string;
  tips : option (list string)
}.

Record Ingredient := mkIngredient { item : string }.

Record Recipe := mkRecipe {
  ingredients : list Ingredient;
  techniques : list string;
  steps : list RecipeStep
}.

Record Feedback := mkFeedback { rating : Q }.

(** The keys [known_recipes] is indexed with: a [str], or the pair of
    frozensets that [_is_novel_combination] builds. *)
Inductive pykey :=
  | KStr (s : string)
  | KTuple (ingredient_set technique_set : gset string).

#[global] Instance pykey_eq_dec : EqDecision pykey.
Proof. solve_decision. Defined.

Record known_recipe := mkKnown {
  first_attempted : string;
  times_attempted : Z
}.

(** [class CulinaryMastery]; [learning_history] and
    [experimentation_outcomes] are lists the code never touches. *)
Record CulinaryMastery := mkMastery {
  categories : odict SkillCategory Q;
  successful_innovations : gset (gset string)
}.

(** [class LearningSystem]: [self.mastery], [self.known_recipes],
    [self.technique_proficiency], [self.flavor_combinations]. The
    attributes [ingredient_relationships], [innovation_attempts] and
    [feedback_history] are only initialised, saved and loaded. *)
Record t := mk {
  mastery : CulinaryMastery;
  known_recipes : odict pykey known_recipe;
  technique_proficiency : gmap string Q;
  flavor_combinations : odict string (odict string Q)
}.

Definition init : t :=
  {| mastery := {| categories := map (fun c => (c, 0)) all_categories;
                   successful_innovations := ∅ |};
     known_recipes := [];
     technique_proficiency := ∅;
     flavor_combinations := [] |}.

Definition set_categories (c : odict SkillCategory Q) (s : t) : t :=
  {| mastery := {| categories := c;
                   successful_innovations := successful_innovations (mastery s) |};
     known_recipes := known_recipes s;
     technique_proficiency := technique_proficiency s;
     flavor_combinations := flavor_combinations s |}.

Definition set_known_recipes (k : odict pykey known_recipe) (s : t) : t :=
  {| mastery := mastery s; known_recipes := k;
     technique_proficiency := technique_proficiency s;
     flavor_combinations := flavor_combinations s |}.

Definition set_technique_proficiency (p : gmap string Q) (s : t) : t :=
  {| mastery := mastery s; known_recipes := known_recipes s;
     technique_proficiency := p;
     flavor_combinations := flavor_combinations s |}.

Definition set_flavor_combinations (f : odict string (odict string Q)) (s : t) : t :=
  {| mastery := mastery s; known_recipes := known_recipes s;
     technique_proficiency := technique_proficiency s;
     flavor_combinations := f |}.

(** [CulinaryMastery.calculate_overall_mastery] *)
Definition calculate_overall_mastery (m : CulinaryMastery) : exn + Q :=
  let values := map snd (categories m) in
  match values with
  | [] => inl ZeroDivisionError
  | _ => inr (fold_left Qplus values 0 / inject_Z (Z.of_nat (length values)))
  end.

Section methods.
Context `{PyBuiltins}.
Local Open Scope py_scope.

(** [sum(int(step.time.split("-")[0]) for step in recipe["steps"] if step.time)] *)
Fixpoint total_time_of (l : list RecipeStep) (acc : Z) : exn + Z :=
  match l with
  | [] => inr acc
  | step :: l' =>
      match time step with
      | None | Some EmptyString => total_time_of l' acc
      | Some txt =>
          match py_int (before_dash txt) with
          | Some n => total_time_of l' (acc + n)%Z
          | None => inl (ValueError (before_dash txt))
          end
      end
  end.

Definition len {A} (l : list A) : Q := inject_Z (Z.of_nat (length l)).

Definition _calculate_complexity (recipe : Recipe) : exn + Q :=
  let complexity := 0 in
  let num_ingredients := len (ingredients recipe) in
  let complexity := complexity + py_min 1 (num_ingredients / 10) in
  let num_techniques := len (techniques recipe) in
  let complexity := complexity + py_min 1 (num_techniques / 5) in
  let num_steps := len (steps recipe) in
  let complexity := complexity + py_min 1 (num_steps / 15) in
  match total_time_of (steps recipe) 0 with
  | inl e => inl e
  | inr total_time =>
      let complexity := complexity + py_min 1 (inject_Z total_time / 60) in
      inr (complexity / 4)
  end.

Definition row_mem (fc : odict string (odict string Q)) (a b : string) : bool :=
  od_mem b (default [] (od_get a fc)).

(** [if ing not in self.flavor_combinations: self.flavor_combinations[ing] = {}] *)
Definition ensure_row (ing : string) (fc : odict string (odict string Q))
    : odict string (odict string Q) :=
  if od_mem ing fc then fc else od_set ing [] fc.

(** [if b not in self.flavor_combinations[a]: self.flavor_combinations[a][b] = 0] *)
Definition ensure_cell (a b : string) (fc : odict string (odict string Q))
    : odict string (odict string Q) :=
  if row_mem fc a b then fc else od_alter (od_set b 0) a fc.

(** [self.flavor_combinations[a][b] += change] *)
Definition add_to_cell (a b : string) (change : Q)
    (fc : odict string (odict string Q)) : odict string (odict string Q) :=
  od_alter (od_alter (fun v => v + change) b) a fc.

(** [change = 1 if success == 1 else -0.5] *)
Definition change_of (success : Q) : Q :=
  if Qeq_bool success 1 then 1 else - (1 # 2).

Definition _update_flavor_pairing (ing1 ing2 : string) (success : Q)
    (fc : odict string (odict string Q)) : odict string (odict string Q) :=
  let fc := ensure_row ing1 fc in
  let fc := ensure_row ing2 fc in
  let fc := ensure_cell ing1 ing2 fc in
  let fc := ensure_cell ing2 ing1 fc in
  let change := change_of success in
  let fc := add_to_cell ing1 ing2 change fc in
  add_to_cell ing2 ing1 change fc.

(** [for i in range(len(ingredients)): for j in range(i + 1, len(ingredients))] *)
Fixpoint update_flavor_pairs (l : list Ingredient) (success : Q)
    (fc : odict string (odict string Q)) : odict string (odict string Q) :=
  match l with
  | [] => fc
  | ing1 :: rest =>
      update_flavor_pairs rest success
        (fold_left (fun fc ing2 =>
                      _update_flavor_pairing (item ing1) (item ing2) success fc)
                   rest fc)
  end.

(** [now] is what [datetime.now().isoformat()] returns during the call. *)
Definition _is_novel_combination (now : string) (recipe : Recipe) : M t bool :=
  let ingredients := list_to_set (map item (ingredients recipe)) : gset string in
  let techniques := list_to_set (techniques recipe) : gset string in
  let combination := (ingredients, techniques) in
  self <- get ;;
  let is_novel := negb (od_mem (KTuple ingredients techniques) (known_recipes self)) in
  (if is_novel
   then put (set_known_recipes
               (od_set (KStr (py_str combination))
                       {| first_attempted := now; times_attempted := 1 |}
                       (known_recipes self)) self)
   else match od_get (KStr (py_str combination)) (known_recipes self) with
        | None => raise (KeyError (py_str combination))
        | Some r =>
            put (set_known_recipes
                   (od_set (KStr (py_str combination))
                           {| first_attempted := first_attempted r;
                              times_attempted := (times_attempted r + 1)%Z |}
                           (known_recipes self)) self)
        end) ;;
  ret is_novel.

(** The body of the loop of [_update_mastery_levels]. *)
Definition update_category (changes : odict string Q) (complexity : Q)
    (feedback_multiplier : Q) (category : SkillCategory) : M t unit :=
  self <- get ;;
  match od_get category (categories (mastery self)) with
  | None => raise (KeyError (value category))
  | Some current_level =>
      let learning_rate := (1 # 10) * (1 - current_level) in
      match od_get (value category) changes with
      | None => raise (KeyError (value category))
      | Some delta =>
          let change := delta * complexity * feedback_multiplier * learning_rate in
          put (set_categories
                 (od_set category (py_max 0 (py_min 1 (current_level + change)))
                         (categories (mastery self))) self)
      end
  end.

Definition _update_mastery_levels (changes : odict string Q) (complexity : Q)
    (feedback : Feedback) : M t unit :=
  let feedback_multiplier := if Qeq_bool (rating feedback) 1 then 1 else - (1 # 2) in
  for_each all_categories (update_category changes complexity feedback_multiplier).

(** The loop over [recipe["techniques"]] on positive feedback. *)
Definition learn_technique (complexity_score : Q)
    (acc : gmap string Q * odict string Q) (technique : string)
    : gmap string Q * odict string Q :=
  let '(tp, changes) := acc in
  let tp := match tp !! technique with
            | None => <[technique := 1 # 10]> tp
            | Some _ => tp
            end in
  let tp := alter (fun p => py_min 1 (p + (1 # 10) * complexity_score)) technique tp in
  (tp, od_alter (fun v => v + (5 # 100)) (value TECHNIQUE_MASTERY) changes).

Definition evaluate_recipe_success (now : string) (recipe : Recipe)
    (feedback : Feedback) : M t (odict string Q) :=
  let changes := map (fun c => (value c, 0)) all_categories in
  complexity_score <- lift (_calculate_complexity recipe) ;;
  changes <-
    (if Qeq_bool (rating feedback) 1
     then self <- get ;;
          let learned :=
            fold_left (learn_technique complexity_score) (techniques recipe)
                      (technique_proficiency self, changes) in
          put (set_technique_proficiency (fst learned) self) ;;
          ret (snd learned)
     else ret changes) ;;
  self <- get ;;
  put (set_flavor_combinations
         (update_flavor_pairs (ingredients recipe) (rating feedback)
                              (flavor_combinations self)) self) ;;
  is_novel <- _is_novel_combination now recipe ;;
  changes <-
    (if is_novel : bool
     then let changes :=
            od_alter (fun v => v + (1 # 10)) (value RECIPE_COMPLEXITY) changes in
          (if Qeq_bool (rating feedback) 1
           (* [self.successful_innovations]: [__init__] gives a
              [LearningSystem] no such attribute, the set lives in
              [self.mastery] *)
           then raise (AttributeError "LearningSystem" "successful_innovations")
           else ret tt) ;;
          ret changes
     else ret changes) ;;
  _update_mastery_levels changes complexity_score feedback ;;
  ret changes.

(** A sequence of learning calls on one engine, each with the clock
    reading, the recipe and the feedback; a call that raises leaves the
    engine as it was when the exception left the method. *)
Definition run (events : list (string * Recipe * Feedback)) (s : t) : t :=
  fold_left (fun s ev =>
               let '(now, recipe, feedback) := ev in
               fst (evaluate_recipe_success now recipe feedback s))
            events s.

(** What the calls of such a sequence raise or return, one after another. *)
Fixpoint outcomes (events : list (string * Recipe * Feedback)) (s : t)
    : list (exn + odict string Q) :=
  match events with
  | [] => []
  | (now, recipe, feedback) :: events' =>
      snd (evaluate_recipe_success now recipe feedback s)
      :: outcomes events' (fst (evaluate_recipe_success now recipe feedback s))
  end.

End methods.

(** The accumulator of an ordered pair of ingredients; a pair never seen
    stands at the 0 its entry is created with. *)
Definition flavor_score (fc : odict string (odict string Q)) (a b : string) : Q :=
  default 0 (od_get a fc ≫= od_get b).

(** The names of the ingredient list, with repetitions. *)
Definition names (recipe : Recipe) : list string := map item (ingredients recipe).

(** One suggestion of [suggest_experiments]. *)
Record experiment := mkExperiment {
  e_ingredients : list string;
  e_reasoning : string;
  e_confidence : Q
}.

(** [sorted(experiments, key=lambda x: x["confidence"], reverse=True)]:
    larger keys first, equal keys in their original order. *)
Fixpoint insert_desc (x : experiment) (l : list experiment) : list experiment :=
  match l with
  | [] => [x]
  | y :: l' =>
      if Qle_bool (e_confidence y) (e_confidence x)
      then x :: l
      else y :: insert_desc x l'
  end.

Definition sorted_desc (l : list experiment) : list experiment :=
  fold_right insert_desc [] l.

(** The suggestions for one [ing1] through one successful partner
    [ing2]; [row1] is [self.flavor_combinations[ing1]] and [score12] is
    [self.flavor_combinations[ing1][ing2]]. *)
Definition through_partner (fc : odict string (odict string Q))
    (ing1 : string) (row1 : odict string Q) (ing2 : string) (score12 : Q)
    : list experiment :=
  flat_map
    (fun '(ing3, score) =>
       if Qlt_bool 0 score && negb (od_mem ing3 row1)
          && negb (bool_decide (ing3 = ing1))
       then [{| e_ingredients := [ing1; ing3];
                e_reasoning := String.append "Based on mutual success with " ing2;
                e_confidence := py_min score12 score / 10 |}]
       else [])
    (default [] (od_get ing2 fc)).

(** The list [experiments] before it is sorted. A dict is walked in
    insertion order, and the value it holds at a key taken from that
    walk is the value walked with the key. *)
Definition experiments_of (fc : odict string (odict string Q)) : list experiment :=
  flat_map
    (fun '(ing1, row1) =>
       let successful_pairs :=
         filter (fun p : string * Q => Qlt_bool 0 (snd p) = true) row1 in
       flat_map (fun '(ing2, score12) => through_partner fc ing1 row1 ing2 score12)
                successful_pairs)
    fc.

Definition suggest_experiments (self : t) : list experiment :=
  sorted_desc (experiments_of (flavor_combinations self)).

(** The dictionary [get_learning_status] builds. *)
Record learning_status := mkStatus {
  status_overall_mastery : Q;
  status_category_mastery : odict string Q;
  status_technique_proficiency : gmap string Q;
  status_known_combinations : Z;
  status_successful_innovations : Z;
  status_flavor_expertise : odict string Z
}.

(** [{category.value: self.mastery.categories[category]
      for category in CulinaryMastery.SkillCategory}] *)
Fixpoint category_mastery_of (cats : odict SkillCategory Q) (l : list SkillCategory)
    (acc : odict string Q) : exn + odict string Q :=
  match l with
  | [] => inr acc
  | category :: l' =>
      match od_get category cats with
      | None => inl (KeyError (value category))
      | Some v => category_mastery_of cats l' (od_set (value category) v acc)
      end
  end.

(** [self.successful_innovations] on a [LearningSystem]: [__init__] sets
    no such attribute and no method adds one. *)
Definition self_successful_innovations (self : t) : exn + gset (gset string) :=
  inl (AttributeError "LearningSystem" "successful_innovations").

(** [get_learning_status]; the entries of the dictionary are evaluated in
    the order they are written. *)
Definition get_learning_status (self : t) : exn + learning_status :=
  match calculate_overall_mastery (mastery self) with
  | inl e => inl e
  | inr overall =>
      match category_mastery_of (categories (mastery self)) all_categories [] with
      | inl e => inl e
      | inr by_category =>
          match self_successful_innovations self with
          | inl e => inl e
          | inr innovations =>
              inr {| status_overall_mastery := overall;
                     status_category_mastery := by_category;
                     status_technique_proficiency := technique_proficiency self;
                     status_known_combinations :=
                       Z.of_nat (length (known_recipes self));
                     status_successful_innovations := Z.of_nat (size innovations);
                     status_flavor_expertise :=
                       map (fun '(ing, pairs) =>
                              (ing,
                               Z.of_nat
                                 (length (filter (fun p : string * Q =>
                                                    Qlt_bool 0 (snd p) = true) pairs))))
                           (flavor_combinations self) |}
          end
      end
  end.


(** *** Vocabulary of the statements *)

(** The entry of an ordered pair, when there is one. *)
Definition flavor_cell (fc : odict string (odict string Q)) (a b : string) : option Q :=
od_get a fc ≫= od_get b.

(** How often the call for [(ing1, ing2)] adds to the entry [(a, b)]. *)
Definition hits (ing1 ing2 a b : string) : nat :=
(if decide (a = ing1 /\ b = ing2) then 1 else 0)
+ (if decide (a = ing2 /\ b = ing1) then 1 else 0).

(** The additions the inner loop for [x] and the double loop make to the
    entry [(a, b)]. *)
Fixpoint row_hits (a b x : string) (rest : list string) : nat :=
match rest with
| [] => 0
| y :: rest' => hits x y a b + row_hits a b x rest'
end.

Fixpoint pair_hits (a b : string) (l : list string) : nat :=
match l with
| [] => 0
| x :: rest => row_hits a b x rest + pair_hits a b rest
end.

(** The deltas [evaluate_recipe_success] starts from. *)
Definition no_changes : odict string Q := map (fun c => (value c, 0)) all_categories.

(** The engine and the deltas after the loop over the techniques. *)
Definition after_techniques (c : Q) (recipe : Recipe) (fb : Feedback) (s : t)
    : t * odict string Q :=
if Qeq_bool (rating fb) 1
then let learned :=
       fold_left (learn_technique c) (techniques recipe)
                 (technique_proficiency s, no_changes) in
     (set_technique_proficiency (fst learned) s, snd learned)
else (s, no_changes).

(** The engine after the flavor loops. *)
Definition after_flavor (c : Q) (recipe : Recipe) (fb : Feedback) (s : t) : t :=
let s1 := fst (after_techniques c recipe fb s) in
set_flavor_combinations
  (update_flavor_pairs (ingredients recipe) (rating fb) (flavor_combinations s1)) s1.

(** The last two statements of the method. *)
Definition finish (changes : odict string Q) (c : Q) (fb : Feedback) (s : t)
    : t * (exn + odict string Q) :=
match _update_mastery_levels changes c fb s with
| (s', inl e) => (s', inl e)
| (s', inr _) => (s', inr changes)
end.

(** All keys of [known_recipes] are of type [str]. *)
Definition str_keys (k : odict pykey known_recipe) : Prop :=
Forall (fun p => exists x, fst p = KStr x) k.

(** The pair of frozensets the novelty check builds. *)
Definition combination_of (recipe : Recipe) : gset string * gset string :=
(list_to_set (map item (ingredients recipe)), list_to_set (techniques recipe)).

(** The mastery holds the eight categories, each within 0 and 1. *)
Definition cats_ok (cats : odict SkillCategory Q) : Prop :=
map fst cats = all_categories /\ Forall (fun v => 0 <= v <= 1) (map snd cats).

(** [q] is at least as confident as [p]. *)
Definition at_least (p q : experiment) : Prop := e_confidence q <= e_confidence p.

(** Inputs to run the model on. *)
Definition egg_onion : Recipe :=
  {| ingredients :=
       [mkIngredient "egg"; mkIngredient "onion"];
     techniques := ["saute"]%string;
     steps := [] |}.

Definition egg_egg : Recipe :=
  {| ingredients :=
       [mkIngredient "egg"; mkIngredient "egg"];
     techniques := [];
     steps := [] |}.

(** Three feedback events, each on one pair and rated 1. *)
Definition pair_event (now a b : string)
    : string * Recipe * Feedback :=
  (now,
   {| ingredients :=
        [mkIngredient a; mkIngredient b];
      techniques := [];
      steps := [] |},
   mkFeedback 1).

Definition lemon_chicken_garlic_onion
    : list (string * Recipe * Feedback) :=
  [pair_event "t1" "lemon" "chicken"; pair_event "t2" "chicken" "garlic";
   pair_event "t3" "garlic" "onion"].

(** The same three pairs, each rated 0.5. *)
Definition half_rated_pairs : list (string * Recipe * Feedback) :=
  map (fun ev => (fst ev, mkFeedback (1 # 2))) lemon_chicken_garlic_onion.

(** The accumulators after lemon-chicken and chicken-garlic. *)
Definition lemon_row : odict string (odict string Q) :=
[("lemon", [("chicken", 1)]);
 ("chicken", [("lemon", 1); ("garlic", 1)])]%string.

End LearningSystem.

(** ** [LearningSystem.load_state]

    [load_state] stores what [json.load] returns without looking at it, so
    here the attributes of the engine hold Python values as they are. *)
Module Persistence.
Import LearningSystem.

(** What [json.load] builds: [None], [bool], numbers, [str], [list] and
    [dict] with [str] keys. *)
#[local] Unset Elimination Schemes.
Inductive pyval :=
  | PNone
  | PBool (b : bool)
  | PNum (q : Q)
  | PStr (s : string)
  | PList (l : list pyval)
  | PDict (d : list (string * pyval)).
#[local] Set Elimination Schemes.

(** The attributes [load_state] assigns, in the order it assigns them:
    [self.mastery.categories], [self.mastery.learning_history],
    [self.mastery.successful_innovations], then those of [self]. *)
Record engine := mkEngine {
  categories : odict SkillCategory pyval;
  learning_history : pyval;
  successful_innovations : list pyval;
  known_recipes : pyval;
  ingredient_relationships : odict string (list pyval);
  technique_proficiency : pyval;
  flavor_combinations : pyval;
  innovation_attempts : pyval;
  feedback_history : pyval
}.

(** The engine [LearningSystem()] builds. *)
Definition init : engine :=
  {| categories := map (fun c => (c, PNum 0)) all_categories;
     learning_history := PList [];
     successful_innovations := [];
     known_recipes := PDict [];
     ingredient_relationships := [];
     technique_proficiency := PDict [];
     flavor_combinations := PDict [];
     innovation_attempts := PList [];
     feedback_history := PList [] |}.

(** [v[k]] for a [str] key. *)
Definition subscript (v : pyval) (k : string) : exn + pyval :=
  match v with
  | PDict d => match od_get k d with
               | Some x => inr x
               | None => inl (KeyError k)
               end
  | _ => inl (TypeError "subscript")
  end.

(** [v.items()] *)
Definition items (v : pyval) : exn + list (string * pyval) :=
  match v with
  | PDict d => inr d
  | _ => inl (AttributeError "object" "items")
  end.

(** [CulinaryMastery.SkillCategory(k)]: the member whose value is [k]. *)
Definition SkillCategory_of (k : string) : exn + SkillCategory :=
  match find (fun c => bool_decide (value c = k)) all_categories with
  | Some c => inr c
  | None => inl (ValueError k)
  end.

Definition hashable (v : pyval) : bool :=
  match v with
  | PList _ | PDict _ => false
  | _ => true
  end.

(** [==] on hashable values: [True == 1] and [False == 0]. *)
Definition atom_eqb (a b : pyval) : bool :=
  match a, b with
  | PNone, PNone => true
  | PStr s1, PStr s2 => bool_decide (s1 = s2)
  | PNum q1, PNum q2 => Qeq_bool q1 q2
  | PBool b1, PBool b2 => Bool.eqb b1 b2
  | PBool b1, PNum q | PNum q, PBool b1 => Qeq_bool q (if b1 then 1 else 0)
  | _, _ => false
  end.

(** The elements [for x in v] walks through (a [str] by character, for
    ASCII text). *)
Definition iterate (v : pyval) : exn + list pyval :=
  match v with
  | PList l => inr l
  | PDict d => inr (map (fun p => PStr (fst p)) d)
  | PStr s => inr (map (fun c => PStr (String c EmptyString)) (list_ascii_of_string s))
  | _ => inl (TypeError "not iterable")
  end.

Fixpoint add_all (l : list pyval) (acc : list pyval) : exn + list pyval :=
  match l with
  | [] => inr acc
  | x :: l' =>
      if hashable x
      then add_all l' (if existsb (atom_eqb x) acc then acc else acc ++ [x])
      else inl (TypeError "unhashable")
  end.

(** [set(v)], its elements kept in the order of first occurrence. *)
Definition py_set (v : pyval) : exn + list pyval :=
  match iterate v with
  | inl e => inl e
  | inr l => add_all l []
  end.

Local Open Scope py_scope.

(** [{CulinaryMastery.SkillCategory(k): v for k, v in d.items()}] *)
Fixpoint categories_of (l : list (string * pyval)) (acc : odict SkillCategory pyval)
    : exn + odict SkillCategory pyval :=
  match l with
  | [] => inr acc
  | (k, v) :: l' =>
      match SkillCategory_of k with
      | inl e => inl e
      | inr c => categories_of l' (od_set c v acc)
      end
  end.

(** [{k: set(v) for k, v in d.items()}] *)
Fixpoint relationships_of (l : list (string * pyval)) (acc : odict string (list pyval))
    : exn + odict string (list pyval) :=
  match l with
  | [] => inr acc
  | (k, v) :: l' =>
      match py_set v with
      | inl e => inl e
      | inr s => relationships_of l' (od_set k s acc)
      end
  end.

Definition rbind {A B} (r : exn + A) (k : A -> exn + B) : exn + B :=
  match r with inl e => inl e | inr a => k a end.

(** The right-hand sides of the nine assignments of the [try] block, in
    the order of the assignments. *)
Definition read_categories (state : pyval) : exn + odict SkillCategory pyval :=
  rbind (rbind (rbind (subscript state "mastery")
                      (fun m => subscript m "categories"))
               items)
        (fun l => categories_of l []).

Definition read_learning_history (state : pyval) : exn + pyval :=
  rbind (subscript state "mastery") (fun m => subscript m "learning_history").

Definition read_successful_innovations (state : pyval) : exn + list pyval :=
  rbind (rbind (subscript state "mastery")
               (fun m => subscript m "successful_innovations"))
        py_set.

Definition read_known_recipes (state : pyval) : exn + pyval :=
  subscript state "known_recipes".

Definition read_ingredient_relationships (state : pyval)
    : exn + odict string (list pyval) :=
  rbind (rbind (subscript state "ingredient_relationships") items)
        (fun l => relationships_of l []).

Definition read_technique_proficiency (state : pyval) : exn + pyval :=
  subscript state "technique_proficiency".

Definition read_flavor_combinations (state : pyval) : exn + pyval :=
  subscript state "flavor_combinations".

Definition read_innovation_attempts (state : pyval) : exn + pyval :=
  subscript state "innovation_attempts".

Definition read_feedback_history (state : pyval) : exn + pyval :=
  subscript state "feedback_history".

(** The nine assignments. *)

Definition restore_categories (state : pyval) : M engine unit :=
  c <- lift (read_categories state) ;;
  self <- get ;;
  put {| categories := c;
         learning_history := learning_history self;
         successful_innovations := successful_innovations self;
         known_recipes := known_recipes self;
         ingredient_relationships := ingredient_relationships self;
         technique_proficiency := technique_proficiency self;
         flavor_combinations := flavor_combinations self;
         innovation_attempts := innovation_attempts self;
         feedback_history := feedback_history self |}.

Definition restore_learning_history (state : pyval) : M engine unit :=
  h <- lift (read_learning_history state) ;;
  self <- get ;;
  put {| categories := categories self;
         learning_history := h;
         successful_innovations := successful_innovations self;
         known_recipes := known_recipes self;
         ingredient_relationships := ingredient_relationships self;
         technique_proficiency := technique_proficiency self;
         flavor_combinations := flavor_combinations self;
         innovation_attempts := innovation_attempts self;
         feedback_history := feedback_history self |}.

Definition restore_successful_innovations (state : pyval) : M engine unit :=
  i <- lift (read_successful_innovations state) ;;
  self <- get ;;
  put {| categories := categories self;
         learning_history := learning_history self;
         successful_innovations := i;
         known_recipes := known_recipes self;
         ingredient_relationships := ingredient_relationships self;
         technique_proficiency := technique_proficiency self;
         flavor_combinations := flavor_combinations self;
         innovation_attempts := innovation_attempts self;
         feedback_history := feedback_history self |}.

Definition restore_known_recipes (state : pyval) : M engine unit :=
  k <- lift (read_known_recipes state) ;;
  self <- get ;;
  put {| categories := categories self;
         learning_history := learning_history self;
         successful_innovations := successful_innovations self;
         known_recipes := k;
         ingredient_relationships := ingredient_relationships self;
         technique_proficiency := technique_proficiency self;
         flavor_combinations := flavor_combinations self;
         innovation_attempts := innovation_attempts self;
         feedback_history := feedback_history self |}.

Definition restore_ingredient_relationships (state : pyval) : M engine unit :=
  r <- lift (read_ingredient_relationships state) ;;
  self <- get ;;
  put {| categories := categories self;
         learning_history := learning_history self;
         successful_innovations := successful_innovations self;
         known_recipes := known_recipes self;
         ingredient_relationships := r;
         technique_proficiency := technique_proficiency self;
         flavor_combinations := flavor_combinations self;
         innovation_attempts := innovation_attempts self;
         feedback_history := feedback_history self |}.

Definition restore_technique_proficiency (state : pyval) : M engine unit :=
  p <- lift (read_technique_proficiency state) ;;
  self <- get ;;
  put {| categories := categories self;
         learning_history := learning_history self;
         successful_innovations := successful_innovations self;
         known_recipes := known_recipes self;
         ingredient_relationships := ingredient_relationships self;
         technique_proficiency := p;
         flavor_combinations := flavor_combinations self;
         innovation_attempts := innovation_attempts self;
         feedback_history := feedback_history self |}.

Definition restore_flavor_combinations (state : pyval) : M engine unit :=
  f <- lift (read_flavor_combinations state) ;;
  self <- get ;;
  put {| categories := categories self;
         learning_history := learning_history self;
         successful_innovations := successful_innovations self;
         known_recipes := known_recipes self;
         ingredient_relationships := ingredient_relationships self;
         technique_proficiency := technique_proficiency self;
         flavor_combinations := f;
         innovation_attempts := innovation_attempts self;
         feedback_history := feedback_history self |}.

Definition restore_innovation_attempts (state : pyval) : M engine unit :=
  a <- lift (read_innovation_attempts state) ;;
  self <- get ;;
  put {| categories := categories self;
         learning_history := learning_history self;
         successful_innovations := successful_innovations self;
         known_recipes := known_recipes self;
         ingredient_relationships := ingredient_relationships self;
         technique_proficiency := technique_proficiency self;
         flavor_combinations := flavor_combinations self;
         innovation_attempts := a;
         feedback_history := feedback_history self |}.

Definition restore_feedback_history (state : pyval) : M engine unit :=
  h <- lift (read_feedback_history state) ;;
  self <- get ;;
  put {| categories := categories self;
         learning_history := learning_history self;
         successful_innovations := successful_innovations self;
         known_recipes := known_recipes self;
         ingredient_relationships := ingredient_relationships self;
         technique_proficiency := technique_proficiency self;
         flavor_combinations := flavor_combinations self;
         innovation_attempts := innovation_attempts self;
         feedback_history := h |}.

(** The [try] block. [file] is what opening and parsing the file gives:
    the exception of [open] or [json.load], or the parsed document. *)
Definition try_block (file : exn + pyval) : M engine unit :=
  state <- lift file ;;
  restore_categories state ;;
  restore_learning_history state ;;
  restore_successful_innovations state ;;
  restore_known_recipes state ;;
  restore_ingredient_relationships state ;;
  restore_technique_proficiency state ;;
  restore_flavor_combinations state ;;
  restore_innovation_attempts state ;;
  restore_feedback_history state.

(** A line written by [print]. *)
Record diagnostic := mkDiagnostic { message : string; cause : exn }.

(** [load_state]: the engine it leaves and the lines it prints.
    [except Exception as e] catches whatever the block raises. *)
Definition load_state (file : exn + pyval) (self : engine)
    : engine * list diagnostic :=
  match try_block file self with
  | (self', inr _) => (self', [])
  | (self', inl e) =>
      (self', [{| message := "Error loading learning system state: "; cause := e |}])
  end.





(** [save_state]: the dictionary [state] handed to [json.dump]. A
    comprehension assigns its items one after another; [list(s)] lists a
    set in the order the model keeps it. *)
Definition state_document (self : engine) : pyval :=
  PDict
    [("mastery",
      PDict
        [("categories",
          PDict (fold_left (fun acc p => od_set (value (fst p)) (snd p) acc)
                           (categories self) []));
         ("learning_history", learning_history self);
         ("successful_innovations", PList (successful_innovations self))]);
     ("known_recipes", known_recipes self);
     ("ingredient_relationships",
      PDict (fold_left (fun acc p => od_set (fst p) (PList (snd p)) acc)
                       (ingredient_relationships self) []));
     ("technique_proficiency", technique_proficiency self);
     ("flavor_combinations", flavor_combinations self);
     ("innovation_attempts", innovation_attempts self);
     ("feedback_history", feedback_history self)]%string.

(** The elements of [l] are hashable and none equals one of [seen] or an
    earlier one of [l]: with [seen] empty, [l] lists a set. *)
Fixpoint distinct_from (seen l : list pyval) : bool :=
  match l with
  | [] => true
  | x :: l' =>
      hashable x && negb (existsb (atom_eqb x) seen) && distinct_from (seen ++ [x]) l'
  end.

Definition is_set (l : list pyval) : bool := distinct_from [] l.

(** The dictionaries and sets of the engine are well formed: no key
    occurs twice and every set lists its elements once. *)
Definition well_formed (self : engine) : Prop :=
  NoDup (map fst (categories self))
  /\ is_set (successful_innovations self) = true
  /\ NoDup (map fst (ingredient_relationships self))
  /\ Forall (fun p => is_set (snd p) = true) (ingredient_relationships self).

(** An engine to run the model on. *)
Definition trained : engine :=
  {| categories := [(FLAVOR_PAIRING, PNum (1 # 4)); (PRESENTATION, PNum 0)];
     learning_history := PList [PStr "first"];
     successful_innovations := [PStr "egg"; PNum 2];
     known_recipes := PDict [("omelette", PDict [("times_attempted", PNum 1)])];
     ingredient_relationships := [("egg", [PStr "onion"; PStr "bread"]); ("beef", [])];
     technique_proficiency := PDict [("whisking", PNum (3 # 10))];
     flavor_combinations := PDict [("egg", PDict [("onion", PNum 1)])];
     innovation_attempts := PList [];
     feedback_history := PList [PDict [("rating", PNum 1)]] |}%string.


End Persistence.


(** A reading of the two builtins on plain text, used to run the model:
    [int] of a decimal numeral, and [str] of a pair of frozensets with
    their elements in the order [elements] lists them. *)
Fixpoint decimal_value (s : string) (acc : Z) : option Z :=
  match s with
  | EmptyString => Some acc
  | String c s' =>
      let n := Z.of_nat (nat_of_ascii c) in
      if ((48 <=? n) && (n <=? 57))%Z
      then decimal_value s' (10 * acc + (n - 48))%Z
      else None
  end.

Definition decimal_int (s : string) : option Z :=
  match s with
  | EmptyString => None
  | _ => decimal_value s 0
  end.

Definition show_frozenset (s : gset string) : string :=
  match elements s with
  | [] => "frozenset()"
  | l => String.append "frozenset({"
           (String.append
              (String.concat ", " (map (fun x => String.append "'" (String.append x "'")) l))
              "})")
  end.

Definition show_combination (c : gset string * gset string) : string :=
  String.append "("
    (String.append (show_frozenset (fst c))
       (String.append ", " (String.append (show_frozenset (snd c)) ")"))).

Definition plain_builtins : PyBuiltins :=
  {| py_int := decimal_int; py_str := show_combination |}.

(** ** backend/app/main.py *)
Module App.
Import LearningSystem.

(** [x in ingredients] *)
Definition contains (x : string) (l : list string) : bool := bool_decide (x ∈ l).

(** [steps.append(RecipeStep(step_number=step_num, ...))] followed by
    [step_num += 1], on the pair of [steps] and [step_num]. *)
Definition append_step (instruction minutes : string) (tips : list string)
    (acc : list RecipeStep * Z) : list RecipeStep * Z :=
  (fst acc ++ [mkStep (snd acc) instruction (Some minutes) (Some tips)],
   (snd acc + 1)%Z).

Definition generate_cooking_steps (ingredients : list string) (style : string)
    : list RecipeStep :=
  let acc := ([], 1%Z) in
  let acc :=
    append_step "Gather and prepare all ingredients" "5-10 minutes"
      ["Read through entire recipe first";
       "Set up your workspace with all needed tools";
       "Ensure all ingredients are at room temperature if needed"]%string acc in
  let acc :=
    if contains "onions" ingredients
    then append_step "Dice the onions into small, uniform pieces" "2-3 minutes"
           ["Use a sharp knife for clean cuts";
            "Cut end to end for more even pieces";
            "Keep root end intact while cutting for stability"]%string acc
    else acc in
  let acc :=
    if contains "beef" ingredients
    then
      let acc :=
        append_step
          "Pat the beef dry with paper towels and season generously with salt and pepper"
          "2-3 minutes"
          ["Let meat come to room temperature before cooking";
           "Don't oversalt - you can add more later";
           "Press seasonings into meat slightly"]%string acc in
      append_step
        "Heat a large pan over medium-high heat. Once hot, add oil and sear the beef"
        "3-5 minutes per side"
        ["Use a heavy-bottomed pan for even heating";
         "Don't move the meat too much while searing";
         "Look for a golden-brown crust"]%string acc
    else acc in
  let acc :=
    if contains "eggs" ingredients
    then append_step "Crack eggs into a bowl and whisk until just combined"
           "1-2 minutes"
           ["Don't overbeat the eggs";
            "Add a splash of milk for fluffier eggs";
            "Season with salt and pepper"]%string acc
    else acc in
  let acc :=
    if String.eqb style "sandwich"
    then
      let acc :=
        if contains "bread" ingredients
        then append_step "Toast the bread slices until golden brown" "2-3 minutes"
               ["Watch carefully to prevent burning";
                "Butter the bread before toasting for extra flavor";
                "Toast both sides evenly"]%string acc
        else acc in
      append_step "Assemble the sandwich with your prepared ingredients"
        "2-3 minutes"
        ["Layer ingredients evenly for balanced bites";
         "Place warm ingredients in the middle";
         "Add condiments last to prevent soggy bread"]%string acc
    else if contains "eggs" ingredients
    then
      let acc :=
        if contains "onions" ingredients
        then append_step "Sauté the diced onions until translucent" "3-4 minutes"
               ["Use medium heat to avoid burning";
                "Stir occasionally for even cooking";
                "A pinch of salt helps release moisture"]%string acc
        else acc in
      append_step "Add beaten eggs to the pan and cook, stirring gently"
        "2-3 minutes"
        ["Keep heat at medium-low";
         "Stir occasionally for creamy eggs";
         "Remove from heat just before fully set - they'll continue cooking"]%string
        acc
    else acc in
  let final_instruction := "Plate your dish"%string in
  let final_instruction :=
    if contains "ketchup" ingredients
    then String.append final_instruction " and add ketchup to taste"
    else final_instruction in
  fst acc ++
    [mkStep (snd acc) (String.append final_instruction ". Serve immediately.")
            (Some "1 minute"%string)
            (Some ["Garnish with fresh herbs if available";
                   "Serve while hot for best results";
                   "Add final seasonings if needed"]%string)].

(** [generate_recipe]: the cooking style chosen from the ingredients. *)
Definition style_of (ingredients : list string) : string :=
  let has_bread := contains "bread" ingredients in
  let has_beef := contains "beef" ingredients in
  let has_eggs := contains "eggs" ingredients in
  if has_bread && (has_beef || has_eggs) then "sandwich"
  else if has_eggs then "egg_dish"
  else "general".

(** [generate_recipe]: ["Easy" if len(steps) <= 5 else "Medium" if
    len(steps) <= 8 else "Hard"]. *)
Definition difficulty (steps : list RecipeStep) : string :=
  if (length steps <=? 5)%nat then "Easy"
  else if (length steps <=? 8)%nat then "Medium"
  else "Hard".

(** The body that [POST /api/learn] validates. *)
Record LearningFeedback := mkLearningFeedback {
  recipe_id : Z;
  feedback_ingredients : list string;
  feedback_techniques : list string;
  feedback_rating : Z
}.

Record learn_response := mkResponse {
  response_message : string;
  mastery_changes : odict string Q
}.

(** The recipe [learn_from_feedback] hands to the engine; its ["id"] is
    never read. *)
Definition recipe_of (feedback : LearningFeedback) : Recipe :=
  mkRecipe (map mkIngredient (feedback_ingredients feedback))
           (feedback_techniques feedback) [].

Section endpoints.
Context `{PyBuiltins}.
(** [learning_system.save_state]: what writing the file does is left
    open; the method is given the path and the engine, and may raise. *)
Variable save_state : string -> M t unit.
Local Open Scope py_scope.

(** [generate_recipe]: [total_minutes], the sum of
    [int(step.time.split("-")[0]) if step.time else 0] over the steps. *)
Definition total_minutes (steps : list RecipeStep) : exn + Z :=
  total_time_of steps 0.

(** [POST /api/learn] *)
Definition learn_from_feedback (now : string) (feedback : LearningFeedback)
    : M t learn_response :=
  let recipe := recipe_of feedback in
  changes <- evaluate_recipe_success now recipe
               (mkFeedback (inject_Z (feedback_rating feedback))) ;;
  save_state "learning_state.json" ;;
  ret {| response_message := "Feedback recorded successfully";
         mastery_changes := changes |}.

End endpoints.

(** The deltas of a call that is judged novel and earns nothing else. *)
Definition novelty_only : odict string Q :=
  map (fun c => (value c, if decide (c = RECIPE_COMPLEXITY) then 1 # 10 else 0))
      all_categories.

(** A [save_state] that writes its file without an error. *)
Definition saved (filepath : string) : M t unit := ret tt.

End App.

(** ** Vocabulary of the further properties *)

(** Every score lies within 0 and 1 and every confidence is positive. *)
Definition within_unit (s : IngredientLearner.t) : Prop :=
  forall a b,
    0 <= IngredientLearner.compatibility s a b <= 1
    /\ 0 < IngredientLearner.confidence s a b.

(** How often [a] is directly followed by [b] in a technique list. *)
Fixpoint adjacent (a b : string) (l : list string) : nat :=
  match l with
  | x :: (y :: _) as rest =>
      ((if decide (x = a /\ y = b) then 1 else 0) + adjacent a b rest)%nat
  | _ => 0%nat
  end.

(** The weight of a transition, 0 when the graph has no such edge. *)
Definition weight_of (s : RecipeLearner.t) (a b : string) : Z :=
  default 0%Z (RecipeLearner.edges (RecipeLearner.technique_graph s) !! (a, b)).

(** The difficulty of a transition, the neutral 0.5 when none is recorded. *)
Definition difficulty_of (s : RecipeLearner.t) (a b : string) : Q :=
  default (1 # 2) (RecipeLearner.technique_difficulties s !! (a, b)).

(** Every edge weighs at least 1, joins two nodes and has a difficulty,
    and only edges have one. *)
Definition graph_ok (s : RecipeLearner.t) : Prop :=
  let g := RecipeLearner.technique_graph s in
  (forall e w, RecipeLearner.edges g !! e = Some w -> (1 <= w)%Z)
  /\ (forall e, is_Some (RecipeLearner.edges g !! e)
                <-> is_Some (RecipeLearner.technique_difficulties s !! e))
  /\ (forall u v, is_Some (RecipeLearner.edges g !! (u, v)) ->
                  u ∈ RecipeLearner.nodes g /\ v ∈ RecipeLearner.nodes g).

Definition difficulties_within_unit (s : RecipeLearner.t) : Prop :=
  forall e d, RecipeLearner.technique_difficulties s !! e = Some d -> 0 <= d <= 1.

(** [int] yields no negative number on a text cut before its first dash
    (such a text holds no minus sign). *)
Definition int_nonneg (B : PyBuiltins) : Prop :=
  forall txt n, @py_int B (before_dash txt) = Some n -> (0 <= n)%Z.

(** Every proficiency lies within 0.1 and 1. *)
Definition proficiency_ok (tp : gmap string Q) : Prop :=
  forall technique p, tp !! technique = Some p -> 1 # 10 <= p <= 1.

(** The [n] steps gathered so far are numbered from 1 without a gap, the
    counter is one ahead of them, and each step carries a time and tips. *)
Definition steps_so_far (n : nat) (acc : list LearningSystem.RecipeStep * Z) : Prop :=
  length (fst acc) = n
  /\ map LearningSystem.step_number (fst acc) = map Z.of_nat (seq 1 n)
  /\ snd acc = Z.of_nat (S n)
  /\ Forall (fun step => is_Some (LearningSystem.time step)
                         /\ is_Some (LearningSystem.tips step)) (fst acc).

(* end of the vocabulary *)

(** * Properties *)

(** ** Numbers *)

Lemma Qlt_bool_iff (a b : Q) : Qlt_bool a b = true <-> a < b.
Proof.
  unfold Qlt_bool. rewrite negb_true_iff.
  split.
  - intros Hb. apply Qnot_le_lt. intros Hle.
    apply Qle_bool_iff in Hle. congruence.
  - intros Hlt. destruct (Qle_bool b a) eqn:E; [|reflexivity].
    apply Qle_bool_iff in E. exfalso. exact (Qlt_not_le _ _ Hlt E).
Qed.

Lemma Qlt_bool_false_iff (a b : Q) : Qlt_bool a b = false <-> b <= a.
Proof.
  unfold Qlt_bool. rewrite negb_false_iff. apply Qle_bool_iff.
Qed.

Lemma py_min_spec (a b : Q) : py_min a b == Qmin a b.
Proof.
  unfold py_min. destruct (Qlt_bool b a) eqn:E.
  - apply Qlt_bool_iff in E. symmetry. apply Q.min_r. apply Qlt_le_weak, E.
  - apply Qlt_bool_false_iff in E. symmetry. apply Q.min_l, E.
Qed.

Lemma py_min_le_l (a b : Q) : py_min a b <= a.
Proof. rewrite py_min_spec. apply Q.le_min_l. Qed.

Lemma py_max_ge_l (a b : Q) : a <= py_max a b.
Proof.
  unfold py_max. destruct (Qlt_bool a b) eqn:E.
  - apply Qlt_bool_iff in E. apply Qlt_le_weak, E.
  - apply Qle_refl.
Qed.

(** [max(0.0, min(1.0, x))] lies between 0 and 1. *)
Lemma clamp_bounds (x : Q) : 0 <= py_max 0 (py_min 1 x) <= 1.
Proof.
  split; [apply py_max_ge_l|].
  unfold py_max. destruct (Qlt_bool 0 (py_min 1 x)); [apply py_min_le_l | lra].
Qed.

(** ** IngredientLearner: the compatibility matrix is symmetric *)
Section ingredient_learner.
Import IngredientLearner.

Lemma read_dd_write m i1 i2 v a b dflt :
  read dflt (dd_write m i1 i2 v) a b
  = if decide (a = i1 /\ b = i2) then v else read dflt m a b.
Proof.
  unfold read, dd_write.
  destruct (decide (a = i1)) as [->|Ha].
  - rewrite lookup_insert_eq. simpl.
    destruct (decide (b = i2)) as [->|Hb].
    + rewrite lookup_insert_eq. simpl.
      destruct (decide (i1 = i1 /\ i2 = i2)) as [_|n]; [reflexivity|].
      exfalso; apply n; split; reflexivity.
    + rewrite lookup_insert_ne by congruence.
      destruct (decide (i1 = i1 /\ b = i2)) as [[_ e]|_]; [contradiction|reflexivity].
  - rewrite lookup_insert_ne by congruence.
    destruct (decide (a = i1 /\ b = i2)) as [[e _]|_]; [contradiction|reflexivity].
Qed.

(** Reading a cell creates it with the default, which no later read sees. *)
Lemma read_dd_read m i1 i2 a b dflt :
  read dflt (snd (dd_read dflt m i1 i2)) a b = read dflt m a b.
Proof.
  unfold read, dd_read. simpl.
  destruct (decide (a = i1)) as [->|Ha].
  - rewrite lookup_insert_eq. simpl.
    destruct (decide (b = i2)) as [->|Hb].
    + rewrite lookup_insert_eq. reflexivity.
    + rewrite lookup_insert_ne by congruence. reflexivity.
  - rewrite lookup_insert_ne by congruence. reflexivity.
Qed.

Lemma fst_dd_read m i1 i2 dflt : fst (dd_read dflt m i1 i2) = read dflt m i1 i2.
Proof. reflexivity. Qed.

Lemma cell_learn_pair rating i1 i2 s a b :
  cell (learn_pair rating i1 i2 s) a b
  = if decide (i1 <> i2 /\ a = i1 /\ b = i2) then blend rating (cell s a b)
    else cell s a b.
Proof.
  unfold learn_pair.
  destruct (decide (i1 = i2)) as [e|ne].
  - destruct (decide (i1 <> i2 /\ a = i1 /\ b = i2)) as [[n _]|_];
      [contradiction|reflexivity].
  - destruct (dd_read 0 (compatibility_matrix s) i1 i2) as [current_score cm] eqn:E1.
    destruct (dd_read 1 (confidence_scores s) i1 i2) as [conf cs] eqn:E2.
    assert (Hcm : cm = snd (dd_read 0 (compatibility_matrix s) i1 i2)) by (rewrite E1; reflexivity).
    assert (Hcs : cs = snd (dd_read 1 (confidence_scores s) i1 i2)) by (rewrite E2; reflexivity).
    assert (Hsc : current_score = read 0 (compatibility_matrix s) i1 i2)
      by (rewrite <- fst_dd_read, E1; reflexivity).
    assert (Hcf : conf = read 1 (confidence_scores s) i1 i2)
      by (rewrite <- fst_dd_read, E2; reflexivity).
    unfold cell, compatibility, confidence. simpl.
    fold (read 0 (dd_write cm i1 i2 ((current_score * conf + rating) / (conf + 1))) a b).
    fold (read 1 (dd_write cs i1 i2 (conf + 1)) a b).
    rewrite !read_dd_write.
    destruct (decide (a = i1 /\ b = i2)) as [[-> ->]|n].
    + destruct (decide (i1 <> i2 /\ i1 = i1 /\ i2 = i2)) as [_|n'].
      * unfold blend. simpl. rewrite Hsc, Hcf. reflexivity.
      * exfalso; apply n'; repeat split; assumption.
    + rewrite Hcm, Hcs, !read_dd_read.
      destruct (decide (i1 <> i2 /\ a = i1 /\ b = i2)) as [(_ & e1 & e2)|_];
        [exfalso; apply n; split; assumption | reflexivity].
Qed.

Lemma cell_learn_row rating i1 l : forall s a b,
  cell (learn_row rating i1 l s) a b
  = if decide (a = i1 /\ a <> b)
    then Nat.iter (count_occ string_dec l b) (blend rating) (cell s a b)
    else cell s a b.
Proof.
  unfold learn_row.
  induction l as [|i2 l IH]; intros s a b; simpl.
  - destruct (decide (a = i1 /\ a <> b)); reflexivity.
  - rewrite IH, cell_learn_pair.
    destruct (decide (a = i1 /\ a <> b)) as [[-> Hab]|n].
    + destruct (string_dec i2 b) as [->|Hne].
      * destruct (decide (i1 <> b /\ i1 = i1 /\ b = b)) as [_|n'].
        -- rewrite Nat.iter_succ_r. reflexivity.
        -- exfalso; apply n'; repeat split; assumption.
      * destruct (decide (i1 <> i2 /\ i1 = i1 /\ b = i2)) as [(_ & _ & e)|_];
          [congruence | reflexivity].
    + destruct (decide (i1 <> i2 /\ a = i1 /\ b = i2)) as [(Hne & e1 & e2)|_];
        [|reflexivity].
      exfalso; apply n; split; [assumption | congruence].
Qed.

Lemma cell_learn_rows rating l l1 : forall s a b,
  cell (fold_left (fun s i1 => learn_row rating i1 l s) l1 s) a b
  = if decide (a <> b)
    then Nat.iter (count_occ string_dec l1 a * count_occ string_dec l b)
                  (blend rating) (cell s a b)
    else cell s a b.
Proof.
  induction l1 as [|i1 l1 IH]; intros s a b; simpl.
  - destruct (decide (a <> b)); reflexivity.
  - rewrite IH, cell_learn_row.
    destruct (decide (a <> b)) as [Hab|n].
    + destruct (string_dec i1 a) as [->|Hne].
      * destruct (decide (a = a /\ a <> b)) as [_|n'].
        -- rewrite <- Nat.iter_add. f_equal. lia.
        -- exfalso; apply n'; split; [reflexivity | assumption].
      * destruct (decide (a = i1 /\ a <> b)) as [[e _]|_]; [congruence | reflexivity].
    + destruct (decide (a = i1 /\ a <> b)) as [[_ e]|_]; [contradiction | reflexivity].
Qed.

Lemma cell_update_embeddings l rating s a b :
  cell (_update_embeddings l rating s) a b = cell s a b.
Proof. unfold _update_embeddings. destruct (embedding_model s); reflexivity. Qed.

(** One call visits the ordered pair [(a, b)] once for every position of
    [a] and every position of [b] in the list. *)
Lemma cell_learn_from_feedback l rating s a b :
  a <> b ->
  cell (learn_from_feedback l rating s) a b
  = Nat.iter (count_occ string_dec l a * count_occ string_dec l b)
             (blend rating) (cell s a b).
Proof.
  intros Hab. unfold learn_from_feedback.
  rewrite cell_update_embeddings, cell_learn_rows.
  destruct (decide (a <> b)); [reflexivity | contradiction].
Qed.

Lemma cell_learn_from_feedback_sym l rating s :
  (forall a b, cell s a b = cell s b a) ->
  forall a b, cell (learn_from_feedback l rating s) a b
              = cell (learn_from_feedback l rating s) b a.
Proof.
  intros Hs a b.
  destruct (decide (a = b)) as [->|Hab]; [reflexivity|].
  rewrite !cell_learn_from_feedback by congruence.
  rewrite (Nat.mul_comm (count_occ string_dec l b)), Hs. reflexivity.
Qed.

Lemma cell_run_sym events : forall s,
  (forall a b, cell s a b = cell s b a) ->
  forall a b, cell (run events s) a b = cell (run events s) b a.
Proof.
  unfold run.
  induction events as [|[l r] events IH]; intros s Hs a b; simpl.
  - apply Hs.
  - apply IH. apply cell_learn_from_feedback_sym, Hs.
Qed.

(** C5. After every sequence of compatibility updates from the initial
    state, the score and the confidence of [(A, B)] are those of [(B, A)];
    and one update blends the rating into both directions of a pair the
    same number of times. *)
Theorem compatibility_symmetric (events : list (list string * Q)) (A B : string) :
  compatibility (run events init) A B = compatibility (run events init) B A
  /\ confidence (run events init) A B = confidence (run events init) B A
  /\ forall l rating,
       let s := run events init in
       cell (learn_from_feedback l rating s) A B
       = cell (learn_from_feedback l rating s) B A.
Proof.
  assert (Hinit : forall a b, cell init a b = cell init b a) by reflexivity.
  pose proof (cell_run_sym events init Hinit) as Hrun.
  split; [|split].
  - exact (f_equal fst (Hrun A B)).
  - exact (f_equal snd (Hrun A B)).
  - intros l rating s. apply cell_learn_from_feedback_sym. exact Hrun.
Qed.

End ingredient_learner.

Example compatibility_after_one_update :
  let s := IngredientLearner.learn_from_feedback ["lemon"; "chicken"]%string 1
             IngredientLearner.init in
  IngredientLearner.cell s "lemon" "chicken" = (1 # 2, 2)
  /\ IngredientLearner.cell s "chicken" "lemon" = (1 # 2, 2)
  /\ IngredientLearner.cell s "lemon" "lemon" = (0, 1).
Proof. vm_compute. repeat split. Qed.

(** ** RecipeLearner: the gate at 0.7 *)
Section recipe_learner.
Import RecipeLearner.

Lemma learn_technique_sequence_low techniques success_rating s :
  success_rating <= 7 # 10 ->
  learn_technique_sequence techniques success_rating s = s.
Proof.
  intros Hlow. unfold learn_technique_sequence.
  destruct (Qlt_bool (7 # 10) success_rating) eqn:E; [|reflexivity].
  apply Qlt_bool_iff in E. exfalso. exact (Qlt_not_le _ _ E Hlow).
Qed.

(** C8. A technique sequence whose rating does not exceed 0.7 leaves the
    learner as it was: the graph (nodes, edges and weights) and the
    difficulty estimates are those of before the call. *)
Theorem learn_technique_sequence_gate (techniques : list string)
    (success_rating : Q) (s : t) :
  success_rating <= 7 # 10 ->
  learn_technique_sequence techniques success_rating s = s
  /\ technique_graph (learn_technique_sequence techniques success_rating s)
     = technique_graph s
  /\ technique_difficulties (learn_technique_sequence techniques success_rating s)
     = technique_difficulties s.
Proof.
  intros Hlow.
  rewrite (learn_technique_sequence_low techniques success_rating s Hlow).
  repeat split.
Qed.

Lemma learn_technique_sequence_gate_witness :
  (1 # 2 <= 7 # 10)
  /\ learn_technique_sequence ["dicing"; "searing"]%string (1 # 2) init = init.
Proof.
  assert (H : 1 # 2 <= 7 # 10) by (unfold Qle; simpl; lia).
  split; [exact H|].
  exact (proj1 (learn_technique_sequence_gate ["dicing"; "searing"]%string (1 # 2) init H)).
Defined.

(** Only a rating above 0.7 can change the learner. *)
Lemma learn_technique_sequence_changes_only_above_gate techniques success_rating s :
  learn_technique_sequence techniques success_rating s <> s ->
  7 # 10 < success_rating.
Proof.
  intros Hne. apply Qnot_le_lt. intros Hle.
  apply Hne. apply learn_technique_sequence_low, Hle.
Qed.

(** Above the gate the edge is created with weight 1 and its difficulty
    is the mean of the neutral prior and the rating. *)
Example learn_technique_sequence_above_gate :
  let s := learn_technique_sequence ["dicing"; "searing"]%string (9 # 10) init in
  edges (technique_graph s) !! ("dicing", "searing")%string = Some 1%Z
  /\ (exists d, technique_difficulties s !! ("dicing", "searing")%string = Some d
                /\ d == 7 # 10).
Proof.
  split; [vm_compute; reflexivity|].
  eexists. split; [vm_compute; reflexivity|]. reflexivity.
Qed.

End recipe_learner.

(** ** ComplexityManager: promotion, demotion and the dead zone *)
Section complexity_manager.
Import ComplexityManager.

Lemma Qlt_bool_false_of_le a b : b <= a -> Qlt_bool a b = false.
Proof. apply Qlt_bool_false_iff. Qed.

Lemma Qlt_bool_true_of_lt a b : a < b -> Qlt_bool a b = true.
Proof. apply Qlt_bool_iff. Qed.

Lemma level_update_complexity d s :
  current_level (update_complexity d s)
  = if Qlt_bool (8 # 10) (success_rate_of d)
       && Qle_bool (inject_Z (current_level s) / 10) (inject_Z (technique_count_of d))
    then Z.min 100 (current_level s + 5)
    else if Qlt_bool (success_rate_of d) (3 # 10)
    then Z.max 0 (current_level s - 2)
    else current_level s.
Proof. reflexivity. Qed.

Lemma promote_step d s :
  8 # 10 < success_rate_of d ->
  inject_Z (current_level s) / 10 <= inject_Z (technique_count_of d) ->
  current_level (update_complexity d s) = Z.min 100 (current_level s + 5).
Proof.
  intros Hr Ht. rewrite level_update_complexity.
  rewrite (Qlt_bool_true_of_lt _ _ Hr).
  apply Qle_bool_iff in Ht. rewrite Ht. reflexivity.
Qed.

Lemma demote_step d s :
  success_rate_of d < 3 # 10 ->
  current_level (update_complexity d s) = Z.max 0 (current_level s - 2).
Proof.
  intros Hr. rewrite level_update_complexity.
  rewrite (Qlt_bool_false_of_le (8 # 10) (success_rate_of d)) by lra.
  rewrite (Qlt_bool_true_of_lt _ _ Hr). reflexivity.
Qed.

Lemma dead_zone_step d s :
  3 # 10 <= success_rate_of d <= 8 # 10 ->
  current_level (update_complexity d s) = current_level s.
Proof.
  intros [Hlo Hhi]. rewrite level_update_complexity.
  rewrite (Qlt_bool_false_of_le (8 # 10) (success_rate_of d)) by assumption.
  rewrite (Qlt_bool_false_of_le (success_rate_of d) (3 # 10)) by assumption.
  reflexivity.
Qed.

Lemma level_step_bounds d s :
  (0 <= current_level s <= 100)%Z ->
  (0 <= current_level (update_complexity d s) <= 100)%Z.
Proof.
  intros Hb. rewrite level_update_complexity.
  destruct (_ && _); [lia|].
  destruct (Qlt_bool _ _); lia.
Qed.

Lemma level_run_bounds events : forall s,
  (0 <= current_level s <= 100)%Z ->
  (0 <= current_level (run events s) <= 100)%Z.
Proof.
  unfold run. induction events as [|d events IH]; intros s Hb; simpl.
  - exact Hb.
  - apply IH, level_step_bounds, Hb.
Qed.

Lemma promotions_run events : forall s,
  (0 <= current_level s <= 100)%Z ->
  Forall (fun d => success_rate_of d == 9 # 10) events ->
  enough_techniques (current_level s) events ->
  current_level (run events s)
  = Z.min 100 (current_level s + 5 * Z.of_nat (length events)).
Proof.
  unfold run. induction events as [|d events IH]; intros s Hb Hall Hen.
  - simpl. lia.
  - inversion Hall as [|? ? Hd Hall']; subst.
    destruct Hen as [Ht Hen].
    assert (Hstep : current_level (update_complexity d s)
                    = Z.min 100 (current_level s + 5)).
    { apply promote_step; [rewrite Hd; reflexivity | exact Ht]. }
    cbn [fold_left]. rewrite IH.
    + rewrite Hstep. cbn [length]. lia.
    + rewrite Hstep. lia.
    + exact Hall'.
    + rewrite Hstep. exact Hen.
Qed.

Lemma demotions_run events : forall s,
  (0 <= current_level s)%Z ->
  Forall (fun d => success_rate_of d == 2 # 10) events ->
  current_level (run events s)
  = Z.max 0 (current_level s - 2 * Z.of_nat (length events)).
Proof.
  unfold run. induction events as [|d events IH]; intros s Hb Hall.
  - simpl. lia.
  - inversion Hall as [|? ? Hd Hall']; subst.
    assert (Hstep : current_level (update_complexity d s)
                    = Z.max 0 (current_level s - 2)).
    { apply demote_step. rewrite Hd. reflexivity. }
    cbn [fold_left]. rewrite IH.
    + rewrite Hstep. cbn [length]. lia.
    + rewrite Hstep. lia.
    + exact Hall'.
Qed.

(** C6. The level rises by 5 (capped at 100) on a rating above 0.8 with
    at least a tenth of the level in techniques, falls by 2 (floored at 0)
    on a rating below 0.3 and stays on a rating from 0.3 to 0.8 whatever
    the technique count. So it stays within 0 and 100; N calls rated 0.9
    with enough techniques take it from 0 to min(100, 5N); calls rated
    0.2 take it from 50 down by 2 each, to 0 and no lower. *)
Theorem complexity_level_rules :
  (forall d s,
     8 # 10 < success_rate_of d ->
     inject_Z (current_level s) / 10 <= inject_Z (technique_count_of d) ->
     current_level (update_complexity d s) = Z.min 100 (current_level s + 5))
  /\ (forall d s,
       success_rate_of d < 3 # 10 ->
       current_level (update_complexity d s) = Z.max 0 (current_level s - 2))
  /\ (forall d s,
       3 # 10 <= success_rate_of d <= 8 # 10 ->
       current_level (update_complexity d s) = current_level s)
  /\ (forall events, (0 <= current_level (run events init) <= 100)%Z)
  /\ (forall events,
       Forall (fun d => success_rate_of d == 9 # 10) events ->
       enough_techniques 0 events ->
       current_level (run events init) = Z.min 100 (5 * Z.of_nat (length events)))
  /\ (forall events s,
       current_level s = 50%Z ->
       Forall (fun d => success_rate_of d == 2 # 10) events ->
       current_level (run events s) = Z.max 0 (50 - 2 * Z.of_nat (length events))
       /\ (0 <= current_level (run events s))%Z).
Proof.
  split; [exact promote_step|].
  split; [exact demote_step|].
  split; [exact dead_zone_step|].
  split; [intros events; apply level_run_bounds; simpl; lia|].
  split.
  - intros events Hall Hen.
    rewrite (promotions_run events init); simpl; try lia; assumption.
  - intros events s Hs Hall.
    rewrite (demotions_run events s) by (try lia; assumption).
    rewrite Hs. lia.
Qed.

Lemma complexity_level_rules_witness :
  current_level (update_complexity promoting_event init) = 5%Z
  /\ current_level (update_complexity demoting_event init) = 0%Z
  /\ current_level (update_complexity mediocre_event init) = 0%Z
  /\ current_level (run [promoting_event; promoting_event] init) = 10%Z
  /\ current_level
       (run [demoting_event; demoting_event]
            {| current_level := 50; progression_history := [] |}) = 46%Z.
Proof.
  destruct complexity_level_rules as (Hup & Hdown & Hmid & _ & Hrun & Hfall).
  split; [|split; [|split; [|split]]].
  - apply (Hup promoting_event init); vm_compute; first [reflexivity | discriminate].
  - apply (Hdown demoting_event init); vm_compute; reflexivity.
  - apply (Hmid mediocre_event init); split; vm_compute; discriminate.
  - apply (Hrun [promoting_event; promoting_event]).
    + repeat constructor.
    + simpl. repeat split; vm_compute; discriminate.
  - apply (Hfall [demoting_event; demoting_event]
                 {| current_level := 50; progression_history := [] |}).
    + reflexivity.
    + repeat constructor.
Defined.

End complexity_manager.

(** ** Ordered dictionaries *)
Section odict_facts.
Context {K V : Type} `{EqDecision K}.

Lemma od_get_set (k k' : K) (v : V) (d : list (K * V)) :
  od_get k' (od_set k v d) = if decide (k' = k) then Some v else od_get k' d.
Proof.
  induction d as [|[k0 v0] d IH]; simpl.
  - destruct (decide (k' = k)); reflexivity.
  - destruct (decide (k = k0)) as [->|Hk]; simpl.
    + destruct (decide (k' = k0)); reflexivity.
    + destruct (decide (k' = k0)) as [->|Hk'].
      * destruct (decide (k0 = k)); [congruence | reflexivity].
      * exact IH.
Qed.

Lemma od_get_alter (f : V -> V) (k k' : K) (d : list (K * V)) :
  od_get k' (od_alter f k d)
  = if decide (k' = k) then f <$> od_get k d else od_get k' d.
Proof.
  induction d as [|[k0 v0] d IH]; simpl.
  - destruct (decide (k' = k)); reflexivity.
  - destruct (decide (k = k0)) as [->|Hk]; simpl.
    + destruct (decide (k' = k0)); reflexivity.
    + destruct (decide (k' = k0)) as [->|Hk'].
      * destruct (decide (k0 = k)); [congruence | reflexivity].
      * exact IH.
Qed.

Lemma od_get_In (k : K) (v : V) (d : list (K * V)) :
  od_get k d = Some v -> In (k, v) d.
Proof.
  induction d as [|[k0 v0] d IH]; simpl; [discriminate|].
  destruct (decide (k = k0)) as [->|Hk].
  - intros [= ->]. left. reflexivity.
  - intros Hg. right. exact (IH Hg).
Qed.

Lemma od_mem_true (k : K) (d : list (K * V)) :
  od_mem k d = true <-> is_Some (od_get k d).
Proof.
  unfold od_mem. destruct (od_get k d); split; intros Hm;
    try reflexivity; try discriminate; eauto.
  destruct Hm as [? [=]].
Qed.

Lemma od_mem_false (k : K) (d : list (K * V)) :
  od_mem k d = false <-> od_get k d = None.
Proof.
  unfold od_mem. destruct (od_get k d); split; intros Hm;
    try reflexivity; discriminate.
Qed.

Lemma keys_od_alter (f : V -> V) (k : K) (d : list (K * V)) :
  map fst (od_alter f k d) = map fst d.
Proof.
  induction d as [|[k0 v0] d IH]; simpl; [reflexivity|].
  destruct (decide (k = k0)); simpl; [reflexivity | f_equal; exact IH].
Qed.

Lemma keys_od_set_present (k : K) (v : V) (d : list (K * V)) :
  is_Some (od_get k d) -> map fst (od_set k v d) = map fst d.
Proof.
  induction d as [|[k0 v0] d IH]; simpl.
  - intros [? [=]].
  - destruct (decide (k = k0)); simpl; [reflexivity|].
    intros Hs. f_equal. exact (IH Hs).
Qed.

End odict_facts.

(** ** LearningSystem: the flavor accumulators *)
Section flavor_pairs.
Import LearningSystem.

Lemma flavor_cell_ensure_row k fc a b :
  flavor_cell (ensure_row k fc) a b = flavor_cell fc a b.
Proof.
  unfold ensure_row, flavor_cell.
  destruct (od_mem k fc) eqn:E; [reflexivity|].
  apply od_mem_false in E.
  rewrite od_get_set.
  destruct (decide (a = k)) as [->|Ha]; [|reflexivity].
  rewrite E. reflexivity.
Qed.

Lemma od_mem_ensure_row_same k fc : od_mem k (ensure_row k fc) = true.
Proof.
  unfold ensure_row. destruct (od_mem k fc) eqn:E; [exact E|].
  apply od_mem_true. rewrite od_get_set.
  destruct (decide (k = k)); [eauto | congruence].
Qed.

Lemma od_mem_ensure_row_keep k k' fc :
  od_mem k' fc = true -> od_mem k' (ensure_row k fc) = true.
Proof.
  intros Hm. unfold ensure_row. destruct (od_mem k fc) eqn:E; [exact Hm|].
  apply od_mem_true. rewrite od_get_set.
  destruct (decide (k' = k)); [eauto | apply od_mem_true, Hm].
Qed.

(** Creating the entry of a pair does not change any score. *)
Lemma flavor_score_ensure_cell k1 k2 fc a b :
  flavor_score (ensure_cell k1 k2 fc) a b = flavor_score fc a b.
Proof.
  unfold ensure_cell, flavor_score, row_mem.
  destruct (od_mem k2 (default [] (od_get k1 fc))) eqn:E; [reflexivity|].
  apply od_mem_false in E.
  rewrite od_get_alter.
  destruct (decide (a = k1)) as [->|Ha]; [|reflexivity].
  destruct (od_get k1 fc) as [row|] eqn:Er; simpl; [|reflexivity].
  simpl in E. rewrite od_get_set.
  destruct (decide (b = k2)) as [->|Hb]; [|reflexivity].
  rewrite E. reflexivity.
Qed.

Lemma od_mem_ensure_cell k1 k2 k fc :
  od_mem k (ensure_cell k1 k2 fc) = od_mem k fc.
Proof.
  unfold ensure_cell. destruct (row_mem fc k1 k2); [reflexivity|].
  unfold od_mem. rewrite od_get_alter.
  destruct (decide (k = k1)) as [->|Hk]; [|reflexivity].
  destruct (od_get k1 fc); reflexivity.
Qed.

Lemma flavor_cell_ensure_cell_same k1 k2 fc :
  od_mem k1 fc = true -> is_Some (flavor_cell (ensure_cell k1 k2 fc) k1 k2).
Proof.
  intros Hm. apply od_mem_true in Hm. destruct Hm as [row Hrow].
  unfold ensure_cell, row_mem, flavor_cell. rewrite Hrow. simpl.
  destruct (od_mem k2 row) eqn:E.
  - rewrite Hrow. simpl. apply od_mem_true, E.
  - rewrite od_get_alter.
    destruct (decide (k1 = k1)); [|congruence].
    rewrite Hrow. simpl. rewrite od_get_set.
    destruct (decide (k2 = k2)); [eauto | congruence].
Qed.

Lemma flavor_cell_ensure_cell_keep k1 k2 fc a b :
  is_Some (flavor_cell fc a b) -> is_Some (flavor_cell (ensure_cell k1 k2 fc) a b).
Proof.
  intros Hs. unfold ensure_cell. destruct (row_mem fc k1 k2) eqn:E; [exact Hs|].
  unfold flavor_cell in *. rewrite od_get_alter.
  destruct (decide (a = k1)) as [->|Ha]; [|exact Hs].
  destruct (od_get k1 fc) as [row|]; simpl in *; [|exact Hs].
  rewrite od_get_set. destruct (decide (b = k2)); [eauto | exact Hs].
Qed.

Lemma flavor_cell_add_to_cell k1 k2 c fc a b :
  flavor_cell (add_to_cell k1 k2 c fc) a b
  = if decide (a = k1 /\ b = k2) then (fun v => v + c) <$> flavor_cell fc a b
    else flavor_cell fc a b.
Proof.
  unfold add_to_cell, flavor_cell. rewrite od_get_alter.
  destruct (decide (a = k1)) as [->|Ha].
  - destruct (od_get k1 fc) as [row|]; simpl.
    + rewrite od_get_alter.
      destruct (decide (b = k2)) as [->|Hb].
      * destruct (decide (k1 = k1 /\ k2 = k2)) as [_|n]; [reflexivity|].
        exfalso; apply n; split; reflexivity.
      * destruct (decide (k1 = k1 /\ b = k2)) as [[_ e]|_]; [contradiction | reflexivity].
    + destruct (decide (k1 = k1 /\ b = k2)); reflexivity.
  - destruct (decide (a = k1 /\ b = k2)) as [[e _]|_]; [contradiction | reflexivity].
Qed.

Lemma flavor_score_cell fc a b : flavor_score fc a b = default 0 (flavor_cell fc a b).
Proof. reflexivity. Qed.

Lemma flavor_score_update_flavor_pairing ing1 ing2 success fc a b :
  flavor_score (_update_flavor_pairing ing1 ing2 success fc) a b
  = Nat.iter (hits ing1 ing2 a b) (fun v => v + change_of success)
             (flavor_score fc a b).
Proof.
  unfold _update_flavor_pairing.
  set (fc1 := ensure_row ing1 fc).
  set (fc2 := ensure_row ing2 fc1).
  set (fc3 := ensure_cell ing1 ing2 fc2).
  set (fc4 := ensure_cell ing2 ing1 fc3).
  set (c := change_of success).
  assert (Hscore : flavor_score fc4 a b = flavor_score fc a b).
  { unfold fc4, fc3. rewrite !flavor_score_ensure_cell.
    unfold fc2, fc1. rewrite !flavor_score_cell, !flavor_cell_ensure_row. reflexivity. }
  assert (H12 : is_Some (flavor_cell fc4 ing1 ing2)).
  { apply flavor_cell_ensure_cell_keep, flavor_cell_ensure_cell_same.
    apply od_mem_ensure_row_keep, od_mem_ensure_row_same. }
  assert (H21 : is_Some (flavor_cell fc4 ing2 ing1)).
  { apply flavor_cell_ensure_cell_same. unfold fc3.
    rewrite od_mem_ensure_cell. apply od_mem_ensure_row_same. }
  rewrite <- Hscore, !flavor_score_cell, !flavor_cell_add_to_cell.
  unfold hits.
  destruct (decide (a = ing1 /\ b = ing2)) as [[-> ->]|n12].
  - destruct H12 as [v Hv]. rewrite Hv.
    destruct (decide (ing1 = ing2 /\ ing2 = ing1)); reflexivity.
  - destruct (decide (a = ing2 /\ b = ing1)) as [[-> ->]|n21]; [|reflexivity].
    destruct H21 as [v Hv]. rewrite Hv. reflexivity.
Qed.

Lemma flavor_score_inner_loop success ing1 rest : forall fc a b,
  flavor_score
    (fold_left (fun fc ing2 => _update_flavor_pairing (item ing1) (item ing2) success fc)
               rest fc) a b
  = Nat.iter (row_hits a b (item ing1) (map item rest))
             (fun v => v + change_of success) (flavor_score fc a b).
Proof.
  induction rest as [|ing2 rest IH]; intros fc a b; simpl; [reflexivity|].
  rewrite IH, flavor_score_update_flavor_pairing.
  rewrite <- Nat.iter_add. f_equal. lia.
Qed.

Lemma flavor_score_update_flavor_pairs success l : forall fc a b,
  flavor_score (update_flavor_pairs l success fc) a b
  = Nat.iter (pair_hits a b (map item l))
             (fun v => v + change_of success) (flavor_score fc a b).
Proof.
  induction l as [|ing1 rest IH]; intros fc a b; simpl; [reflexivity|].
  rewrite IH, flavor_score_inner_loop.
  rewrite <- Nat.iter_add. f_equal. lia.
Qed.

Lemma row_hits_count a b x rest :
  row_hits a b x rest
  = ((if decide (x = a) then count_occ string_dec rest b else 0)
     + (if decide (x = b) then count_occ string_dec rest a else 0))%nat.
Proof.
  induction rest as [|y rest IH]; simpl.
  - destruct (decide (x = a)), (decide (x = b)); reflexivity.
  - rewrite IH. unfold hits.
    destruct (string_dec y b), (string_dec y a);
      repeat match goal with
             | |- context [decide ?P] => destruct (decide P)
             end;
      try lia; exfalso;
      repeat match goal with H : _ /\ _ |- _ => destruct H end;
      first [ congruence
            | match goal with
              | n : ~ _ |- _ => solve [apply n; split; congruence]
              end ].
Qed.

Lemma pair_hits_distinct a b l :
  a <> b ->
  pair_hits a b l = (count_occ string_dec l a * count_occ string_dec l b)%nat.
Proof.
  intros Hab. induction l as [|x rest IH]; simpl; [reflexivity|].
  rewrite IH, row_hits_count.
  destruct (string_dec x a), (string_dec x b), (decide (x = a)), (decide (x = b));
    try congruence; lia.
Qed.

Lemma pair_hits_same a l :
  pair_hits a a l
  = (count_occ string_dec l a * (count_occ string_dec l a - 1))%nat.
Proof.
  induction l as [|x rest IH]; simpl; [reflexivity|].
  rewrite IH, row_hits_count.
  destruct (string_dec x a), (decide (x = a)); try congruence; [|lia].
  destruct (count_occ string_dec rest a); simpl; lia.
Qed.

End flavor_pairs.

(** ** LearningSystem: one learning call, stage by stage *)
Section evaluate.
Import LearningSystem.
Context `{PyBuiltins}.

Lemma evaluate_recipe_success_failed_complexity now recipe fb s e :
  _calculate_complexity recipe = inl e ->
  evaluate_recipe_success now recipe fb s = (s, inl e).
Proof.
  intros Hc. unfold evaluate_recipe_success, bind, lift. rewrite Hc. reflexivity.
Qed.

Lemma evaluate_recipe_success_stages now recipe fb s c :
  _calculate_complexity recipe = inr c ->
  evaluate_recipe_success now recipe fb s
  = let changes := snd (after_techniques c recipe fb s) in
    match _is_novel_combination now recipe (after_flavor c recipe fb s) with
    | (s3, inl e) => (s3, inl e)
    | (s3, inr true) =>
        if Qeq_bool (rating fb) 1
        then (s3, inl (AttributeError "LearningSystem" "successful_innovations"))
        else finish (od_alter (fun v => v + (1 # 10)) (value RECIPE_COMPLEXITY) changes)
                    c fb s3
    | (s3, inr false) => finish changes c fb s3
    end.
Proof.
  intros Hc. unfold evaluate_recipe_success, after_flavor, after_techniques, finish.
  unfold bind at 1. unfold lift. rewrite Hc.
  fold no_changes.
  destruct (Qeq_bool (rating fb) 1) eqn:Er.
  - unfold bind, get, put, ret, raise. cbv beta iota zeta. cbn [fst snd].
    destruct (_is_novel_combination now recipe _) as [s3 [e3|[|]]]; reflexivity.
  - unfold bind, get, put, ret, raise. cbv beta iota zeta. cbn [fst snd].
    destruct (_is_novel_combination now recipe _) as [s3 [e3|[|]]]; reflexivity.
Qed.

(** *** What the mastery update leaves alone *)

Lemma update_category_frame changes c m category s :
  let s' := fst (update_category changes c m category s) in
  known_recipes s' = known_recipes s
  /\ flavor_combinations s' = flavor_combinations s
  /\ technique_proficiency s' = technique_proficiency s.
Proof.
  unfold update_category, bind, get, put, raise. cbv beta iota.
  destruct (od_get category (categories (mastery s))) as [current|]; [|repeat split].
  destruct (od_get (value category) changes) as [delta|]; repeat split.
Qed.

Lemma for_each_update_category_frame changes c m l : forall s,
  let s' := fst (for_each l (update_category changes c m) s) in
  known_recipes s' = known_recipes s
  /\ flavor_combinations s' = flavor_combinations s
  /\ technique_proficiency s' = technique_proficiency s.
Proof.
  induction l as [|category l IH]; intros s; simpl; [repeat split|].
  unfold bind.
  pose proof (update_category_frame changes c m category s) as Hstep.
  destruct (update_category changes c m category s) as [s1 [e|[]]]; simpl in *.
  - exact Hstep.
  - destruct Hstep as (Hk & Hf & Ht).
    destruct (IH s1) as (Hk' & Hf' & Ht').
    rewrite Hk', Hf', Ht'. repeat split; assumption.
Qed.

Lemma finish_frame changes c fb s :
  let s' := fst (finish changes c fb s) in
  known_recipes s' = known_recipes s
  /\ flavor_combinations s' = flavor_combinations s
  /\ technique_proficiency s' = technique_proficiency s.
Proof.
  unfold finish, _update_mastery_levels.
  pose proof (for_each_update_category_frame changes c
                (if Qeq_bool (rating fb) 1 then 1 else - (1 # 2)) all_categories s) as Hf.
  destruct (for_each all_categories _ s) as [s' [e|u]]; exact Hf.
Qed.

(** *** The novelty check *)

Lemma str_keys_no_tuple k a b : str_keys k -> od_get (KTuple a b) k = None.
Proof.
  induction 1 as [|[key v] k [x Hx] _ IH]; simpl; [reflexivity|].
  simpl in Hx. subst key.
  destruct (decide (KTuple a b = KStr x)); [discriminate | exact IH].
Qed.

Lemma str_keys_od_set k x v : str_keys k -> str_keys (od_set (KStr x) v k).
Proof.
  induction 1 as [|[key v'] k Hkey Htail IH]; simpl.
  - repeat constructor. exists x. reflexivity.
  - destruct (decide (KStr x = key)); constructor; try assumption;
      simpl in *; exact Hkey.
Qed.

(** With [str] keys only in [known_recipes] the pair of frozensets is
    never found: the verdict is "novel" and the record is written anew. *)
Lemma _is_novel_combination_str_keys now recipe s :
  str_keys (known_recipes s) ->
  _is_novel_combination now recipe s
  = (set_known_recipes
       (od_set (KStr (py_str (combination_of recipe)))
               {| first_attempted := now; times_attempted := 1 |}
               (known_recipes s)) s,
     inr true).
Proof.
  intros Hk. unfold _is_novel_combination, bind, get, put, ret. cbv beta iota zeta.
  unfold od_mem. rewrite (str_keys_no_tuple _ _ _ Hk). reflexivity.
Qed.

Lemma _is_novel_combination_frame now recipe s :
  let s' := fst (_is_novel_combination now recipe s) in
  flavor_combinations s' = flavor_combinations s
  /\ technique_proficiency s' = technique_proficiency s
  /\ mastery s' = mastery s.
Proof.
  unfold _is_novel_combination, bind, get, put, ret, raise. cbv beta iota zeta.
  destruct (negb _); [repeat split|].
  destruct (od_get _ _); repeat split.
Qed.

(** *** The engine after a call *)

Lemma after_techniques_frame c recipe fb s :
  let s1 := fst (after_techniques c recipe fb s) in
  flavor_combinations s1 = flavor_combinations s
  /\ known_recipes s1 = known_recipes s
  /\ mastery s1 = mastery s.
Proof.
  unfold after_techniques. destruct (Qeq_bool (rating fb) 1); repeat split.
Qed.

Lemma evaluate_recipe_success_flavor now recipe fb s c :
  _calculate_complexity recipe = inr c ->
  flavor_combinations (fst (evaluate_recipe_success now recipe fb s))
  = update_flavor_pairs (ingredients recipe) (rating fb) (flavor_combinations s).
Proof.
  intros Hc. rewrite (evaluate_recipe_success_stages _ _ _ _ _ Hc). cbv zeta.
  assert (Hf : flavor_combinations (after_flavor c recipe fb s)
               = update_flavor_pairs (ingredients recipe) (rating fb)
                                     (flavor_combinations s)).
  { unfold after_flavor. cbv zeta. simpl.
    destruct (after_techniques_frame c recipe fb s) as (-> & _). reflexivity. }
  destruct (_is_novel_combination_frame now recipe (after_flavor c recipe fb s))
    as (Hn & _).
  rewrite Hf in Hn.
  destruct (_is_novel_combination now recipe (after_flavor c recipe fb s))
    as [s3 [e|[|]]]; cbn [fst] in Hn.
  - simpl. congruence.
  - destruct (Qeq_bool (rating fb) 1); [simpl; congruence|].
    destruct (finish_frame (od_alter (fun v => v + (1 # 10)) (value RECIPE_COMPLEXITY)
                                     (snd (after_techniques c recipe fb s))) c fb s3)
      as (_ & -> & _).
    congruence.
  - destruct (finish_frame (snd (after_techniques c recipe fb s)) c fb s3)
      as (_ & -> & _).
    congruence.
Qed.

Lemma evaluate_recipe_success_known_recipes now recipe fb s c :
  _calculate_complexity recipe = inr c ->
  str_keys (known_recipes s) ->
  known_recipes (fst (evaluate_recipe_success now recipe fb s))
  = od_set (KStr (py_str (combination_of recipe)))
           {| first_attempted := now; times_attempted := 1 |}
           (known_recipes s).
Proof.
  intros Hc Hk. rewrite (evaluate_recipe_success_stages _ _ _ _ _ Hc). cbv zeta.
  assert (Hk' : known_recipes (after_flavor c recipe fb s) = known_recipes s).
  { unfold after_flavor. cbv zeta. simpl.
    destruct (after_techniques_frame c recipe fb s) as (_ & -> & _). reflexivity. }
  rewrite _is_novel_combination_str_keys by (rewrite Hk'; exact Hk).
  rewrite Hk'.
  destruct (Qeq_bool (rating fb) 1); [reflexivity|].
  match goal with
  | |- known_recipes (fst (finish ?ch c fb ?s3)) = _ =>
      destruct (finish_frame ch c fb s3) as (-> & _)
  end.
  reflexivity.
Qed.

Lemma evaluate_recipe_success_str_keys now recipe fb s :
  str_keys (known_recipes s) ->
  str_keys (known_recipes (fst (evaluate_recipe_success now recipe fb s))).
Proof.
  intros Hk. destruct (_calculate_complexity recipe) as [e|c] eqn:Hc.
  - rewrite (evaluate_recipe_success_failed_complexity _ _ _ _ _ Hc). exact Hk.
  - rewrite (evaluate_recipe_success_known_recipes _ _ _ _ _ Hc Hk).
    apply str_keys_od_set, Hk.
Qed.

Lemma run_str_keys events : forall s,
  str_keys (known_recipes s) -> str_keys (known_recipes (run events s)).
Proof.
  unfold run. induction events as [|[[now recipe] fb] events IH]; intros s Hk.
  - exact Hk.
  - simpl. apply IH, evaluate_recipe_success_str_keys, Hk.
Qed.

Lemma init_str_keys : str_keys (known_recipes init).
Proof. constructor. Qed.

(** *** The mastery categories *)

Lemma In_keys_od_get {K V} `{EqDecision K} (k : K) (d : list (K * V)) :
  In k (map fst d) -> is_Some (od_get k d).
Proof.
  induction d as [|[k0 v0] d IH]; simpl; [intros []|].
  destruct (decide (k = k0)); [eauto|].
  intros [e|Hin]; [congruence | exact (IH Hin)].
Qed.

Lemma od_set_values_Forall {K} `{EqDecision K} (P : Q -> Prop) (k : K) v d :
  Forall P (map snd d) -> P v -> Forall P (map snd (od_set k v d)).
Proof.
  intros Hd Hv. induction d as [|[k0 v0] d IH]; simpl.
  - constructor; [exact Hv | constructor].
  - inversion Hd as [|? ? Hv0 Hd']; subst.
    destruct (decide (k = k0)); simpl; constructor; auto.
Qed.

Lemma all_categories_complete category : In category all_categories.
Proof. destruct category; simpl; tauto. Qed.

Lemma update_category_cats_ok changes c m category s :
  cats_ok (categories (mastery s)) ->
  cats_ok (categories (mastery (fst (update_category changes c m category s)))).
Proof.
  intros [Hkeys Hvals]. unfold update_category, bind, get, put, raise. cbv beta iota.
  destruct (od_get category (categories (mastery s))) as [current|] eqn:Hg;
    [|split; assumption].
  destruct (od_get (value category) changes) as [delta|]; [|split; assumption].
  simpl. split.
  - rewrite keys_od_set_present by (rewrite Hg; eauto). exact Hkeys.
  - apply od_set_values_Forall; [exact Hvals | apply clamp_bounds].
Qed.

Lemma for_each_update_category_cats_ok changes c m l : forall s,
  cats_ok (categories (mastery s)) ->
  cats_ok (categories (mastery (fst (for_each l (update_category changes c m) s)))).
Proof.
  induction l as [|category l IH]; intros s Hs; simpl; [exact Hs|].
  unfold bind.
  pose proof (update_category_cats_ok changes c m category s Hs) as Hstep.
  destruct (update_category changes c m category s) as [s1 [e|[]]]; simpl in *.
  - exact Hstep.
  - apply IH, Hstep.
Qed.

Lemma finish_cats_ok changes c fb s :
  cats_ok (categories (mastery s)) ->
  cats_ok (categories (mastery (fst (finish changes c fb s)))).
Proof.
  intros Hs. unfold finish, _update_mastery_levels.
  pose proof (for_each_update_category_cats_ok changes c
                (if Qeq_bool (rating fb) 1 then 1 else - (1 # 2)) all_categories s Hs) as Hf.
  destruct (for_each all_categories _ s) as [s' [e|u]]; exact Hf.
Qed.

Lemma evaluate_recipe_success_cats_ok now recipe fb s :
  cats_ok (categories (mastery s)) ->
  cats_ok (categories (mastery (fst (evaluate_recipe_success now recipe fb s)))).
Proof.
  intros Hs. destruct (_calculate_complexity recipe) as [e|c] eqn:Hc.
  - rewrite (evaluate_recipe_success_failed_complexity _ _ _ _ _ Hc). exact Hs.
  - rewrite (evaluate_recipe_success_stages _ _ _ _ _ Hc). cbv zeta.
    assert (Hm : mastery (after_flavor c recipe fb s) = mastery s).
    { unfold after_flavor. cbv zeta. simpl.
      destruct (after_techniques_frame c recipe fb s) as (_ & _ & ->). reflexivity. }
    destruct (_is_novel_combination_frame now recipe (after_flavor c recipe fb s))
      as (_ & _ & Hn).
    rewrite Hm in Hn.
    destruct (_is_novel_combination now recipe (after_flavor c recipe fb s))
      as [s3 [e|[|]]]; cbn [fst] in Hn.
    + simpl. rewrite Hn. exact Hs.
    + destruct (Qeq_bool (rating fb) 1).
      * simpl. rewrite Hn. exact Hs.
      * apply finish_cats_ok. rewrite Hn. exact Hs.
    + apply finish_cats_ok. rewrite Hn. exact Hs.
Qed.

Lemma run_cats_ok events : forall s,
  cats_ok (categories (mastery s)) -> cats_ok (categories (mastery (run events s))).
Proof.
  unfold run. induction events as [|[[now recipe] fb] events IH]; intros s Hs.
  - exact Hs.
  - simpl. apply IH, evaluate_recipe_success_cats_ok, Hs.
Qed.

Lemma init_cats_ok : cats_ok (categories (mastery init)).
Proof.
  split; [reflexivity|].
  simpl. repeat constructor; unfold Qle; simpl; lia.
Qed.

(** With all eight categories in place and a delta for each, the mastery
    update raises nothing. *)
Lemma for_each_update_category_returns changes c m l : forall s,
  map fst (categories (mastery s)) = all_categories ->
  map fst changes = map value all_categories ->
  snd (for_each l (update_category changes c m) s) = inr tt.
Proof.
  induction l as [|category l IH]; intros s Hs Hch; simpl; [reflexivity|].
  unfold bind.
  assert (Hstep : exists s1, update_category changes c m category s = (s1, inr tt)
                             /\ map fst (categories (mastery s1)) = all_categories).
  { unfold update_category, bind, get, put, raise. cbv beta iota.
    destruct (In_keys_od_get category (categories (mastery s))) as [current Hg].
    { rewrite Hs. apply all_categories_complete. }
    destruct (In_keys_od_get (value category) changes) as [delta Hd].
    { rewrite Hch. apply in_map, all_categories_complete. }
    rewrite Hg, Hd. eexists. split; [reflexivity|].
    simpl. rewrite keys_od_set_present by (rewrite Hg; eauto). exact Hs. }
  destruct Hstep as (s1 & -> & Hs1). apply IH; assumption.
Qed.

Lemma finish_returns changes c fb s :
  map fst (categories (mastery s)) = all_categories ->
  map fst changes = map value all_categories ->
  snd (finish changes c fb s) = inr changes.
Proof.
  intros Hs Hch. unfold finish, _update_mastery_levels.
  pose proof (for_each_update_category_returns changes c
                (if Qeq_bool (rating fb) 1 then 1 else - (1 # 2))
                all_categories s Hs Hch) as Hr.
  destruct (for_each all_categories _ s) as [s' [e|u]]; simpl in *;
    [discriminate | reflexivity].
Qed.

End evaluate.

(** ** LearningSystem: novelty, errors, accumulators and mastery *)
Section learning_system.
Import LearningSystem.

(** C1. On the code the novelty verdict does not depend on the history:
    whatever calls came before (the same recipe among them), the check
    answers "novel" and writes the record of the combination anew with
    [times_attempted = 1]. The lookup is made with the pair of frozensets
    while the records are stored under its [str]. *)
Theorem novelty_verdict_ignores_history `{PyBuiltins}
    (events : list (string * Recipe * Feedback)) (now : string) (recipe : Recipe) :
  let s := run events init in
  _is_novel_combination now recipe s
  = (set_known_recipes
       (od_set (KStr (py_str (combination_of recipe)))
               {| first_attempted := now; times_attempted := 1 |}
               (known_recipes s)) s,
     inr true).
Proof.
  intros s. apply _is_novel_combination_str_keys.
  apply run_str_keys, init_str_keys.
Qed.

(** The scenario of the specification on the code: the second, identical
    call earns the novelty delta again and the attempt counter stays 1. *)
Example novelty_second_call :
  let call := @evaluate_recipe_success plain_builtins in
  let s1 := fst (call "t1" egg_onion (mkFeedback 0) init) in
  let '(s2, result) := call "t2" egg_onion (mkFeedback 0) s1 in
  (exists changes, result = inr changes
     /\ od_get (value RECIPE_COMPLEXITY) changes = Some (1 # 10))
  /\ map (fun p => times_attempted (snd p)) (known_recipes s2) = [1%Z]
  /\ map (fun p => first_attempted (snd p)) (known_recipes s2) = ["t2"%string].
Proof.
  vm_compute. split; [|split; reflexivity].
  eexists. split; reflexivity.
Qed.

(** C2. On the code a call with rating 1 whose complexity was computed
    never returns: it raises [AttributeError], since the novelty check
    always answers "novel" and the branch then reads
    [self.successful_innovations], which a [LearningSystem] does not have. *)
Theorem evaluate_recipe_success_raises_on_rating_one `{PyBuiltins}
    (events : list (string * Recipe * Feedback)) (now : string)
    (recipe : Recipe) (fb : Feedback) (c : Q) :
  _calculate_complexity recipe = inr c ->
  rating fb == 1 ->
  snd (evaluate_recipe_success now recipe fb (run events init))
  = inl (AttributeError "LearningSystem" "successful_innovations").
Proof.
  intros Hc Hr.
  rewrite (evaluate_recipe_success_stages _ _ _ _ _ Hc). cbv zeta.
  assert (Hk : str_keys (known_recipes (after_flavor c recipe fb (run events init)))).
  { unfold after_flavor. cbv zeta. simpl.
    destruct (after_techniques_frame c recipe fb (run events init)) as (_ & -> & _).
    apply run_str_keys, init_str_keys. }
  rewrite (_is_novel_combination_str_keys _ _ _ Hk).
  apply Qeq_bool_iff in Hr. rewrite Hr. reflexivity.
Qed.

Lemma evaluate_recipe_success_raises_on_rating_one_witness :
  @_calculate_complexity plain_builtins egg_onion = inr (18000 # 180000)
  /\ snd (@evaluate_recipe_success plain_builtins "t1" egg_onion (mkFeedback 1) init)
     = inl (AttributeError "LearningSystem" "successful_innovations").
Proof.
  assert (Hc : @_calculate_complexity plain_builtins egg_onion = inr (18000 # 180000))
    by (vm_compute; reflexivity).
  split; [exact Hc|].
  apply (@evaluate_recipe_success_raises_on_rating_one plain_builtins []
           "t1"%string egg_onion (mkFeedback 1) (18000 # 180000) Hc).
  reflexivity.
Defined.

(** With any other rating the call returns one delta for each of the
    eight categories. *)
Lemma evaluate_recipe_success_returns `{PyBuiltins}
    (events : list (string * Recipe * Feedback)) (now : string)
    (recipe : Recipe) (fb : Feedback) (c : Q) :
  _calculate_complexity recipe = inr c ->
  ~ rating fb == 1 ->
  exists changes,
    snd (evaluate_recipe_success now recipe fb (run events init)) = inr changes
    /\ map fst changes = map value all_categories.
Proof.
  intros Hc Hr.
  rewrite (evaluate_recipe_success_stages _ _ _ _ _ Hc). cbv zeta.
  set (s := run events init).
  assert (Hb : Qeq_bool (rating fb) 1 = false).
  { destruct (Qeq_bool (rating fb) 1) eqn:E; [|reflexivity].
    apply Qeq_bool_iff in E. contradiction. }
  assert (Hk : str_keys (known_recipes (after_flavor c recipe fb s))).
  { unfold after_flavor. cbv zeta. simpl.
    destruct (after_techniques_frame c recipe fb s) as (_ & -> & _).
    apply run_str_keys, init_str_keys. }
  rewrite (_is_novel_combination_str_keys _ _ _ Hk), Hb.
  unfold after_techniques. rewrite Hb. cbn [snd].
  eexists. split.
  - apply finish_returns.
    + simpl. unfold after_flavor, after_techniques. rewrite Hb. simpl.
      apply (run_cats_ok events init init_cats_ok).
    + rewrite keys_od_alter. unfold no_changes. rewrite map_map. reflexivity.
  - rewrite keys_od_alter. unfold no_changes. rewrite map_map. reflexivity.
Qed.

End learning_system.

Section flavor_entries.
Import LearningSystem.

(** The call for [(ing1, ing2)] creates the entries of both directions
    and removes none. *)
Lemma flavor_cell_update_flavor_pairing_present ing1 ing2 success fc a b :
  (0 < hits ing1 ing2 a b)%nat \/ is_Some (flavor_cell fc a b) ->
  is_Some (flavor_cell (_update_flavor_pairing ing1 ing2 success fc) a b).
Proof.
  intros Hor. unfold _update_flavor_pairing.
  set (fc1 := ensure_row ing1 fc).
  set (fc2 := ensure_row ing2 fc1).
  set (fc3 := ensure_cell ing1 ing2 fc2).
  set (fc4 := ensure_cell ing2 ing1 fc3).
  assert (H4 : is_Some (flavor_cell fc4 a b)).
  { destruct Hor as [Hhit|Hsome].
    - unfold hits in Hhit.
      destruct (decide (a = ing1 /\ b = ing2)) as [[-> ->]|n12].
      + apply flavor_cell_ensure_cell_keep, flavor_cell_ensure_cell_same.
        apply od_mem_ensure_row_keep, od_mem_ensure_row_same.
      + destruct (decide (a = ing2 /\ b = ing1)) as [[-> ->]|n21]; [|simpl in Hhit; lia].
        apply flavor_cell_ensure_cell_same. unfold fc3.
        rewrite od_mem_ensure_cell. apply od_mem_ensure_row_same.
    - unfold fc4, fc3. do 2 apply flavor_cell_ensure_cell_keep.
      unfold fc2, fc1. rewrite !flavor_cell_ensure_row. exact Hsome. }
  rewrite !flavor_cell_add_to_cell.
  destruct H4 as [v Hv].
  repeat match goal with
         | |- context [decide ?P] => destruct (decide P)
         end; rewrite Hv; simpl; eauto.
Qed.

Lemma flavor_cell_inner_loop_present success ing1 rest : forall fc a b,
  (0 < row_hits a b (item ing1) (map item rest))%nat \/ is_Some (flavor_cell fc a b) ->
  is_Some (flavor_cell
             (fold_left (fun fc ing2 =>
                           _update_flavor_pairing (item ing1) (item ing2) success fc)
                        rest fc) a b).
Proof.
  induction rest as [|ing2 rest IH]; intros fc a b Hor; simpl in *.
  - destruct Hor as [Hhit|Hsome]; [lia | exact Hsome].
  - apply IH.
    destruct (Nat.eq_dec (row_hits a b (item ing1) (map item rest)) 0%nat) as [Hz|Hnz];
      [right | left; lia].
    apply flavor_cell_update_flavor_pairing_present.
    destruct Hor as [Hhit|Hsome]; [left; lia | right; exact Hsome].
Qed.

Lemma flavor_cell_update_flavor_pairs_present success l : forall fc a b,
  (0 < pair_hits a b (map item l))%nat \/ is_Some (flavor_cell fc a b) ->
  is_Some (flavor_cell (update_flavor_pairs l success fc) a b).
Proof.
  induction l as [|ing1 rest IH]; intros fc a b Hor; simpl in *.
  - destruct Hor as [Hhit|Hsome]; [lia | exact Hsome].
  - apply IH.
    destruct (Nat.eq_dec (pair_hits a b (map item rest)) 0%nat) as [Hz|Hnz];
      [right | left; lia].
    apply flavor_cell_inner_loop_present.
    destruct Hor as [Hhit|Hsome]; [left; lia | right; exact Hsome].
Qed.

Lemma change_of_one success : success == 1 -> change_of success = 1.
Proof.
  intros Hs. unfold change_of. apply Qeq_bool_iff in Hs. rewrite Hs. reflexivity.
Qed.

Lemma change_of_other success : ~ success == 1 -> change_of success = - (1 # 2).
Proof.
  intros Hs. unfold change_of.
  destruct (Qeq_bool success 1) eqn:E; [|reflexivity].
  apply Qeq_bool_iff in E. contradiction.
Qed.

End flavor_entries.

Section learning_system_accumulators.
Import LearningSystem.

(** C3, as the code has it. For a call whose complexity was computed and
    two different ingredients that each occur once in the list, the
    accumulator of the pair changes by the same amount in both
    directions: by +1 when the rating equals 1 and by -0.5 for every other
    rating. *)
Theorem flavor_pair_change `{PyBuiltins} (now : string) (recipe : Recipe)
    (fb : Feedback) (s : t) (c : Q) (a b : string) :
  _calculate_complexity recipe = inr c ->
  a <> b ->
  count_occ string_dec (names recipe) a = 1%nat ->
  count_occ string_dec (names recipe) b = 1%nat ->
  let fc := flavor_combinations s in
  let fc' := flavor_combinations (fst (evaluate_recipe_success now recipe fb s)) in
  flavor_score fc' a b == flavor_score fc a b + change_of (rating fb)
  /\ flavor_score fc' b a == flavor_score fc b a + change_of (rating fb)
  /\ (rating fb == 1 -> change_of (rating fb) = 1)
  /\ (~ rating fb == 1 -> change_of (rating fb) = - (1 # 2)).
Proof.
  intros Hc Hab Ha Hb fc fc'. unfold fc', fc.
  rewrite (evaluate_recipe_success_flavor _ _ _ _ _ Hc).
  rewrite !flavor_score_update_flavor_pairs.
  fold (names recipe).
  rewrite !pair_hits_distinct by congruence.
  rewrite Ha, Hb. simpl.
  split; [reflexivity|]. split; [reflexivity|].
  split; [apply change_of_one | apply change_of_other].
Qed.

Lemma flavor_pair_change_witness :
  let s' := fst (@evaluate_recipe_success plain_builtins "t1" egg_onion (mkFeedback 2) init) in
  flavor_score (flavor_combinations s') "egg" "onion"
  == flavor_score (flavor_combinations init) "egg" "onion" + - (1 # 2).
Proof.
  assert (Hc : @_calculate_complexity plain_builtins egg_onion = inr (18000 # 180000))
    by (vm_compute; reflexivity).
  assert (Hne : "egg"%string <> "onion"%string) by discriminate.
  exact (proj1 (@flavor_pair_change plain_builtins "t1"%string egg_onion (mkFeedback 2)
                  init (18000 # 180000) "egg"%string "onion"%string
                  Hc Hne eq_refl eq_refl)).
Defined.

(** A rating of 2 is greater than 0, and the accumulator of the pair goes
    down by a half instead of up by one. *)
Lemma flavor_pair_positive_rating_counterexample :
  let fb := mkFeedback 2 in
  let s' := fst (@evaluate_recipe_success plain_builtins "t1" egg_onion fb init) in
  0 < rating fb
  /\ ~ (flavor_score (flavor_combinations s') "egg" "onion"
        == flavor_score (flavor_combinations init) "egg" "onion" + 1)
  /\ flavor_score (flavor_combinations s') "egg" "onion" == - (1 # 2).
Proof.
  vm_compute. repeat split; intros; discriminate.
Qed.

(** C10, as the code has it. In a call whose complexity was computed, an
    ingredient name listed at exactly two positions gets an entry paired
    with itself, and the one call adds to it twice: +2 when the rating
    equals 1, -1 for every other rating. *)
Theorem repeated_ingredient_self_pair `{PyBuiltins} (now : string) (recipe : Recipe)
    (fb : Feedback) (s : t) (c : Q) (X : string) :
  _calculate_complexity recipe = inr c ->
  count_occ string_dec (names recipe) X = 2%nat ->
  let fc := flavor_combinations s in
  let fc' := flavor_combinations (fst (evaluate_recipe_success now recipe fb s)) in
  is_Some (od_get X fc' ≫= od_get X)
  /\ flavor_score fc' X X == flavor_score fc X X + 2 * change_of (rating fb)
  /\ (rating fb == 1 -> 2 * change_of (rating fb) == 2)
  /\ (~ rating fb == 1 -> 2 * change_of (rating fb) == - (1)).
Proof.
  intros Hc HX fc fc'. unfold fc', fc.
  rewrite (evaluate_recipe_success_flavor _ _ _ _ _ Hc).
  assert (Hhits : pair_hits X X (map item (ingredients recipe)) = 2%nat).
  { rewrite pair_hits_same. fold (names recipe). rewrite HX. reflexivity. }
  split; [|split; [|split]].
  - apply flavor_cell_update_flavor_pairs_present. left. rewrite Hhits. lia.
  - rewrite flavor_score_update_flavor_pairs, Hhits. simpl. ring.
  - intros Hr. rewrite (change_of_one _ Hr). reflexivity.
  - intros Hr. rewrite (change_of_other _ Hr). reflexivity.
Qed.

Lemma repeated_ingredient_self_pair_witness :
  let s' := fst (@evaluate_recipe_success plain_builtins "t1" egg_egg (mkFeedback 1) init) in
  flavor_score (flavor_combinations s') "egg" "egg"
  == flavor_score (flavor_combinations init) "egg" "egg" + 2 * change_of 1.
Proof.
  assert (Hc : @_calculate_complexity plain_builtins egg_egg = inr (9000 # 180000))
    by (vm_compute; reflexivity).
  exact (proj1 (proj2 (@repeated_ingredient_self_pair plain_builtins "t1"%string egg_egg
                         (mkFeedback 1) init (9000 # 180000) "egg"%string
                         Hc eq_refl))).
Defined.

(** A rating of 0.5 is positive, and the entry of egg with itself goes
    down by 1 instead of up by 2. *)
Lemma repeated_ingredient_positive_rating_counterexample :
  let fb := mkFeedback (1 # 2) in
  let s' := fst (@evaluate_recipe_success plain_builtins "t1" egg_egg fb init) in
  0 < rating fb
  /\ count_occ string_dec (names egg_egg) "egg" = 2%nat
  /\ ~ (flavor_score (flavor_combinations s') "egg" "egg"
        == flavor_score (flavor_combinations init) "egg" "egg" + 2)
  /\ flavor_score (flavor_combinations s') "egg" "egg" == - (1).
Proof.
  vm_compute. repeat split; intros; discriminate.
Qed.

Example repeated_ingredient_self_pair_runs :
  flavor_combinations
    (fst (@evaluate_recipe_success plain_builtins "t1" egg_egg (mkFeedback 1) init))
  = [("egg"%string, [("egg"%string, 2)])]
  /\ map (fun p => map (fun q => Qred (snd q)) (snd p))
         (flavor_combinations
            (fst (@evaluate_recipe_success plain_builtins "t1" egg_egg (mkFeedback 0) init)))
     = [[- (1)]].
Proof. vm_compute. split; reflexivity. Qed.

End learning_system_accumulators.

Section mastery.
Import LearningSystem.

Lemma od_get_value_In {K V} `{EqDecision K} (k : K) (v : V) (d : list (K * V)) :
  od_get k d = Some v -> In v (map snd d).
Proof.
  intros Hg. apply od_get_In in Hg.
  change v with (snd (k, v)). apply in_map, Hg.
Qed.

(** C4. After every sequence of learning calls from the initial state the
    mastery holds exactly the eight categories, each with a value within
    0 and 1, and the overall mastery is their sum divided by 8. *)
Theorem mastery_within_bounds `{PyBuiltins}
    (events : list (string * Recipe * Feedback)) :
  let m := mastery (run events init) in
  map fst (categories m) = all_categories
  /\ (forall category,
        exists v, od_get category (categories m) = Some v /\ 0 <= v <= 1)
  /\ calculate_overall_mastery m
     = inr (fold_left Qplus (map snd (categories m)) 0 / 8).
Proof.
  intros m.
  destruct (run_cats_ok events init init_cats_ok) as [Hkeys Hvals].
  fold m in Hkeys, Hvals.
  split; [exact Hkeys|]. split.
  - intros category.
    destruct (In_keys_od_get category (categories m)) as [v Hv].
    { rewrite Hkeys. apply all_categories_complete. }
    exists v. split; [exact Hv|].
    rewrite Forall_forall in Hvals. apply Hvals.
    apply list_elem_of_In. exact (od_get_value_In _ _ _ Hv).
  - unfold calculate_overall_mastery.
    assert (Hlen : length (map snd (categories m)) = 8%nat).
    { rewrite length_map, <- (length_map fst), Hkeys. reflexivity. }
    destruct (map snd (categories m)) as [|v0 vs] eqn:E; [discriminate|].
    rewrite Hlen. reflexivity.
Qed.

(** One update keeps any value within the bounds, whatever the deltas,
    the complexity and the rating are. *)
Lemma _update_mastery_levels_within_bounds `{PyBuiltins} changes c fb s :
  cats_ok (categories (mastery s)) ->
  cats_ok (categories (mastery (fst (_update_mastery_levels changes c fb s)))).
Proof. apply for_each_update_category_cats_ok. Qed.

End mastery.

(** ** LearningSystem: the suggested experiments *)
Section experiments.
Import LearningSystem.

Lemma insert_desc_perm x l : Permutation (insert_desc x l) (x :: l).
Proof.
  induction l as [|y l IH]; simpl; [reflexivity|].
  destruct (Qle_bool (e_confidence y) (e_confidence x)); [reflexivity|].
  rewrite IH. apply perm_swap.
Qed.

Lemma sorted_desc_perm l : Permutation (sorted_desc l) l.
Proof.
  induction l as [|x l IH]; simpl; [reflexivity|].
  rewrite insert_desc_perm. apply perm_skip, IH.
Qed.

Lemma insert_desc_sorted x l :
  StronglySorted at_least l -> StronglySorted at_least (insert_desc x l).
Proof.
  induction 1 as [|y l Hl IH Hy]; simpl.
  - constructor; constructor.
  - destruct (Qle_bool (e_confidence y) (e_confidence x)) eqn:E.
    + apply Qle_bool_iff in E.
      constructor; [constructor; assumption|].
      constructor; [exact E|].
      eapply List.Forall_impl; [|exact Hy].
      intros z Hz. unfold at_least in *. eapply Qle_trans; eassumption.
    + constructor; [exact IH|].
      assert (Hxy : e_confidence x <= e_confidence y).
      { apply Qlt_le_weak. apply Qnot_le_lt. intros Hle.
        apply Qle_bool_iff in Hle. congruence. }
      eapply Permutation_Forall; [symmetry; apply insert_desc_perm|].
      constructor; assumption.
Qed.

Lemma sorted_desc_sorted l : StronglySorted at_least (sorted_desc l).
Proof.
  induction l as [|x l IH]; simpl; [constructor|].
  apply insert_desc_sorted, IH.
Qed.

(** In a sorted list nothing placed before an element is less confident
    than it. *)
Lemma sorted_prefix_at_least l1 : forall p l2,
  StronglySorted at_least (l1 ++ p :: l2) ->
  forall q, In q l1 -> e_confidence p <= e_confidence q.
Proof.
  induction l1 as [|x l1 IH]; intros p l2 Hs q Hq; [destruct Hq|].
  simpl in Hs. inversion Hs as [|? ? Hs' Hx]; subst.
  destruct Hq as [->|Hq].
  - rewrite List.Forall_forall in Hx. apply (Hx p).
    apply in_or_app. right. left. reflexivity.
  - exact (IH p l2 Hs' q Hq).
Qed.

Lemma through_partner_In (fc : odict string (odict string Q)) (A : string)
    (rowA : odict string Q) (B : string) (sAB : Q) (rowB : odict string Q)
    (C : string) (sBC : Q) :
  od_get B fc = Some rowB ->
  od_get C rowB = Some sBC ->
  0 < sBC ->
  od_get C rowA = None ->
  C <> A ->
  In {| e_ingredients := [A; C];
        e_reasoning := String.append "Based on mutual success with " B;
        e_confidence := py_min sAB sBC / 10 |}
     (through_partner fc A rowA B sAB).
Proof.
  intros HrowB HC Hpos Hnew Hne. unfold through_partner.
  apply in_flat_map. exists (C, sBC). split.
  - rewrite HrowB. simpl. apply od_get_In, HC.
  - rewrite (proj2 (Qlt_bool_iff 0 sBC) Hpos).
    unfold od_mem. rewrite Hnew. simpl.
    rewrite bool_decide_eq_false_2 by exact Hne. simpl.
    left. reflexivity.
Qed.

Lemma experiments_of_In (fc : odict string (odict string Q)) (A : string)
    (rowA : odict string Q) (B : string) (sAB : Q) (rowB : odict string Q)
    (C : string) (sBC : Q) :
  od_get A fc = Some rowA ->
  od_get B rowA = Some sAB ->
  0 < sAB ->
  od_get B fc = Some rowB ->
  od_get C rowB = Some sBC ->
  0 < sBC ->
  od_get C rowA = None ->
  C <> A ->
  In {| e_ingredients := [A; C];
        e_reasoning := String.append "Based on mutual success with " B;
        e_confidence := py_min sAB sBC / 10 |}
     (experiments_of fc).
Proof.
  intros HrowA HB HposB HrowB HC HposC Hnew Hne. unfold experiments_of.
  apply in_flat_map. exists (A, rowA). split; [apply od_get_In, HrowA|].
  apply in_flat_map. exists (B, sAB). split.
  - apply list_elem_of_In, list_elem_of_filter. split.
    + simpl. apply Qlt_bool_iff, HposB.
    + apply list_elem_of_In, od_get_In, HB.
  - eapply through_partner_In; eassumption.
Qed.

Lemma suggest_experiments_In (self : t) (A : string) (rowA : odict string Q)
    (B : string) (sAB : Q) (rowB : odict string Q) (C : string) (sBC : Q) :
  od_get A (flavor_combinations self) = Some rowA ->
  od_get B rowA = Some sAB ->
  0 < sAB ->
  od_get B (flavor_combinations self) = Some rowB ->
  od_get C rowB = Some sBC ->
  0 < sBC ->
  od_get C rowA = None ->
  C <> A ->
  In {| e_ingredients := [A; C];
        e_reasoning := String.append "Based on mutual success with " B;
        e_confidence := py_min sAB sBC / 10 |}
     (suggest_experiments self).
Proof.
  intros. unfold suggest_experiments.
  eapply Permutation_in; [symmetry; apply sorted_desc_perm|].
  eapply experiments_of_In; eassumption.
Qed.

Lemma suggest_experiments_ranked (self : t) l1 p l2 :
  suggest_experiments self = l1 ++ p :: l2 ->
  forall q, In q l1 -> e_confidence p <= e_confidence q.
Proof.
  intros Hl. apply (sorted_prefix_at_least l1 p l2).
  rewrite <- Hl. apply sorted_desc_sorted.
Qed.

(** A call rated 1 on an engine with a history raises once its
    complexity score is there. *)
Lemma rated_one_raises `{PyBuiltins}
    (events : list (string * Recipe * Feedback)) now recipe fb c :
  _calculate_complexity recipe = inr c ->
  rating fb == 1 ->
  snd (evaluate_recipe_success now recipe fb (run events init))
  = inl (AttributeError "LearningSystem" "successful_innovations").
Proof.
  intros Hc Hr.
  rewrite (evaluate_recipe_success_stages _ _ _ _ _ Hc). cbv zeta.
  assert (Hk : str_keys (known_recipes (after_flavor c recipe fb (run events init)))).
  { unfold after_flavor. cbv zeta. simpl.
    destruct (after_techniques_frame c recipe fb (run events init)) as (_ & -> & _).
    apply run_str_keys, init_str_keys. }
  rewrite (_is_novel_combination_str_keys _ _ _ Hk).
  apply Qeq_bool_iff in Hr. rewrite Hr. reflexivity.
Qed.

Lemma outcomes_rated_one `{PyBuiltins} (events : list (string * Recipe * Feedback)) :
  forall history,
    Forall (fun ev => rating (snd ev) == 1
                      /\ exists c, _calculate_complexity (snd (fst ev)) = inr c)
           events ->
    outcomes events (run history init)
    = map (fun _ => inl (AttributeError "LearningSystem" "successful_innovations"))
          events.
Proof.
  induction events as [|[[now recipe] fb] events IH]; intros history Hall;
    [reflexivity|].
  inversion Hall as [|? ? [Hr [c Hc]] Hall']; subst. simpl in Hr, Hc.
  cbn [outcomes map]. f_equal.
  - exact (rated_one_raises history now recipe fb c Hc Hr).
  - specialize (IH (history ++ [(now, recipe, fb)]) Hall').
    unfold run in IH. rewrite fold_left_app in IH. exact IH.
Qed.

(** The accumulators after the three calls of the scenario. Each call
    raises after its flavor update (the rating is 1), which stays. *)
Lemma scenario_flavor_combinations `{PyBuiltins} :
  flavor_combinations (run lemon_chicken_garlic_onion init)
  = [("lemon", [("chicken", 1)]);
     ("chicken", [("lemon", 1); ("garlic", 1)]);
     ("garlic", [("chicken", 1); ("onion", 1)]);
     ("onion", [("garlic", 1)])]%string.
Proof.
  unfold run, lemon_chicken_garlic_onion, pair_event. cbn [fold_left].
  erewrite evaluate_recipe_success_flavor by reflexivity.
  erewrite evaluate_recipe_success_flavor by reflexivity.
  erewrite evaluate_recipe_success_flavor by reflexivity.
  vm_compute. reflexivity.
Qed.

(** C7, as the code has it. [suggest_experiments] proposes [(A, C)] for
    every ingredient [A] with a partner [B] of positive score and every
    partner [C] of [B] of positive score that is not [A] and has no entry
    in the row of [A], with confidence [min(score(A,B), score(B,C)) / 10];
    the result is sorted by descending confidence. When the pairs
    lemon-chicken, chicken-garlic and garlic-onion are each updated with
    rating exactly 1, each of the three calls raises [AttributeError]
    after its flavor update, which stays; the result then holds the
    proposal for lemon and garlic with that confidence, and nothing less
    confident is ranked before it. *)
Theorem suggest_experiments_two_hop :
  (forall (self : t) (A B C : string) (rowA rowB : odict string Q) (sAB sBC : Q),
     od_get A (flavor_combinations self) = Some rowA ->
     od_get B rowA = Some sAB ->
     0 < sAB ->
     od_get B (flavor_combinations self) = Some rowB ->
     od_get C rowB = Some sBC ->
     0 < sBC ->
     od_get C rowA = None ->
     C <> A ->
     exists p,
       In p (suggest_experiments self)
       /\ e_ingredients p = [A; C]
       /\ e_confidence p == Qmin sAB sBC / 10)
  /\ (forall self : t, StronglySorted at_least (suggest_experiments self))
  /\ (forall (H : PyBuiltins),
        let self := run lemon_chicken_garlic_onion init in
        let fc := flavor_combinations self in
        Forall (fun ev => rating (snd ev) == 1) lemon_chicken_garlic_onion
        /\ outcomes lemon_chicken_garlic_onion init
           = [inl (AttributeError "LearningSystem" "successful_innovations");
              inl (AttributeError "LearningSystem" "successful_innovations");
              inl (AttributeError "LearningSystem" "successful_innovations")]
        /\ flavor_score fc "lemon" "chicken" == 1
        /\ flavor_score fc "chicken" "garlic" == 1
        /\ exists p,
             In p (suggest_experiments self)
             /\ e_ingredients p = ["lemon"; "garlic"]%string
             /\ e_confidence p
                == Qmin (flavor_score fc "lemon" "chicken")
                        (flavor_score fc "chicken" "garlic") / 10
             /\ (forall l1 l2 q,
                   suggest_experiments self = l1 ++ p :: l2 ->
                   In q l1 -> e_confidence p <= e_confidence q)).
Proof.
  split; [|split].
  - intros self A B C rowA rowB sAB sBC HrowA HB HposB HrowB HC HposC Hnew Hne.
    eexists. split;
      [apply (suggest_experiments_In self A rowA B sAB rowB C sBC); assumption|].
    split; [reflexivity|].
    simpl. rewrite py_min_spec. reflexivity.
  - intros self. apply sorted_desc_sorted.
  - intros H self fc.
    assert (Hfc : fc = [("lemon", [("chicken", 1)]);
                        ("chicken", [("lemon", 1); ("garlic", 1)]);
                        ("garlic", [("chicken", 1); ("onion", 1)]);
                        ("onion", [("garlic", 1)])]%string)
      by apply scenario_flavor_combinations.
    split; [repeat constructor|].
    split.
    { apply (outcomes_rated_one lemon_chicken_garlic_onion []).
      repeat constructor; simpl; eexists; reflexivity. }
    split; [rewrite Hfc; reflexivity|].
    split; [rewrite Hfc; reflexivity|].
    eexists. split; [|split; [|split]].
    + eapply (suggest_experiments_In self "lemon" _ "chicken" 1 _ "garlic" 1);
        try (fold fc; rewrite Hfc); try reflexivity; discriminate.
    + reflexivity.
    + rewrite Hfc. vm_compute. reflexivity.
    + intros l1 l2 q Hl. exact (suggest_experiments_ranked self l1 _ l2 Hl q).
Qed.

Lemma suggest_experiments_two_hop_witness :
  exists p,
    In p (suggest_experiments (set_flavor_combinations lemon_row init))
    /\ e_ingredients p = ["lemon"; "garlic"]%string
    /\ e_confidence p == Qmin 1 1 / 10.
Proof.
  apply (proj1 suggest_experiments_two_hop
           (set_flavor_combinations lemon_row init)
           "lemon" "chicken" "garlic"
           [("chicken", 1)]%string [("lemon", 1); ("garlic", 1)]%string 1 1)%string;
    try reflexivity; discriminate.
Defined.

(** The same three pairs each updated with rating 0.5, a positive rating:
    every call returns, each update lowers the accumulators of its pair
    to -0.5, and nothing is proposed, the pair lemon and garlic
    included. *)
Lemma suggest_experiments_positive_rating_counterexample :
  let self := @run plain_builtins half_rated_pairs init in
  let fc := flavor_combinations self in
  Forall (fun ev => 0 < rating (snd ev)) half_rated_pairs
  /\ Forall (fun r => exists changes, r = inr changes)
            (@outcomes plain_builtins half_rated_pairs init)
  /\ flavor_score fc "lemon" "chicken" == - (1 # 2)
  /\ flavor_score fc "chicken" "garlic" == - (1 # 2)
  /\ suggest_experiments self = []
  /\ ~ (exists p, In p (suggest_experiments self)
                  /\ e_ingredients p = ["lemon"; "garlic"]%string).
Proof.
  split; [repeat constructor|].
  split; [vm_compute; repeat constructor; eexists; reflexivity|].
  split; [vm_compute; reflexivity|].
  split; [vm_compute; reflexivity|].
  split; [vm_compute; reflexivity|].
  intros (p & Hp & _). vm_compute in Hp. exact Hp.
Qed.

Example scenario_suggestions :
  map (fun p => (e_ingredients p, Qred (e_confidence p)))
      (suggest_experiments
         (@run plain_builtins lemon_chicken_garlic_onion init))
  = [(["lemon"; "garlic"], 1 # 10); (["chicken"; "onion"], 1 # 10);
     (["garlic"; "lemon"], 1 # 10); (["onion"; "chicken"], 1 # 10)]%string.
Proof. vm_compute. reflexivity. Qed.

End experiments.

(** ** Loading a snapshot *)
Section persistence.
Import Persistence.











End persistence.

(** * Further properties of the code *)

(** ** IngredientLearner: what one update does to a pair *)
Section ingredient_learner_updates.
Import IngredientLearner.

Lemma cell_learn_from_feedback_diagonal l rating s a :
  cell (learn_from_feedback l rating s) a a = cell s a a.
Proof.
  unfold learn_from_feedback.
  rewrite cell_update_embeddings, cell_learn_rows.
  destruct (decide (a <> a)) as [n|_]; [congruence | reflexivity].
Qed.

Lemma blend_iter_confidence rating n p :
  snd (Nat.iter n (blend rating) p) == snd p + inject_Z (Z.of_nat n).
Proof.
  induction n as [|n IH].
  - simpl. ring.
  - rewrite Nat.iter_succ. unfold blend at 1. cbn [snd]. rewrite IH.
    rewrite Nat2Z.inj_succ, <- Z.add_1_r, inject_Z_plus. ring.
Qed.

Lemma blend_within rating p lo hi :
  lo <= rating <= hi -> lo <= fst p <= hi -> 0 < snd p ->
  lo <= fst (blend rating p) <= hi /\ 0 < snd (blend rating p).
Proof.
  intros [Hrl Hrh] [Hpl Hph] Hc. unfold blend. cbn [fst snd].
  assert (Hc1 : 0 < snd p + 1) by lra.
  split; [split|exact Hc1].
  - apply Qle_shift_div_l; [exact Hc1|].
    assert (lo * snd p <= fst p * snd p)
      by (apply Qmult_le_compat_r; [assumption | lra]).
    lra.
  - apply Qle_shift_div_r; [exact Hc1|].
    assert (fst p * snd p <= hi * snd p)
      by (apply Qmult_le_compat_r; [assumption | lra]).
    lra.
Qed.

Lemma blend_iter_within rating n p lo hi :
  lo <= rating <= hi -> lo <= fst p <= hi -> 0 < snd p ->
  lo <= fst (Nat.iter n (blend rating) p) <= hi
  /\ 0 < snd (Nat.iter n (blend rating) p).
Proof.
  intros Hr Hp Hc. induction n as [|n [IH1 IH2]]; [split; assumption|].
  rewrite Nat.iter_succ. apply blend_within; assumption.
Qed.

(** X1. One call blends the rating into the ordered pair [(a, b)] once
    for every position of [a] and every position of [b] in the list, so a
    list without [a] or without [b] (an empty or one-element list among
    them) leaves the pair as it was; and no call touches a pair [(a, a)]. *)
Theorem learn_from_feedback_visits (l : list string) (rating : Q) (s : t)
    (a b : string) :
  a <> b ->
  cell (learn_from_feedback l rating s) a b
  = Nat.iter (count_occ string_dec l a * count_occ string_dec l b)
             (blend rating) (cell s a b)
  /\ (count_occ string_dec l a = 0%nat \/ count_occ string_dec l b = 0%nat ->
      cell (learn_from_feedback l rating s) a b = cell s a b)
  /\ cell (learn_from_feedback l rating s) a a = cell s a a.
Proof.
  intros Hab.
  pose proof (cell_learn_from_feedback l rating s a b Hab) as Hcell.
  split; [exact Hcell|]. split; [|apply cell_learn_from_feedback_diagonal].
  intros [H0|H0]; rewrite Hcell, H0; [|rewrite Nat.mul_0_r]; reflexivity.
Qed.

Lemma learn_from_feedback_visits_witness :
  cell (learn_from_feedback ["lemon"; "chicken"; "lemon"]%string 1 init)
       "lemon" "chicken"
  = Nat.iter 2 (blend 1) (0, 1).
Proof.
  assert (Hne : "lemon"%string <> "chicken"%string) by discriminate.
  exact (proj1 (learn_from_feedback_visits ["lemon"; "chicken"; "lemon"]%string 1 init
                  "lemon"%string "chicken"%string Hne)).
Defined.

(** X2. The confidence of a pair counts its visits: a call raises it by
    the number of positions of [a] times the number of positions of [b]. *)
Theorem confidence_counts_visits (l : list string) (rating : Q) (s : t)
    (a b : string) :
  a <> b ->
  confidence (learn_from_feedback l rating s) a b
  == confidence s a b
     + inject_Z (Z.of_nat (count_occ string_dec l a * count_occ string_dec l b)).
Proof.
  intros Hab.
  change (confidence (learn_from_feedback l rating s) a b)
    with (snd (cell (learn_from_feedback l rating s) a b)).
  rewrite (cell_learn_from_feedback l rating s a b Hab).
  apply blend_iter_confidence.
Qed.

Lemma confidence_counts_visits_witness :
  confidence (learn_from_feedback ["lemon"; "chicken"]%string 1 init) "lemon" "chicken"
  == confidence init "lemon" "chicken" + inject_Z (Z.of_nat (1 * 1)).
Proof.
  assert (Hne : "lemon"%string <> "chicken"%string) by discriminate.
  exact (confidence_counts_visits ["lemon"; "chicken"]%string 1 init
           "lemon"%string "chicken"%string Hne).
Defined.

Lemma learn_from_feedback_within_unit l rating s :
  0 <= rating <= 1 -> within_unit s -> within_unit (learn_from_feedback l rating s).
Proof.
  intros Hr Hs a b.
  destruct (decide (a = b)) as [->|Hab].
  - change (compatibility (learn_from_feedback l rating s) b b)
      with (fst (cell (learn_from_feedback l rating s) b b)).
    change (confidence (learn_from_feedback l rating s) b b)
      with (snd (cell (learn_from_feedback l rating s) b b)).
    rewrite cell_learn_from_feedback_diagonal. apply Hs.
  - change (compatibility (learn_from_feedback l rating s) a b)
      with (fst (cell (learn_from_feedback l rating s) a b)).
    change (confidence (learn_from_feedback l rating s) a b)
      with (snd (cell (learn_from_feedback l rating s) a b)).
    rewrite (cell_learn_from_feedback l rating s a b Hab).
    destruct (Hs a b) as [Hc Hk].
    apply blend_iter_within; assumption.
Qed.

(** X3. With every rating within 0 and 1 every compatibility score stays
    within 0 and 1, and every confidence stays positive, after any
    sequence of updates from the initial state. *)
Theorem compatibility_within_unit (events : list (list string * Q)) (a b : string) :
  Forall (fun ev => 0 <= snd ev <= 1) events ->
  0 <= compatibility (run events init) a b <= 1
  /\ 0 < confidence (run events init) a b.
Proof.
  intros Hall.
  assert (Hinv : forall s, within_unit s -> within_unit (run events s)).
  { unfold run. induction Hall as [|[l r] events Hr Hall IH]; intros s Hs.
    - exact Hs.
    - simpl. apply IH, learn_from_feedback_within_unit; assumption. }
  apply Hinv. intros x y. vm_compute. repeat split; discriminate.
Qed.

Lemma compatibility_within_unit_witness :
  0 <= compatibility (run [(["lemon"; "chicken"]%string, 1)] init) "lemon" "chicken" <= 1
  /\ 0 < confidence (run [(["lemon"; "chicken"]%string, 1)] init) "lemon" "chicken".
Proof.
  apply (compatibility_within_unit [(["lemon"; "chicken"]%string, 1)]).
  repeat constructor; vm_compute; discriminate.
Defined.

End ingredient_learner_updates.

(** ** RecipeLearner: weights, difficulties and the shape of the graph *)
Section recipe_learner_graph.
Import RecipeLearner.

Lemma learn_transitions_cons x y rest rating s :
  learn_transitions (x :: y :: rest) rating s
  = learn_transitions (y :: rest) rating (learn_transition x y rating s).
Proof. reflexivity. Qed.

Lemma weight_of_learn_transition x y rating s a b :
  weight_of (learn_transition x y rating s) a b
  = (weight_of s a b + (if decide (x = a /\ y = b) then 1 else 0))%Z.
Proof.
  unfold weight_of, learn_transition, _update_difficulty, has_edge. cbn.
  destruct (decide (x = a /\ y = b)) as [[-> ->]|Hne].
  - destruct (edges (technique_graph s) !! (a, b)) as [w|] eqn:E.
    + rewrite bool_decide_eq_true_2 by eauto. cbn.
      rewrite lookup_alter_eq, E. reflexivity.
    + rewrite bool_decide_eq_false_2 by (intros [? [=]]). cbn.
      rewrite lookup_insert_eq. reflexivity.
  - assert (Hk : (x, y) <> (a, b)) by (intros [= -> ->]; apply Hne; split; reflexivity).
    destruct (bool_decide (is_Some (edges (technique_graph s) !! (x, y)))); cbn.
    + rewrite lookup_alter_ne by exact Hk. lia.
    + rewrite lookup_insert_ne by exact Hk. lia.
Qed.

Lemma difficulty_of_learn_transition x y rating s a b :
  difficulty_of (learn_transition x y rating s) a b
  = if decide (x = a /\ y = b) then (difficulty_of s a b + rating) / 2
    else difficulty_of s a b.
Proof.
  unfold difficulty_of, learn_transition, _update_difficulty. cbn.
  destruct (decide (x = a /\ y = b)) as [[-> ->]|Hne].
  - rewrite lookup_insert_eq. reflexivity.
  - rewrite lookup_insert_ne; [reflexivity|].
    intros [= -> ->]. apply Hne. split; reflexivity.
Qed.

Lemma weight_of_learn_transitions rating a b l : forall s,
  weight_of (learn_transitions l rating s) a b
  = (weight_of s a b + Z.of_nat (adjacent a b l))%Z.
Proof.
  induction l as [|x l IH]; intros s; [simpl; lia|].
  destruct l as [|y rest]; [simpl; lia|].
  rewrite learn_transitions_cons, IH, weight_of_learn_transition.
  cbn [adjacent]. destruct (decide (x = a /\ y = b)); lia.
Qed.

Lemma difficulty_of_learn_transitions rating a b l : forall s,
  difficulty_of (learn_transitions l rating s) a b
  = Nat.iter (adjacent a b l) (fun d => (d + rating) / 2) (difficulty_of s a b).
Proof.
  induction l as [|x l IH]; intros s; [reflexivity|].
  destruct l as [|y rest]; [reflexivity|].
  rewrite learn_transitions_cons, IH, difficulty_of_learn_transition.
  cbn [adjacent]. destruct (decide (x = a /\ y = b)).
  - rewrite Nat.add_comm, Nat.iter_add. reflexivity.
  - reflexivity.
Qed.

(** X5. A rating above 0.7 raises the weight of the transition from [a]
    to [b] by the number of times [a] is directly followed by [b] in the
    list (an absent edge counting as weight 0), and blends the rating
    into its difficulty as often, starting from 0.5 when none is
    recorded; a list of fewer than two techniques changes nothing. *)
Theorem learn_technique_sequence_counts (techniques : list string)
    (success_rating : Q) (s : t) (a b : string) :
  7 # 10 < success_rating ->
  weight_of (learn_technique_sequence techniques success_rating s) a b
  = (weight_of s a b + Z.of_nat (adjacent a b techniques))%Z
  /\ difficulty_of (learn_technique_sequence techniques success_rating s) a b
     = Nat.iter (adjacent a b techniques) (fun d => (d + success_rating) / 2)
                (difficulty_of s a b)
  /\ ((length techniques < 2)%nat ->
      learn_technique_sequence techniques success_rating s = s).
Proof.
  intros Hr. unfold learn_technique_sequence.
  rewrite (proj2 (Qlt_bool_iff _ _) Hr).
  split; [apply weight_of_learn_transitions|].
  split; [apply difficulty_of_learn_transitions|].
  destruct techniques as [|x [|y rest]]; simpl; intros Hlen; try reflexivity; lia.
Qed.

Lemma learn_technique_sequence_counts_witness :
  weight_of (learn_technique_sequence ["dicing"; "searing"; "dicing"; "searing"]%string
               (9 # 10) init) "dicing" "searing"
  = (weight_of init "dicing" "searing" + Z.of_nat 2)%Z.
Proof.
  assert (Hr : 7 # 10 < 9 # 10) by (vm_compute; reflexivity).
  exact (proj1 (learn_technique_sequence_counts
                  ["dicing"; "searing"; "dicing"; "searing"]%string (9 # 10) init
                  "dicing"%string "searing"%string Hr)).
Defined.

Lemma graph_ok_learn_transition x y rating s :
  graph_ok s -> graph_ok (learn_transition x y rating s).
Proof.
  intros (Hw & Hd & Hn).
  unfold graph_ok, learn_transition, _update_difficulty, has_edge. cbn.
  destruct (edges (technique_graph s) !! (x, y)) as [w0|] eqn:E.
  - rewrite bool_decide_eq_true_2 by eauto. cbn.
    split; [|split].
    + intros e w. rewrite lookup_alter.
      destruct (decide ((x, y) = e)) as [<-|Hne].
      * rewrite E. cbn. intros [= <-]. specialize (Hw _ _ E). lia.
      * apply Hw.
    + intros e. rewrite lookup_alter_is_Some, lookup_insert_is_Some.
      rewrite Hd. split; [intros Hs; destruct (decide ((x, y) = e)); auto|].
      intros [<-|[_ Hs]]; [|exact Hs].
      apply Hd. rewrite E. eauto.
    + intros u v. rewrite lookup_alter_is_Some. apply Hn.
  - rewrite bool_decide_eq_false_2 by (intros [? [=]]). cbn.
    split; [|split].
    + intros e w. rewrite lookup_insert.
      destruct (decide ((x, y) = e)); [intros [= <-]; lia | apply Hw].
    + intros e. rewrite !lookup_insert_is_Some, Hd. reflexivity.
    + intros u v. rewrite lookup_insert_is_Some.
      rewrite !elem_of_union, !elem_of_singleton.
      intros [[= <- <-]|[_ Hs]]; [tauto|].
      destruct (Hn u v Hs). tauto.
Qed.

Lemma graph_ok_learn_transitions rating l : forall s,
  graph_ok s -> graph_ok (learn_transitions l rating s).
Proof.
  induction l as [|x l IH]; intros s Hs; [exact Hs|].
  destruct l as [|y rest]; [exact Hs|].
  rewrite learn_transitions_cons. apply IH, graph_ok_learn_transition, Hs.
Qed.

Lemma graph_ok_learn_technique_sequence l rating s :
  graph_ok s -> graph_ok (learn_technique_sequence l rating s).
Proof.
  intros Hs. unfold learn_technique_sequence.
  destruct (Qlt_bool (7 # 10) rating); [apply graph_ok_learn_transitions|]; exact Hs.
Qed.

(** X6. After any sequence of updates from the initial state every edge
    of the technique graph has a weight of at least 1, joins two nodes of
    the graph and has a difficulty estimate, and there is no difficulty
    estimate without its edge. *)
Theorem technique_graph_well_formed (events : list (list string * Q)) :
  graph_ok (run events init).
Proof.
  assert (Hinv : forall s, graph_ok s -> graph_ok (run events s)).
  { unfold run. induction events as [|[l r] events IH]; intros s Hs; [exact Hs|].
    simpl. apply IH, graph_ok_learn_technique_sequence, Hs. }
  apply Hinv. unfold graph_ok, init. cbn.
  split; [|split].
  - intros e w. rewrite lookup_empty. discriminate.
  - intros e. rewrite !lookup_empty. split; intros [? [=]].
  - intros u v. rewrite lookup_empty. intros [? [=]].
Qed.

Lemma difficulties_learn_transition x y rating s :
  0 <= rating <= 1 ->
  difficulties_within_unit s ->
  difficulties_within_unit (learn_transition x y rating s).
Proof.
  intros [Hr0 Hr1] Hs e d.
  unfold learn_transition, _update_difficulty. cbn.
  rewrite lookup_insert.
  destruct (decide ((x, y) = e)) as [<-|Hne]; [|apply Hs].
  intros [= <-].
  assert (Hold : 0 <= default (1 # 2) (technique_difficulties s !! (x, y)) <= 1).
  { destruct (technique_difficulties s !! (x, y)) as [d0|] eqn:E; cbn.
    - exact (Hs _ _ E).
    - split; vm_compute; discriminate. }
  destruct Hold as [H0 H1].
  split.
  - apply Qle_shift_div_l; [reflexivity | lra].
  - apply Qle_shift_div_r; [reflexivity | lra].
Qed.

Lemma difficulties_learn_transitions rating l : forall s,
  0 <= rating <= 1 ->
  difficulties_within_unit s ->
  difficulties_within_unit (learn_transitions l rating s).
Proof.
  induction l as [|x l IH]; intros s Hr Hs; [exact Hs|].
  destruct l as [|y rest]; [exact Hs|].
  rewrite learn_transitions_cons.
  apply IH; [exact Hr | apply difficulties_learn_transition; assumption].
Qed.

(** X7. With no rating above 1, every difficulty estimate lies within 0
    and 1 after any sequence of updates from the initial state. *)
Theorem difficulties_bounded (events : list (list string * Q)) :
  Forall (fun ev => snd ev <= 1) events ->
  difficulties_within_unit (run events init).
Proof.
  intros Hall.
  assert (Hinv : forall s, difficulties_within_unit s ->
                           difficulties_within_unit (run events s)).
  { unfold run. induction Hall as [|[l r] events Hr Hall IH]; intros s Hs; [exact Hs|].
    simpl. apply IH. unfold learn_technique_sequence.
    destruct (Qlt_bool (7 # 10) r) eqn:E; [|exact Hs].
    apply Qlt_bool_iff in E. simpl in Hr.
    apply difficulties_learn_transitions; [split; lra | exact Hs]. }
  apply Hinv. intros e d. unfold init. cbn. rewrite lookup_empty. discriminate.
Qed.

Lemma difficulties_bounded_witness :
  difficulties_within_unit (run [(["dicing"; "searing"]%string, 9 # 10)] init).
Proof.
  apply (difficulties_bounded [(["dicing"; "searing"]%string, 9 # 10)]).
  repeat constructor. vm_compute. discriminate.
Defined.

End recipe_learner_graph.

(** ** ComplexityManager: the log, the labels and the ceiling *)
Section complexity_manager_more.
Import ComplexityManager.

Lemma history_update_complexity d s :
  progression_history (update_complexity d s)
  = progression_history s
    ++ [{| level := current_level (update_complexity d s);
           success_rate := success_rate_of d;
           entry_timestamp := timestamp d |}].
Proof. reflexivity. Qed.

Lemma history_run events : forall s,
  exists tail,
    progression_history (run events s) = progression_history s ++ tail
    /\ length tail = length events
    /\ (events <> [] ->
        exists entry, last tail = Some entry
                      /\ level entry = current_level (run events s)).
Proof.
  induction events as [|d events IH] using rev_ind; intros s.
  - exists []. rewrite app_nil_r. split; [reflexivity|]. split; [reflexivity|].
    intros Hne. contradiction.
  - destruct (IH s) as (tail & Htail & Hlen & _).
    unfold run in *. rewrite fold_left_app. cbn [fold_left].
    eexists (tail ++ [_]).
    rewrite history_update_complexity, Htail, <- app_assoc.
    split; [reflexivity|].
    split; [rewrite !length_app, Hlen; reflexivity|].
    intros _. eexists. rewrite last_snoc. split; reflexivity.
Qed.

(** X8. The progression log is append-only: a run of calls leaves the
    earlier entries in place and adds one entry per call, and the last
    entry records the level the manager stands at after the run. *)
Theorem progression_history_appends (events : list recipe_data) (s : t) :
  exists tail,
    progression_history (run events s) = progression_history s ++ tail
    /\ length tail = length events
    /\ (events <> [] ->
        exists entry, last tail = Some entry
                      /\ level entry = current_level (run events s)).
Proof. apply history_run. Qed.

(** X9. The label is that of the highest threshold not above the level:
    Beginner below 20 (negative levels included), Intermediate from 20,
    Advanced from 40, Expert from 60 and Master from 80. *)
Theorem skill_level_ladder (s : t) :
  get_current_skill_level s
  = if (current_level s <? 20)%Z then "Beginner"%string
    else if (current_level s <? 40)%Z then "Intermediate"%string
    else if (current_level s <? 60)%Z then "Advanced"%string
    else if (current_level s <? 80)%Z then "Expert"%string
    else "Master"%string.
Proof.
  unfold get_current_skill_level. cbn [rev skill_thresholds app].
  repeat match goal with
         | |- context [(?a <=? ?b)%Z] => destruct (Z.leb_spec a b)
         | |- context [(?a <? ?b)%Z] => destruct (Z.ltb_spec a b)
         end; try reflexivity; lia.
Qed.

Lemma promotion_needs_techniques lvl n :
  Qle_bool (inject_Z lvl / 10) (inject_Z n) = true -> (lvl <= 10 * n)%Z.
Proof.
  intros Hb. apply Qle_bool_iff in Hb.
  unfold Qle, Qdiv, Qmult, Qinv, inject_Z in Hb. simpl in Hb. lia.
Qed.

Lemma ceiling_step k d s :
  (0 <= k)%Z ->
  (technique_count_of d <= k)%Z ->
  (current_level s <= 10 * k + 5)%Z ->
  (current_level (update_complexity d s) <= 10 * k + 5)%Z.
Proof.
  intros Hk Hd Hs. rewrite level_update_complexity.
  destruct (Qlt_bool (8 # 10) (success_rate_of d)); cbn [andb].
  - destruct (Qle_bool _ _) eqn:E.
    + apply promotion_needs_techniques in E. lia.
    + destruct (Qlt_bool _ _); lia.
  - destruct (Qlt_bool _ _); lia.
Qed.

(** X10. The level cannot outgrow the recipes: when no event lists more
    than [k] techniques the level never exceeds [10 * k + 5]; events
    without techniques, for one, never lift it above 5. *)
Theorem level_ceiling (k : Z) (events : list recipe_data) :
  Forall (fun d => (technique_count_of d <= k)%Z) events ->
  (current_level (run events init) <= Z.max 0 (10 * k + 5))%Z.
Proof.
  intros Hall.
  destruct (Z.le_gt_cases 0 k) as [Hk|Hk].
  - assert (Hinv : forall s, (current_level s <= 10 * k + 5)%Z ->
                             (current_level (run events s) <= 10 * k + 5)%Z).
    { unfold run. induction Hall as [|d events Hd Hall IH]; intros s Hs; [exact Hs|].
      simpl. apply IH, ceiling_step; assumption. }
    specialize (Hinv init). simpl in Hinv. lia.
  - destruct events as [|d events]; [simpl; lia|].
    inversion Hall as [|? ? Hd _]; subst.
    unfold technique_count_of in Hd. lia.
Qed.

Lemma level_ceiling_witness :
  (current_level (run [promoting_event; promoting_event; promoting_event;
                       promoting_event; promoting_event; promoting_event] init)
   <= Z.max 0 (10 * 2 + 5))%Z.
Proof.
  apply (level_ceiling 2).
  repeat constructor; vm_compute; discriminate.
Defined.

Example level_ceiling_reached :
  current_level (run [promoting_event; promoting_event; promoting_event;
                      promoting_event; promoting_event; promoting_event] init)
  = 25%Z.
Proof. vm_compute. reflexivity. Qed.

End complexity_manager_more.

(** ** LearningSystem: the complexity score and what a call leaves behind *)
Section learning_system_more.
Import LearningSystem.

Lemma decimal_value_nonneg s : forall acc n,
  (0 <= acc)%Z -> decimal_value s acc = Some n -> (0 <= n)%Z.
Proof.
  induction s as [|c s IH]; intros acc n Hacc; simpl.
  - intros [= <-]. exact Hacc.
  - destruct ((48 <=? Z.of_nat (nat_of_ascii c))%Z
              && (Z.of_nat (nat_of_ascii c) <=? 57)%Z) eqn:E; [|discriminate].
    apply andb_true_iff in E. destruct E as [E1 E2].
    apply Z.leb_le in E1. apply IH. lia.
Qed.

Lemma plain_builtins_int_nonneg : int_nonneg plain_builtins.
Proof.
  intros txt n. simpl. unfold decimal_int.
  destruct (before_dash txt); [discriminate|].
  apply decimal_value_nonneg. lia.
Qed.

Lemma total_time_of_nonneg `{B : PyBuiltins} l : forall acc T,
  int_nonneg B -> (0 <= acc)%Z -> total_time_of l acc = inr T -> (0 <= T)%Z.
Proof.
  induction l as [|step l IH]; intros acc T Hint Hacc; simpl.
  - intros [= <-]. exact Hacc.
  - destruct (time step) as [[|c txt]|]; try (apply IH; assumption).
    destruct (py_int (before_dash (String c txt))) as [n|] eqn:E; [|discriminate].
    apply IH; [exact Hint|]. specialize (Hint _ _ E). lia.
Qed.

Lemma py_min_unit x : 0 <= x -> 0 <= py_min 1 x <= 1.
Proof.
  intros Hx. unfold py_min. destruct (Qlt_bool x 1) eqn:E.
  - apply Qlt_bool_iff in E. split; lra.
  - split; lra.
Qed.

Lemma len_nonneg {A} (l : list A) : 0 <= len l.
Proof. unfold len. change 0 with (inject_Z 0). rewrite <- Zle_Qle. lia. Qed.

Lemma ratio_nonneg x d : 0 <= x -> 0 < d -> 0 <= x / d.
Proof. intros Hx Hd. apply Qle_shift_div_l; [exact Hd | lra]. Qed.

(** X11. The complexity score, when it is computed, lies within 0 and 1
    (as long as [int] reads no negative minutes); a recipe without steps
    always gets one, and it is at most one half. *)
Theorem complexity_within_unit `{B : PyBuiltins} (recipe : Recipe) :
  int_nonneg B ->
  (forall c, _calculate_complexity recipe = inr c -> 0 <= c <= 1)
  /\ (steps recipe = [] ->
      exists c, _calculate_complexity recipe = inr c /\ 0 <= c <= 1 # 2).
Proof.
  intros Hint.
  pose proof (py_min_unit (len (ingredients recipe) / 10)
                (ratio_nonneg _ 10 (len_nonneg _) eq_refl)) as Hi.
  pose proof (py_min_unit (len (techniques recipe) / 5)
                (ratio_nonneg _ 5 (len_nonneg _) eq_refl)) as Ht.
  split.
  - intros c. unfold _calculate_complexity.
    destruct (total_time_of (steps recipe) 0) as [e|T] eqn:E; [discriminate|].
    intros [= <-].
    pose proof (py_min_unit (len (steps recipe) / 15)
                  (ratio_nonneg _ 15 (len_nonneg _) eq_refl)) as Hs.
    assert (HT : 0 <= inject_Z T).
    { change 0 with (inject_Z 0). rewrite <- Zle_Qle.
      exact (total_time_of_nonneg _ _ _ Hint (Z.le_refl 0) E). }
    pose proof (py_min_unit (inject_Z T / 60) (ratio_nonneg _ 60 HT eq_refl)) as Hm.
    split.
    + apply Qle_shift_div_l; [reflexivity | lra].
    + apply Qle_shift_div_r; [reflexivity | lra].
  - intros Hsteps. unfold _calculate_complexity. rewrite Hsteps. cbn [total_time_of].
    eexists. split; [reflexivity|].
    assert (H0 : py_min 1 (len (@nil RecipeStep) / 15) == 0) by (vm_compute; reflexivity).
    assert (H1 : py_min 1 (inject_Z 0 / 60) == 0) by (vm_compute; reflexivity).
    split.
    + apply Qle_shift_div_l; [reflexivity | lra].
    + apply Qle_shift_div_r; [reflexivity | lra].
Qed.

Lemma complexity_within_unit_witness :
  exists c, @_calculate_complexity plain_builtins egg_onion = inr c /\ 0 <= c <= 1 # 2.
Proof.
  exact (proj2 (@complexity_within_unit plain_builtins egg_onion
                  plain_builtins_int_nonneg) eq_refl).
Defined.

(** X12. What a raising call leaves behind. A call that fails while
    the complexity is computed leaves the engine untouched. A call with
    rating 1 raises after its updates: the technique proficiencies, the
    flavor accumulators and the record of the combination are those of a
    call that went through, and the mastery is as before. *)
Theorem evaluate_recipe_success_on_failure `{B : PyBuiltins}
    (events : list (string * Recipe * Feedback)) (now : string)
    (recipe : Recipe) (fb : Feedback) :
  let s := run events init in
  let s' := fst (evaluate_recipe_success now recipe fb s) in
  (forall e, _calculate_complexity recipe = inl e ->
             s' = s /\ snd (evaluate_recipe_success now recipe fb s) = inl e)
  /\ (forall c, _calculate_complexity recipe = inr c -> rating fb == 1 ->
        technique_proficiency s'
        = fst (fold_left (learn_technique c) (techniques recipe)
                         (technique_proficiency s, no_changes))
        /\ flavor_combinations s'
           = update_flavor_pairs (ingredients recipe) (rating fb)
                                 (flavor_combinations s)
        /\ known_recipes s'
           = od_set (KStr (py_str (combination_of recipe)))
                    {| first_attempted := now; times_attempted := 1 |}
                    (known_recipes s)
        /\ mastery s' = mastery s).
Proof.
  intros s s'. split.
  - intros e He. unfold s'.
    rewrite (evaluate_recipe_success_failed_complexity _ _ _ _ _ He).
    split; reflexivity.
  - intros c Hc Hr.
    assert (Hk : str_keys (known_recipes s)) by apply run_str_keys, init_str_keys.
    split; [|split; [|split]].
    + unfold s'. rewrite (evaluate_recipe_success_stages _ _ _ _ _ Hc). cbv zeta.
      assert (Hk' : str_keys (known_recipes (after_flavor c recipe fb s))).
      { unfold after_flavor. cbv zeta. simpl.
        destruct (after_techniques_frame c recipe fb s) as (_ & -> & _). exact Hk. }
      rewrite (_is_novel_combination_str_keys _ _ _ Hk').
      apply Qeq_bool_iff in Hr. rewrite Hr. cbn [fst].
      unfold after_flavor, after_techniques. rewrite Hr. reflexivity.
    + apply (evaluate_recipe_success_flavor _ _ _ _ _ Hc).
    + apply (evaluate_recipe_success_known_recipes _ _ _ _ _ Hc Hk).
    + unfold s'. rewrite (evaluate_recipe_success_stages _ _ _ _ _ Hc). cbv zeta.
      assert (Hk' : str_keys (known_recipes (after_flavor c recipe fb s))).
      { unfold after_flavor. cbv zeta. simpl.
        destruct (after_techniques_frame c recipe fb s) as (_ & -> & _). exact Hk. }
      rewrite (_is_novel_combination_str_keys _ _ _ Hk').
      apply Qeq_bool_iff in Hr. rewrite Hr. cbn [fst].
      unfold after_flavor, after_techniques. rewrite Hr. reflexivity.
Qed.

Lemma evaluate_recipe_success_on_failure_witness :
  flavor_combinations
    (fst (@evaluate_recipe_success plain_builtins "t1" egg_onion (mkFeedback 1) init))
  = update_flavor_pairs (ingredients egg_onion) 1 (flavor_combinations init).
Proof.
  assert (Hc : @_calculate_complexity plain_builtins egg_onion = inr (18000 # 180000))
    by (vm_compute; reflexivity).
  assert (Hr : 1 == 1) by reflexivity.
  exact (proj1 (proj2 (proj2 (@evaluate_recipe_success_on_failure plain_builtins []
                                "t1"%string egg_onion (mkFeedback 1))
                             (18000 # 180000) Hc Hr))).
Defined.

Lemma hits_swap ing1 ing2 a b : hits ing1 ing2 a b = hits ing1 ing2 b a.
Proof.
  unfold hits.
  repeat match goal with
         | |- context [decide ?P] => destruct (decide P)
         end;
    try reflexivity; exfalso;
    repeat match goal with H : _ /\ _ |- _ => destruct H end;
    match goal with
    | n : ~ _ |- _ => solve [apply n; split; congruence]
    end.
Qed.

Lemma row_hits_swap a b x rest : row_hits a b x rest = row_hits b a x rest.
Proof.
  induction rest as [|y rest IH]; simpl; [reflexivity|].
  rewrite IH, hits_swap. reflexivity.
Qed.

Lemma pair_hits_swap a b l : pair_hits a b l = pair_hits b a l.
Proof.
  induction l as [|x rest IH]; simpl; [reflexivity|].
  rewrite IH, row_hits_swap. reflexivity.
Qed.

(** X13. The flavor accumulators are kept symmetric: after any sequence
    of learning calls from the initial state, raising ones included, the
    score of [(a, b)] is that of [(b, a)]. *)
Theorem flavor_combinations_symmetric `{B : PyBuiltins}
    (events : list (string * Recipe * Feedback)) (a b : string) :
  flavor_score (flavor_combinations (run events init)) a b
  = flavor_score (flavor_combinations (run events init)) b a.
Proof.
  assert (Hinv : forall s,
             (forall x y, flavor_score (flavor_combinations s) x y
                          = flavor_score (flavor_combinations s) y x) ->
             forall x y, flavor_score (flavor_combinations (run events s)) x y
                         = flavor_score (flavor_combinations (run events s)) y x).
  { unfold run. induction events as [|[[now recipe] fb] events IH]; intros s Hs;
      [exact Hs|].
    simpl. apply IH. intros x y.
    destruct (_calculate_complexity recipe) as [e|c] eqn:Hc.
    - rewrite (evaluate_recipe_success_failed_complexity _ _ _ _ _ Hc). apply Hs.
    - rewrite (evaluate_recipe_success_flavor _ _ _ _ _ Hc).
      rewrite !flavor_score_update_flavor_pairs, (pair_hits_swap y x), Hs.
      reflexivity. }
  apply Hinv. reflexivity.
Qed.

Lemma _calculate_complexity_nonneg `{B : PyBuiltins} recipe c :
  int_nonneg B -> _calculate_complexity recipe = inr c -> 0 <= c.
Proof.
  intros Hint. unfold _calculate_complexity.
  destruct (total_time_of (steps recipe) 0) as [e|T] eqn:E; [discriminate|].
  intros [= <-].
  pose proof (py_min_unit (len (ingredients recipe) / 10)
                (ratio_nonneg _ 10 (len_nonneg _) eq_refl)) as Hi.
  pose proof (py_min_unit (len (techniques recipe) / 5)
                (ratio_nonneg _ 5 (len_nonneg _) eq_refl)) as Ht.
  pose proof (py_min_unit (len (steps recipe) / 15)
                (ratio_nonneg _ 15 (len_nonneg _) eq_refl)) as Hs.
  assert (HT : 0 <= inject_Z T).
  { change 0 with (inject_Z 0). rewrite <- Zle_Qle.
    exact (total_time_of_nonneg _ _ _ Hint (Z.le_refl 0) E). }
  pose proof (py_min_unit (inject_Z T / 60) (ratio_nonneg _ 60 HT eq_refl)) as Hm.
  apply Qle_shift_div_l; [reflexivity | lra].
Qed.

Lemma od_set_same {K V} `{EqDecision K} (k : K) (v : V) (d : list (K * V)) :
  od_get k d = Some v -> od_set k v d = d.
Proof.
  induction d as [|[k0 v0] d IH]; simpl; [discriminate|].
  destruct (decide (k = k0)) as [->|Hne].
  - intros [= ->]. reflexivity.
  - intros Hg. rewrite (IH Hg). reflexivity.
Qed.

Lemma set_categories_same s : set_categories (categories (mastery s)) s = s.
Proof. destruct s as [[cats inn] kr tp fc]. reflexivity. Qed.

(** A penalised category that stands at 0 stays there. *)
Lemma clamp_penalty delta c :
  0 <= delta -> 0 <= c ->
  py_max 0 (py_min 1 (0 + delta * c * - (1 # 2) * ((1 # 10) * (1 - 0)))) = 0.
Proof.
  intros Hd Hc.
  set (x := 0 + delta * c * - (1 # 2) * ((1 # 10) * (1 - 0))).
  assert (Hp : 0 <= delta * c) by (apply Qmult_le_0_compat; assumption).
  assert (Hx : x == - (1 # 20) * (delta * c)) by (unfold x; ring).
  assert (Hx0 : x <= 0) by (rewrite Hx; lra).
  unfold py_max, py_min.
  rewrite (proj2 (Qlt_bool_iff x 1)) by lra.
  rewrite (proj2 (Qlt_bool_false_iff 0 x)) by exact Hx0.
  reflexivity.
Qed.

Lemma update_category_idle changes c category s delta :
  od_get category (categories (mastery s)) = Some 0 ->
  od_get (value category) changes = Some delta ->
  0 <= delta -> 0 <= c ->
  update_category changes c (- (1 # 2)) category s = (s, inr tt).
Proof.
  intros Hcur Hdelta Hd Hc.
  unfold update_category, bind, get, put. cbv beta iota.
  rewrite Hcur, Hdelta, (clamp_penalty delta c Hd Hc).
  rewrite (od_set_same _ _ _ Hcur), set_categories_same. reflexivity.
Qed.

Lemma for_each_update_category_idle changes c l s :
  (forall category, od_get category (categories (mastery s)) = Some 0) ->
  (forall category, exists delta,
       od_get (value category) changes = Some delta /\ 0 <= delta) ->
  0 <= c ->
  for_each l (update_category changes c (- (1 # 2))) s = (s, inr tt).
Proof.
  intros Hcur Hch Hc. induction l as [|category l IH]; [reflexivity|].
  simpl. unfold bind.
  destruct (Hch category) as (delta & Hdelta & Hd).
  rewrite (update_category_idle changes c category s delta (Hcur category) Hdelta Hd Hc).
  exact IH.
Qed.

Lemma novelty_deltas_nonneg category :
  exists delta,
    od_get (value category)
           (od_alter (fun v => v + (1 # 10)) (value RECIPE_COMPLEXITY) no_changes)
    = Some delta
    /\ 0 <= delta.
Proof.
  destruct category; eexists; (split; [reflexivity | vm_compute; discriminate]).
Qed.

Lemma evaluate_recipe_success_mastery_idle `{B : PyBuiltins} now recipe fb s :
  int_nonneg B ->
  str_keys (known_recipes s) ->
  (forall category, od_get category (categories (mastery s)) = Some 0) ->
  mastery (fst (evaluate_recipe_success now recipe fb s)) = mastery s.
Proof.
  intros Hint Hk Hcur.
  destruct (_calculate_complexity recipe) as [e|c] eqn:Hc.
  { rewrite (evaluate_recipe_success_failed_complexity _ _ _ _ _ Hc). reflexivity. }
  rewrite (evaluate_recipe_success_stages _ _ _ _ _ Hc). cbv zeta.
  assert (Hm : mastery (after_flavor c recipe fb s) = mastery s).
  { unfold after_flavor. cbv zeta. simpl.
    destruct (after_techniques_frame c recipe fb s) as (_ & _ & ->). reflexivity. }
  assert (Hk' : str_keys (known_recipes (after_flavor c recipe fb s))).
  { unfold after_flavor. cbv zeta. simpl.
    destruct (after_techniques_frame c recipe fb s) as (_ & -> & _). exact Hk. }
  rewrite (_is_novel_combination_str_keys _ _ _ Hk').
  destruct (Qeq_bool (rating fb) 1) eqn:Er; [exact Hm|].
  unfold after_techniques at 1. rewrite Er. cbn [snd].
  unfold finish, _update_mastery_levels. rewrite Er.
  rewrite for_each_update_category_idle.
  - exact Hm.
  - intros category. cbn [mastery set_known_recipes]. rewrite Hm. apply Hcur.
  - apply novelty_deltas_nonneg.
  - exact (_calculate_complexity_nonneg _ _ Hint Hc).
Qed.

(** X14. The mastery never moves: after any sequence of learning calls
    from the initial state every category still stands at 0 (as long as
    [int] reads no negative minutes). A call rated 1 raises before the
    mastery update, and every other rating is a penalty, which the floor
    at 0 absorbs. *)
Theorem mastery_never_moves `{B : PyBuiltins}
    (events : list (string * Recipe * Feedback)) :
  int_nonneg B ->
  mastery (run events init) = mastery init
  /\ forall category,
       od_get category (categories (mastery (run events init))) = Some 0.
Proof.
  intros Hint.
  assert (Hinv : forall s, str_keys (known_recipes s) -> mastery s = mastery init ->
                           mastery (run events s) = mastery init).
  { unfold run. induction events as [|[[now recipe] fb] events IH]; intros s Hk Hs;
      [exact Hs|].
    simpl. apply IH.
    - apply evaluate_recipe_success_str_keys, Hk.
    - rewrite evaluate_recipe_success_mastery_idle; try assumption.
      intros category. rewrite Hs. destruct category; reflexivity. }
  assert (Hm : mastery (run events init) = mastery init)
    by (apply Hinv; [apply init_str_keys | reflexivity]).
  split; [exact Hm|].
  intros category. rewrite Hm. destruct category; reflexivity.
Qed.

Lemma mastery_never_moves_witness :
  mastery (@run plain_builtins [("t1"%string, egg_onion, mkFeedback 0)] init)
  = mastery init.
Proof.
  exact (proj1 (@mastery_never_moves plain_builtins
                  [("t1"%string, egg_onion, mkFeedback 0)]
                  plain_builtins_int_nonneg)).
Defined.

Lemma learn_technique_proficiency_ok c acc technique :
  0 <= c -> proficiency_ok (fst acc) ->
  proficiency_ok (fst (learn_technique c acc technique)).
Proof.
  intros Hc Hok. destruct acc as [tp changes]. cbn [fst] in Hok.
  unfold learn_technique. cbn [fst].
  set (tp1 := match tp !! technique with
              | Some _ => tp
              | None => <[technique := 1 # 10]> tp
              end).
  assert (Hok1 : proficiency_ok tp1).
  { unfold tp1. destruct (tp !! technique) eqn:E; [exact Hok|].
    intros t p. rewrite lookup_insert.
    destruct (decide (technique = t)); [|apply Hok].
    intros [= <-]. split; vm_compute; discriminate. }
  intros t p. rewrite lookup_alter.
  destruct (decide (technique = t)) as [<-|Hne]; [|apply Hok1].
  destruct (tp1 !! technique) as [p0|] eqn:E; [|discriminate].
  cbn. intros [= <-].
  destruct (Hok1 _ _ E) as [Hlo Hhi].
  assert (Hstep : 0 <= (1 # 10) * c) by (apply Qmult_le_0_compat; [discriminate | exact Hc]).
  unfold py_min. destruct (Qlt_bool (p0 + (1 # 10) * c) 1) eqn:Eb.
  - apply Qlt_bool_iff in Eb. split; lra.
  - split; [vm_compute; discriminate | lra].
Qed.

Lemma fold_learn_technique_proficiency_ok c l : forall acc,
  0 <= c -> proficiency_ok (fst acc) ->
  proficiency_ok (fst (fold_left (learn_technique c) l acc)).
Proof.
  induction l as [|t l IH]; intros acc Hc Hok; [exact Hok|].
  simpl. apply IH; [exact Hc | apply learn_technique_proficiency_ok; assumption].
Qed.

Lemma evaluate_recipe_success_proficiency `{B : PyBuiltins} now recipe fb s c :
  _calculate_complexity recipe = inr c ->
  technique_proficiency (fst (evaluate_recipe_success now recipe fb s))
  = technique_proficiency (fst (after_techniques c recipe fb s)).
Proof.
  intros Hc. rewrite (evaluate_recipe_success_stages _ _ _ _ _ Hc). cbv zeta.
  assert (Hf : technique_proficiency (after_flavor c recipe fb s)
               = technique_proficiency (fst (after_techniques c recipe fb s)))
    by reflexivity.
  destruct (_is_novel_combination_frame now recipe (after_flavor c recipe fb s))
    as (_ & Hn & _).
  rewrite Hf in Hn.
  destruct (_is_novel_combination now recipe (after_flavor c recipe fb s))
    as [s3 [e|[|]]]; cbn [fst] in Hn.
  - exact Hn.
  - destruct (Qeq_bool (rating fb) 1); [exact Hn|].
    match goal with
    | |- technique_proficiency (fst (finish ?ch c fb s3)) = _ =>
        destruct (finish_frame ch c fb s3) as (_ & _ & ->)
    end.
    exact Hn.
  - match goal with
    | |- technique_proficiency (fst (finish ?ch c fb s3)) = _ =>
        destruct (finish_frame ch c fb s3) as (_ & _ & ->)
    end.
    exact Hn.
Qed.

(** X15. Technique proficiencies only change on a rating of 1, a
    technique enters at 0.1 plus its first gain, and every proficiency
    lies within 0.1 and 1 after any sequence of learning calls from the
    initial state (as long as [int] reads no negative minutes). *)
Theorem technique_proficiency_bounds `{B : PyBuiltins}
    (events : list (string * Recipe * Feedback)) :
  int_nonneg B ->
  proficiency_ok (technique_proficiency (run events init))
  /\ (forall now recipe fb,
        ~ rating fb == 1 ->
        technique_proficiency
          (fst (evaluate_recipe_success now recipe fb (run events init)))
        = technique_proficiency (run events init)).
Proof.
  intros Hint.
  assert (Hinv : forall s, proficiency_ok (technique_proficiency s) ->
                           proficiency_ok (technique_proficiency (run events s))).
  { unfold run. induction events as [|[[now recipe] fb] events IH]; intros s Hs;
      [exact Hs|].
    simpl. apply IH.
    destruct (_calculate_complexity recipe) as [e|c] eqn:Hc.
    - rewrite (evaluate_recipe_success_failed_complexity _ _ _ _ _ Hc). exact Hs.
    - rewrite (evaluate_recipe_success_proficiency _ _ _ _ _ Hc).
      unfold after_techniques. destruct (Qeq_bool (rating fb) 1); [|exact Hs].
      cbn [fst set_technique_proficiency technique_proficiency].
      apply fold_learn_technique_proficiency_ok;
        [exact (_calculate_complexity_nonneg _ _ Hint Hc) | exact Hs]. }
  split.
  - apply Hinv. intros t p. cbn. rewrite lookup_empty. discriminate.
  - intros now recipe fb Hr.
    destruct (_calculate_complexity recipe) as [e|c] eqn:Hc.
    + rewrite (evaluate_recipe_success_failed_complexity _ _ _ _ _ Hc). reflexivity.
    + rewrite (evaluate_recipe_success_proficiency _ _ _ _ _ Hc).
      unfold after_techniques.
      destruct (Qeq_bool (rating fb) 1) eqn:E; [|reflexivity].
      apply Qeq_bool_iff in E. contradiction.
Qed.

Lemma technique_proficiency_bounds_witness :
  proficiency_ok
    (technique_proficiency
       (@run plain_builtins [("t1"%string, egg_onion, mkFeedback 1)] init)).
Proof.
  exact (proj1 (@technique_proficiency_bounds plain_builtins
                  [("t1"%string, egg_onion, mkFeedback 1)]
                  plain_builtins_int_nonneg)).
Defined.

End learning_system_more.

(** ** LearningSystem: every suggestion is a two-hop one *)
Section experiments_sound.
Import LearningSystem.

Lemma through_partner_inv (fc : odict string (odict string Q)) (A : string)
    (rowA : odict string Q) (B : string) (sAB : Q) (p : experiment) :
  In p (through_partner fc A rowA B sAB) ->
  exists C sBC,
    In (C, sBC) (default [] (od_get B fc))
    /\ 0 < sBC
    /\ od_get C rowA = None
    /\ C <> A
    /\ p = {| e_ingredients := [A; C];
              e_reasoning := String.append "Based on mutual success with " B;
              e_confidence := py_min sAB sBC / 10 |}.
Proof.
  unfold through_partner. intros Hin.
  apply in_flat_map in Hin. destruct Hin as ([C sBC] & HC & Hp).
  destruct (Qlt_bool 0 sBC) eqn:Epos; [|destruct Hp].
  destruct (od_mem C rowA) eqn:Emem; [destruct Hp|].
  destruct (bool_decide (C = A)) eqn:Eself; [destruct Hp|].
  cbn in Hp. destruct Hp as [<-|[]].
  exists C, sBC. split; [exact HC|].
  split; [apply Qlt_bool_iff, Epos|].
  split; [apply od_mem_false, Emem|].
  split; [|reflexivity].
  apply bool_decide_eq_false in Eself. exact Eself.
Qed.

Lemma py_min_pos a b : 0 < a -> 0 < b -> 0 < py_min a b / 10.
Proof.
  intros Ha Hb. unfold py_min.
  destruct (Qlt_bool b a); apply Qlt_shift_div_l; try reflexivity; lra.
Qed.

(** X16. [suggest_experiments] returns the proposals of the two-hop walk
    and nothing else: the sort neither drops nor adds one, and every
    proposal pairs an ingredient [A] with a different ingredient [C] that
    has no entry in the row of [A], was reached through a partner [B]
    with both scores positive, and carries a positive confidence. *)
Theorem suggest_experiments_sound (self : t) :
  Permutation (suggest_experiments self) (experiments_of (flavor_combinations self))
  /\ forall p,
       In p (suggest_experiments self) ->
       exists A rowA B sAB C sBC,
         In (A, rowA) (flavor_combinations self)
         /\ In (B, sAB) rowA /\ 0 < sAB
         /\ In (C, sBC) (default [] (od_get B (flavor_combinations self)))
         /\ 0 < sBC
         /\ od_get C rowA = None
         /\ C <> A
         /\ e_ingredients p = [A; C]
         /\ e_confidence p = py_min sAB sBC / 10
         /\ 0 < e_confidence p.
Proof.
  split; [apply sorted_desc_perm|].
  intros p Hin.
  apply (Permutation_in _ (sorted_desc_perm _)) in Hin.
  unfold experiments_of in Hin.
  apply in_flat_map in Hin. destruct Hin as ([A rowA] & HA & Hin).
  apply in_flat_map in Hin. destruct Hin as ([B sAB] & HB & Hin).
  apply list_elem_of_In, list_elem_of_filter in HB. destruct HB as [HposB HB].
  apply list_elem_of_In in HB. simpl in HposB. apply Qlt_bool_iff in HposB.
  apply through_partner_inv in Hin.
  destruct Hin as (C & sBC & HC & HposC & Hnew & Hne & ->).
  exists A, rowA, B, sAB, C, sBC.
  repeat split; try assumption.
  cbn. apply py_min_pos; assumption.
Qed.

Lemma suggest_experiments_sound_witness :
  let p := {| e_ingredients := ["lemon"; "garlic"]%string;
              e_reasoning := "Based on mutual success with chicken";
              e_confidence := py_min 1 1 / 10 |} in
  exists A rowA B sAB C sBC,
    In (A, rowA) lemon_row
    /\ In (B, sAB) rowA /\ 0 < sAB
    /\ In (C, sBC) (default [] (od_get B lemon_row))
    /\ 0 < sBC
    /\ od_get C rowA = None
    /\ C <> A
    /\ e_ingredients p = [A; C]
    /\ e_confidence p = py_min sAB sBC / 10
    /\ 0 < e_confidence p.
Proof.
  intros p.
  apply (proj2 (suggest_experiments_sound (set_flavor_combinations lemon_row init)) p).
  vm_compute. left. reflexivity.
Defined.

End experiments_sound.

(** ** LearningSystem: the status report *)
Section learning_status.
Import LearningSystem.

Lemma category_mastery_of_returns (cats : odict SkillCategory Q) l : forall acc,
  (forall category, In category l -> In category (map fst cats)) ->
  exists d, category_mastery_of cats l acc = inr d.
Proof.
  induction l as [|category l IH]; intros acc Hl; simpl; [eauto|].
  destruct (In_keys_od_get category cats) as [v Hv].
  { apply Hl. left. reflexivity. }
  rewrite Hv. apply IH. intros c Hc. apply Hl. right. exact Hc.
Qed.

Lemma calculate_overall_mastery_returns m :
  map fst (categories m) = all_categories ->
  exists q, calculate_overall_mastery m = inr q.
Proof.
  intros Hk. unfold calculate_overall_mastery.
  destruct (categories m) as [|p cats]; [discriminate|].
  simpl. eauto.
Qed.

(** X17. [get_learning_status] never returns its dictionary. After any
    sequence of learning calls on a fresh engine the overall mastery and
    the mastery by category are computed (no [ZeroDivisionError], no
    [KeyError]) and the method then raises [AttributeError] on
    [self.successful_innovations]; on no engine at all does it return. *)
Theorem get_learning_status_raises `{B : PyBuiltins} :
  (forall s, exists e, get_learning_status s = inl e)
  /\ (forall events,
        get_learning_status (run events init)
        = inl (AttributeError "LearningSystem" "successful_innovations")).
Proof.
  split.
  - intros s. unfold get_learning_status.
    destruct (calculate_overall_mastery (mastery s)) as [e|overall]; [eauto|].
    destruct (category_mastery_of _ _ _) as [e|by_category]; [eauto|].
    simpl. eauto.
  - intros events. unfold get_learning_status.
    destruct (run_cats_ok events init init_cats_ok) as [Hkeys _].
    destruct (calculate_overall_mastery_returns _ Hkeys) as [overall ->].
    destruct (category_mastery_of_returns (categories (mastery (run events init)))
                all_categories []) as [by_category ->].
    { intros category _. rewrite Hkeys. apply all_categories_complete. }
    reflexivity.
Qed.

End learning_status.

(** ** The generated cooking steps *)
Section cooking_steps.
Import LearningSystem App.

Lemma total_time_of_last_raises `{B : PyBuiltins} (final : RecipeStep) (txt : string) l :
  time final = Some txt -> txt <> EmptyString ->
  py_int (before_dash txt) = None ->
  forall acc, exists what, total_time_of (l ++ [final]) acc = inl (ValueError what).
Proof.
  intros Ht Hne Hint. induction l as [|step l IH]; intros acc; simpl.
  - rewrite Ht. destruct txt as [|c txt]; [congruence|].
    rewrite Hint. eauto.
  - destruct (time step) as [[|c t]|]; [apply IH| |apply IH].
    destruct (py_int (before_dash (String c t))) as [n|]; [apply IH | eauto].
Qed.

(** X19. The time of the last generated step is ["1 minute"], which
    [int] rejects: summing the minutes of the generated steps raises
    [ValueError] for every ingredient list and style, in [generate_recipe]
    as in [_calculate_complexity] on a recipe that carries such steps. *)
Theorem generated_steps_minutes_raise `{B : PyBuiltins}
    (ingredients : list string) (style : string)
    (items : list Ingredient) (techniques : list string) :
  py_int "1 minute" = None ->
  let steps := generate_cooking_steps ingredients style in
  (exists what, total_minutes steps = inl (ValueError what))
  /\ (exists what,
        _calculate_complexity (mkRecipe items techniques steps)
        = inl (ValueError what)).
Proof.
  intros Hint steps.
  assert (Hsum : exists what, total_time_of steps 0 = inl (ValueError what)).
  { unfold steps, generate_cooking_steps. cbv zeta.
    eapply total_time_of_last_raises; [reflexivity | discriminate | exact Hint]. }
  split; [exact Hsum|].
  destruct Hsum as [what Hw]. exists what.
  unfold _calculate_complexity. cbn [LearningSystem.steps]. rewrite Hw. reflexivity.
Qed.

Lemma generated_steps_minutes_raise_witness :
  @py_int plain_builtins "1 minute" = None
  /\ (exists what,
        @total_minutes plain_builtins
          (generate_cooking_steps ["eggs"; "bread"]%string (style_of ["eggs"; "bread"]%string))
        = inl (ValueError what)).
Proof.
  split; [reflexivity|].
  apply (@generated_steps_minutes_raise plain_builtins ["eggs"; "bread"]%string
           (style_of ["eggs"; "bread"]%string) [] [] eq_refl).
Defined.

Lemma steps_so_far_init : steps_so_far 0 ([], 1%Z).
Proof. repeat split. constructor. Qed.

Lemma steps_so_far_append n instruction minutes tips acc :
  steps_so_far n acc ->
  steps_so_far (S n) (append_step instruction minutes tips acc).
Proof.
  intros (Hlen & Hnum & Hcount & Hall). unfold append_step, steps_so_far.
  cbn [fst snd]. repeat split.
  - rewrite length_app, Hlen. simpl. lia.
  - rewrite map_app, Hnum, seq_S, map_app, Hcount. reflexivity.
  - rewrite Hcount. lia.
  - apply Forall_app. split; [exact Hall|].
    repeat constructor; simpl; eauto.
Qed.

Lemma steps_so_far_final n instruction tips acc :
  steps_so_far n acc -> (1 <= n <= 7)%nat ->
  map step_number
      (fst acc ++ [mkStep (snd acc) instruction (Some "1 minute"%string) (Some tips)])
  = map Z.of_nat
        (seq 1 (length (fst acc ++ [mkStep (snd acc) instruction
                                           (Some "1 minute"%string) (Some tips)])))
  /\ (2 <= length (fst acc ++ [mkStep (snd acc) instruction
                                      (Some "1 minute"%string) (Some tips)]) <= 8)%nat
  /\ Forall (fun step => is_Some (time step) /\ is_Some (LearningSystem.tips step))
            (fst acc ++ [mkStep (snd acc) instruction (Some "1 minute"%string)
                                (Some tips)])
  /\ time <$> last (fst acc ++ [mkStep (snd acc) instruction
                                       (Some "1 minute"%string) (Some tips)])
     = Some (Some "1 minute"%string)
  /\ difficulty (fst acc ++ [mkStep (snd acc) instruction (Some "1 minute"%string)
                                    (Some tips)])
     <> "Hard"%string.
Proof.
  intros (Hlen & Hnum & Hcount & Hall) Hn.
  assert (Hl : length (fst acc ++ [mkStep (snd acc) instruction
                                          (Some "1 minute"%string) (Some tips)])
               = S n) by (rewrite length_app, Hlen; simpl; lia).
  unfold difficulty. rewrite Hl.
  repeat split.
  - rewrite map_app, Hnum, seq_S, map_app, Hcount. reflexivity.
  - lia.
  - lia.
  - apply Forall_app. split; [exact Hall|].
    repeat constructor; simpl; eauto.
  - rewrite last_snoc. reflexivity.
  - destruct (S n <=? 5)%nat; [discriminate|].
    destruct (S n <=? 8)%nat eqn:E; [discriminate|].
    apply Nat.leb_gt in E. lia.
Qed.

(** X18. The generated steps are numbered 1, 2, 3, ... without a gap,
    there are between two and eight of them (so the difficulty is never
    "Hard"), each carries a time and tips, and the last one takes
    ["1 minute"]. *)
Theorem generated_steps_numbered (ingredients : list string) (style : string) :
  let steps := generate_cooking_steps ingredients style in
  map step_number steps = map Z.of_nat (seq 1 (length steps))
  /\ (2 <= length steps <= 8)%nat
  /\ Forall (fun step => is_Some (time step) /\ is_Some (tips step)) steps
  /\ time <$> last steps = Some (Some "1 minute"%string)
  /\ difficulty steps <> "Hard"%string.
Proof.
  cbv delta [generate_cooking_steps contains]. cbv beta.
  destruct (bool_decide ("onions"%string ∈ ingredients));
    destruct (bool_decide ("beef"%string ∈ ingredients));
    destruct (bool_decide ("eggs"%string ∈ ingredients));
    destruct (bool_decide ("bread"%string ∈ ingredients));
    destruct (bool_decide ("ketchup"%string ∈ ingredients));
    destruct (String.eqb style "sandwich");
    cbv beta iota zeta;
    (eapply steps_so_far_final;
     [repeat apply steps_so_far_append; apply steps_so_far_init | lia]).
Qed.

End cooking_steps.

(** ** The feedback endpoint of the application *)
Section learn_endpoint.
Import LearningSystem App.

Lemma recipe_of_complexity `{B : PyBuiltins} feedback :
  exists c, _calculate_complexity (recipe_of feedback) = inr c.
Proof. unfold _calculate_complexity, recipe_of. simpl. eauto. Qed.

Lemma rating_is_one z : Qeq_bool (inject_Z z) 1 = true <-> z = 1%Z.
Proof. rewrite Qeq_bool_iff. unfold Qeq, inject_Z. simpl. lia. Qed.

Lemma novelty_only_deltas :
  od_alter (fun v => v + (1 # 10)) (value RECIPE_COMPLEXITY) no_changes = novelty_only.
Proof. reflexivity. Qed.

(** What a call on an engine with a history answers, once the complexity
    score is there. *)
Lemma evaluate_recipe_success_answer `{B : PyBuiltins}
    (events : list (string * Recipe * Feedback)) now recipe fb c :
  _calculate_complexity recipe = inr c ->
  snd (evaluate_recipe_success now recipe fb (run events init))
  = if Qeq_bool (rating fb) 1
    then inl (AttributeError "LearningSystem" "successful_innovations")
    else inr novelty_only.
Proof.
  intros Hc.
  rewrite (evaluate_recipe_success_stages _ _ _ _ _ Hc). cbv zeta.
  set (s := run events init).
  assert (Hk : str_keys (known_recipes (after_flavor c recipe fb s))).
  { unfold after_flavor. cbv zeta. simpl.
    destruct (after_techniques_frame c recipe fb s) as (_ & -> & _).
    apply run_str_keys, init_str_keys. }
  rewrite (_is_novel_combination_str_keys _ _ _ Hk).
  destruct (Qeq_bool (rating fb) 1) eqn:Hb; [reflexivity|].
  unfold after_techniques. rewrite Hb. cbn [snd].
  rewrite novelty_only_deltas.
  apply finish_returns.
  - simpl. unfold after_flavor, after_techniques. rewrite Hb. simpl.
    apply (run_cats_ok events init init_cats_ok).
  - reflexivity.
Qed.

(** X20. [POST /api/learn] on an engine with any history. With rating 1
    the request fails with [AttributeError] after the engine was updated
    in memory, and [save_state] is not reached: the file keeps its
    earlier content. With any other rating the engine call answers the
    same deltas whatever the feedback says, 0.1 for recipe_complexity and
    0 for the rest, and the response carries them when the file was
    written. *)
Theorem learn_endpoint_outcome `{B : PyBuiltins} (save_state : string -> M t unit)
    (events : list (string * Recipe * Feedback)) (now : string)
    (feedback : LearningFeedback) :
  let s := run events init in
  let call :=
    evaluate_recipe_success now (recipe_of feedback)
      (mkFeedback (inject_Z (feedback_rating feedback))) s in
  (feedback_rating feedback = 1%Z ->
   learn_from_feedback save_state now feedback s
   = (fst call, inl (AttributeError "LearningSystem" "successful_innovations")))
  /\ (feedback_rating feedback <> 1%Z ->
      snd call = inr novelty_only
      /\ learn_from_feedback save_state now feedback s
         = match save_state "learning_state.json" (fst call) with
           | (s', inl e) => (s', inl e)
           | (s', inr _) =>
               (s', inr {| response_message := "Feedback recorded successfully";
                           mastery_changes := novelty_only |})
           end).
Proof.
  intros s call.
  destruct (recipe_of_complexity feedback) as [c Hc].
  pose proof (evaluate_recipe_success_answer events now (recipe_of feedback)
                (mkFeedback (inject_Z (feedback_rating feedback))) c Hc) as Hans.
  fold s in Hans. fold call in Hans. cbn [rating] in Hans.
  unfold learn_from_feedback, bind. fold s. fold call.
  split.
  - intros Hr. apply rating_is_one in Hr. rewrite Hr in Hans.
    destruct call as [s1 r]. simpl in Hans. subst r. reflexivity.
  - intros Hr.
    assert (Hb : Qeq_bool (inject_Z (feedback_rating feedback)) 1 = false).
    { destruct (Qeq_bool _ 1) eqn:E; [|reflexivity].
      apply rating_is_one in E. contradiction. }
    rewrite Hb in Hans. split; [exact Hans|].
    destruct call as [s1 r]. simpl in Hans. subst r. cbn [fst].
    unfold ret. destruct (save_state _ s1) as [s2 [e|u]]; reflexivity.
Qed.

Lemma learn_endpoint_outcome_witness :
  let liked := mkLearningFeedback 7 ["egg"; "onion"]%string ["saute"]%string 1 in
  let disliked := mkLearningFeedback 7 ["egg"; "onion"]%string ["saute"]%string 0 in
  snd (@learn_from_feedback plain_builtins saved "t1" liked init)
  = inl (AttributeError "LearningSystem" "successful_innovations")
  /\ snd (@learn_from_feedback plain_builtins saved "t1" disliked init)
     = inr {| response_message := "Feedback recorded successfully";
              mastery_changes := novelty_only |}.
Proof.
  intros liked disliked. split.
  - exact (f_equal snd
             (proj1 (@learn_endpoint_outcome plain_builtins saved [] "t1"%string liked)
                    eq_refl)).
  - assert (Hr : feedback_rating disliked <> 1%Z) by discriminate.
    destruct (proj2 (@learn_endpoint_outcome plain_builtins saved [] "t1"%string disliked)
                    Hr) as [_ Heq].
    exact (f_equal snd Heq).
Defined.

End learn_endpoint.

(** ** Saving and loading *)
Section persistence_round_trip.
Import LearningSystem Persistence.

Ltac fields :=
  cbn [fst snd categories learning_history successful_innovations known_recipes
       ingredient_relationships technique_proficiency flavor_combinations
       innovation_attempts feedback_history].

Lemma value_inj c1 c2 : value c1 = value c2 -> c1 = c2.
Proof. destruct c1, c2; simpl; intros E; first [reflexivity | discriminate E]. Qed.

Lemma SkillCategory_of_value c : SkillCategory_of (value c) = inr c.
Proof. destruct c; reflexivity. Qed.

Lemma od_get_app_fresh {K V} `{EqDecision K} (k : K) (d1 d2 : list (K * V)) :
  od_get k (d1 ++ d2) = match od_get k d1 with Some v => Some v | None => od_get k d2 end.
Proof.
  induction d1 as [|[k1 v1] d1 IH]; simpl; [reflexivity|].
  destruct (decide (k = k1)); [reflexivity | exact IH].
Qed.

Lemma od_set_fresh {K V} `{EqDecision K} (k : K) (v : V) (d : list (K * V)) :
  ~ In k (map fst d) -> od_set k v d = d ++ [(k, v)].
Proof.
  induction d as [|[k1 v1] d IH]; simpl; intros Hk; [reflexivity|].
  destruct (decide (k = k1)) as [->|Hne]; [tauto|].
  rewrite IH by tauto. reflexivity.
Qed.

(** Assigning items with fresh, pairwise different keys appends them. *)
Lemma fold_od_set_fresh {K V K' V'} `{EqDecision K'} (f : K -> K') (g : V -> V')
    (l : list (K * V)) : forall acc : list (K' * V'),
  (forall a b, f a = f b -> a = b) ->
  NoDup (map fst l) ->
  (forall p, In p l -> ~ In (f (fst p)) (map fst acc)) ->
  fold_left (fun acc p => od_set (f (fst p)) (g (snd p)) acc) l acc
  = acc ++ map (fun p => (f (fst p), g (snd p))) l.
Proof.
  induction l as [|[k v] l IH]; intros acc Hf Hnd Hfresh; simpl.
  - rewrite app_nil_r. reflexivity.
  - inversion Hnd as [|? ? Hk Hnd']; subst.
    rewrite od_set_fresh by (apply (Hfresh (k, v)); left; reflexivity).
    rewrite IH; [rewrite <- app_assoc; reflexivity | exact Hf | exact Hnd' |].
    intros p Hp. rewrite map_app, in_app_iff. simpl.
    intros [Hin|[Heq|[]]].
    + exact (Hfresh p (or_intror Hp) Hin).
    + apply Hf in Heq. apply Hk. rewrite Heq. apply list_elem_of_In, in_map, Hp.
Qed.

Lemma categories_of_saved (l : odict SkillCategory pyval) : forall acc,
  NoDup (map fst l) ->
  (forall p, In p l -> ~ In (fst p) (map fst acc)) ->
  categories_of (map (fun p => (value (fst p), snd p)) l) acc = inr (acc ++ l).
Proof.
  induction l as [|[k v] l IH]; intros acc Hnd Hfresh; simpl.
  - rewrite app_nil_r. reflexivity.
  - inversion Hnd as [|? ? Hk Hnd']; subst.
    rewrite SkillCategory_of_value.
    rewrite od_set_fresh by (apply (Hfresh (k, v)); left; reflexivity).
    rewrite IH; [rewrite <- app_assoc; reflexivity | exact Hnd' |].
    intros p Hp. rewrite map_app, in_app_iff. simpl.
    intros [Hin|[Heq|[]]].
    + exact (Hfresh p (or_intror Hp) Hin).
    + apply Hk. rewrite Heq. apply list_elem_of_In, in_map, Hp.
Qed.

Lemma add_all_distinct l : forall acc,
  distinct_from acc l = true -> add_all l acc = inr (acc ++ l).
Proof.
  induction l as [|x l IH]; intros acc Hd; simpl in *.
  - rewrite app_nil_r. reflexivity.
  - apply andb_prop in Hd as [Hd Hrest]. apply andb_prop in Hd as [Hh Hnew].
    rewrite Hh. apply negb_true_iff in Hnew. rewrite Hnew.
    rewrite (IH _ Hrest), <- app_assoc. reflexivity.
Qed.

Lemma py_set_saved l : is_set l = true -> py_set (PList l) = inr l.
Proof. intros Hl. unfold py_set. simpl. exact (add_all_distinct l [] Hl). Qed.

Lemma relationships_of_saved (l : odict string (list pyval)) : forall acc,
  NoDup (map fst l) ->
  Forall (fun p => is_set (snd p) = true) l ->
  (forall p, In p l -> ~ In (fst p) (map fst acc)) ->
  relationships_of (map (fun p => (fst p, PList (snd p))) l) acc = inr (acc ++ l).
Proof.
  induction l as [|[k v] l IH]; intros acc Hnd Hsets Hfresh; simpl.
  - rewrite app_nil_r. reflexivity.
  - inversion Hnd as [|? ? Hk Hnd']; subst.
    inversion Hsets as [|? ? Hv Hsets']; subst. simpl in Hv.
    rewrite (py_set_saved v Hv).
    rewrite od_set_fresh by (apply (Hfresh (k, v)); left; reflexivity).
    rewrite IH; [rewrite <- app_assoc; reflexivity | exact Hnd' | exact Hsets' |].
    intros p Hp. rewrite map_app, in_app_iff. simpl.
    intros [Hin|[Heq|[]]].
    + exact (Hfresh p (or_intror Hp) Hin).
    + apply Hk. rewrite Heq. apply list_elem_of_In, in_map, Hp.
Qed.

(** X21. Loading what [save_state] wrote restores the engine: for every
    well-formed engine, [load_state] on the saved document gives that
    engine back, whatever the loading engine held before, and prints
    nothing. *)
Theorem save_then_load (self other : engine) :
  well_formed self ->
  load_state (inr (state_document self)) other = (self, []).
Proof.
  intros (Hcats & Hinn & Hrel & Hsets).
  destruct self as [cats hist inn known rel prof flav att fb].
  cbn [categories successful_innovations ingredient_relationships] in *.
  unfold load_state, try_block, state_document.
  cbn [categories learning_history successful_innovations known_recipes
       ingredient_relationships technique_proficiency flavor_combinations
       innovation_attempts feedback_history].
  rewrite (fold_od_set_fresh value (fun v => v) cats [] value_inj Hcats)
    by (intros p _ []).
  rewrite (fold_od_set_fresh (fun k => k) PList rel [] (fun a b E => E) Hrel)
    by (intros p _ []).
  cbn [app].
  pose proof (categories_of_saved cats [] Hcats (fun p _ F => F)) as Ec.
  pose proof (py_set_saved inn Hinn) as Ei.
  pose proof (relationships_of_saved rel [] Hrel Hsets (fun p _ F => F)) as Er.
  cbn [app] in Ec, Er.
  match goal with
  | |- context [PDict [("mastery"%string, ?m); _; _; _; _; _; _]] => set (mdoc := m)
  end.
  match goal with
  | |- context [inr (PDict ?d)] => set (doc := PDict d)
  end.
  assert (Hm : subscript doc "mastery" = inr mdoc) by reflexivity.
  assert (Hc : subscript mdoc "categories"
               = inr (PDict (map (fun p => (value (fst p), snd p)) cats)))
    by reflexivity.
  assert (Hh : subscript mdoc "learning_history" = inr hist) by reflexivity.
  assert (Hi : subscript mdoc "successful_innovations" = inr (PList inn))
    by reflexivity.
  assert (Hk : subscript doc "known_recipes" = inr known) by reflexivity.
  assert (Hr : subscript doc "ingredient_relationships"
               = inr (PDict (map (fun p => (fst p, PList (snd p))) rel)))
    by reflexivity.
  assert (Hp : subscript doc "technique_proficiency" = inr prof) by reflexivity.
  assert (Hf : subscript doc "flavor_combinations" = inr flav) by reflexivity.
  assert (Ha : subscript doc "innovation_attempts" = inr att) by reflexivity.
  assert (Hb : subscript doc "feedback_history" = inr fb) by reflexivity.
  clearbody doc mdoc.
  unfold restore_categories, read_categories, restore_learning_history,
    restore_successful_innovations, restore_known_recipes,
    restore_ingredient_relationships, restore_technique_proficiency,
    restore_flavor_combinations, restore_innovation_attempts,
    restore_feedback_history, read_learning_history,
    read_successful_innovations, read_known_recipes,
    read_ingredient_relationships, read_technique_proficiency,
    read_flavor_combinations, read_innovation_attempts, read_feedback_history,
    bind, lift, get, put, rbind.
  rewrite Hm, Hk, Hr, Hp, Hf, Ha, Hb. fields.
  rewrite Hc, Hh, Hi. unfold items. fields.
  rewrite Ec. fields. rewrite Ei. fields. rewrite Er. fields.
  reflexivity.
Qed.

Lemma save_then_load_witness :
  well_formed trained
  /\ load_state (inr (state_document trained)) init = (trained, []).
Proof.
  assert (Hwf : well_formed trained).
  { unfold well_formed, trained.
    cbn [categories successful_innovations ingredient_relationships map fst].
    split; [apply (bool_decide_unpack _); vm_compute; exact I|].
    split; [reflexivity|].
    split; [apply (bool_decide_unpack _); vm_compute; exact I|].
    repeat constructor. }
  split; [exact Hwf | exact (save_then_load trained init Hwf)].
Defined.

End persistence_round_trip.
